(** * Chat colaborativo: the server's session, room and dispatch engine

    A shallow embedding of [common/protocol.py], [server/models/user.py],
    [server/models/room.py], [server/handlers/message_handler.py],
    [server/server.py] and of the message handling of
    [client/client.py], with the properties of the specification stated
    over it, and further properties of the code after them.

    Conventions of the embedding.
    - A Python [str] is a Rocq [string]; [len] is [String.length].  The
      text that clients supply is taken in the ASCII range, where
      [str.strip] and [str.lower] are the functions below.
    - A value that went through [json.loads] is a [json] tree; a Python
      [dict] with string keys is an association list in insertion order,
      a JSON number an integer (floating-point numbers are left out).
    - The server's dicts and sets are finite maps and sets; they are
      listed in the order of the library, not in Python's insertion or
      hash order, which no property below depends on.
    - [User] objects are mutable and shared between the server's [_users]
      dict and the rooms' [_users] sets: they live in one store, [objs],
      addressed by [user_id] (the key of [User.__hash__] and
      [User.__eq__]); dicts and sets hold references into that store.
    - Every coroutine of the server runs to completion before the next one
      starts; what it sends is collected, in program order, in a list of
      [effect]s.
    - [datetime.now().isoformat()] is an input, [now], of each operation,
      and so is the identifier that [uuid.uuid4] draws at registration.
    - The client's callbacks and its receiving loop run one at a time, and
      a coroutine that [_schedule_coroutine] hands to the loop runs at
      once; what the client does, calls on its window and sends on its
      socket, is collected in a list of [action]s. *)

From Stdlib Require Import ZArith Ascii String List Lia.
From Stdlib Require Import DecimalString DecimalZ DecimalPos DecimalFacts.
From stdpp Require Import base option list gmap strings.

Open Scope string_scope.
Open Scope list_scope.
Open Scope nat_scope.

#[local] Set Warnings "-register-all,-clear-no-such-hyp".

(** ** Python strings *)

Module Str.

(** [c.isspace()] for a character of the ASCII range. *)
Definition is_space (c : ascii) : bool :=
  let n := nat_of_ascii c in
  (((9 <=? n) && (n <=? 13)) || ((28 <=? n) && (n <=? 32)))%nat.

Definition lower_char (c : ascii) : ascii :=
  let n := nat_of_ascii c in
  if ((65 <=? n) && (n <=? 90))%nat then ascii_of_nat (n + 32) else c.

Fixpoint lstrip (s : string) : string :=
  match s with
  | String c s' => if is_space c then lstrip s' else s
  | EmptyString => EmptyString
  end.

Definition rstrip (s : string) : string :=
  String.rev (lstrip (String.rev s)).

(** [s.strip()] *)
Definition strip (s : string) : string := rstrip (lstrip s).

(** [s.lower()] *)
Fixpoint lower (s : string) : string :=
  match s with
  | String c s' => String (lower_char c) (lower s')
  | EmptyString => EmptyString
  end.

(** [len(s)] *)
Definition len (s : string) : Z := Z.of_nat (String.length s).

(** Truth value of a string: [bool(s)]. *)
Definition truthy (s : string) : bool :=
  match s with EmptyString => false | _ => true end.

End Str.

(** ** JSON values *)

Inductive json : Type :=
| JNull
| JBool (b : bool)
| JNum (z : Z)
| JStr (s : string)
| JArr (l : list json)
| JObj (l : list (string * json)).

(** Induction on a value, with the property at hand for the items of a
list and the values of a dict. *)
Section json_induction.
Variable P : json → Prop.
Hypothesis Hnull : P JNull.
Hypothesis Hbool : ∀ b, P (JBool b).
Hypothesis Hnum : ∀ z, P (JNum z).
Hypothesis Hstr : ∀ s, P (JStr s).
Hypothesis Harr : ∀ l, Forall P l → P (JArr l).
Hypothesis Hobj : ∀ l, Forall (λ kv, P kv.2) l → P (JObj l).

Fixpoint json_induction (j : json) : P j :=
  match j with
  | JNull => Hnull
  | JBool b => Hbool b
  | JNum z => Hnum z
  | JStr s => Hstr s
  | JArr l =>
      Harr l ((fix go (l : list json) : Forall P l :=
                 match l with
                 | [] => List.Forall_nil P
                 | x :: l' => @List.Forall_cons _ P x l' (json_induction x) (go l')
                 end) l)
  | JObj l =>
      Hobj l ((fix go (l : list (string * json)) : Forall (λ kv, P kv.2) l :=
                 match l with
                 | [] => List.Forall_nil _
                 | kv :: l' =>
                     @List.Forall_cons _ (λ kv, P kv.2) kv l'
                       (json_induction kv.2) (go l')
                 end) l)
  end.
End json_induction.

(** Exceptions that the connection loop distinguishes: its first handler
    catches [json.JSONDecodeError], its second every other [Exception]. *)
Inductive exn : Type :=
| JSONDecodeError
| KeyError
| ValueError
| TypeError
| AttributeError.

Inductive outcome (A : Type) : Type :=
| Ok (a : A)
| Raise (e : exn).
Arguments Ok {A} a.
Arguments Raise {A} e.

Module Json.

Fixpoint assoc (k : string) (l : list (string * json)) : option json :=
  match l with
  | [] => None
  | (k', v) :: l' => if String.eqb k k' then Some v else assoc k l'
  end.

(** [d[k]] *)
Definition getitem (d : json) (k : string) : outcome json :=
  match d with
  | JObj l => match assoc k l with Some v => Ok v | None => Raise KeyError end
  | _ => Raise TypeError
  end.

(** [d.get(k, default)]; only a dict has the method. *)
Definition get (d : json) (k : string) (default : json) : outcome json :=
  match d with
  | JObj l => Ok (match assoc k l with Some v => v | None => default end)
  | _ => Raise AttributeError
  end.

(** [bool(v)] *)
Definition truthy (v : json) : bool :=
  match v with
  | JNull => false
  | JBool b => b
  | JNum z => negb (Z.eqb z 0)
  | JStr s => Str.truthy s
  | JArr l => match l with [] => false | _ => true end
  | JObj l => match l with [] => false | _ => true end
  end.

(** [v.strip()]; only a [str] has the method. *)
Definition strip (v : json) : outcome string :=
  match v with
  | JStr s => Ok (Str.strip s)
  | _ => Raise AttributeError
  end.

End Json.

(** ** Python's [json] module

    A model of [json.dumps(_, ensure_ascii=False)] and of [json.loads] on
    texts without floating-point literals: [dumps] writes with the
    separators [, ] and [: ] and escapes the quote, the backslash and the
    control characters; [loads] is a recursive-descent reader with fuel
    (the length of the text suffices).  The server's codec below takes its
    [dumps] and [loads] as parameters; this pair is the instance for
    concrete frames, and it reads back what it writes
    ([JsonTextFacts.loads_dumps]). *)

Module JsonText.

Definition dquote : ascii := ascii_of_nat 34.
Definition backslash : ascii := ascii_of_nat 92.

Definition hex_digit (n : nat) : ascii :=
  nth n (list_ascii_of_string "0123456789abcdef") "0"%char.

Definition escape_char (c : ascii) : string :=
  let n := nat_of_ascii c in
  if n =? 34 then String backslash (String dquote "")
  else if n =? 92 then String backslash (String backslash "")
  else if n =? 10 then String backslash "n"
  else if n =? 13 then String backslash "r"
  else if n =? 9 then String backslash "t"
  else if n =? 8 then String backslash "b"
  else if n =? 12 then String backslash "f"
  else if n <? 32 then
    String backslash
      (String "u" (String "0" (String "0"
         (String (hex_digit (n / 16)) (String (hex_digit (n mod 16)) "")))))
  else String c "".

Fixpoint escape (s : string) : string :=
  match s with
  | EmptyString => ""
  | String c s' => escape_char c +:+ escape s'
  end.

Definition dump_string (s : string) : string :=
  String dquote (escape s +:+ String dquote "").

Definition dump_int (z : Z) : string := NilZero.string_of_int (Z.to_int z).

(** [sep.join(l)] *)
Fixpoint join (sep : string) (l : list string) : string :=
  match l with
  | [] => ""
  | [x] => x
  | x :: l' => x +:+ sep +:+ join sep l'
  end.

Fixpoint dumps (j : json) : string :=
  match j with
  | JNull => "null"
  | JBool true => "true"
  | JBool false => "false"
  | JNum z => dump_int z
  | JStr s => dump_string s
  | JArr l => "[" +:+ join ", " (map dumps l) +:+ "]"
  | JObj l =>
      "{" +:+
      join ", " (map (λ kv, dump_string kv.1 +:+ ": " +:+ dumps kv.2) l)
      +:+ "}"
  end.

Definition is_ws (c : ascii) : bool :=
  let n := nat_of_ascii c in
  (n =? 32) || (n =? 9) || (n =? 10) || (n =? 13).

Fixpoint skip_ws (s : string) : string :=
  match s with
  | String c s' => if is_ws c then skip_ws s' else s
  | EmptyString => EmptyString
  end.

Definition hex_value (c : ascii) : option nat :=
  let n := nat_of_ascii c in
  if (48 <=? n) && (n <=? 57) then Some (n - 48)
  else if (97 <=? n) && (n <=? 102) then Some (n - 87)
  else if (65 <=? n) && (n <=? 70) then Some (n - 55)
  else None.

(** The characters of a string literal, after its opening quote. *)
Fixpoint parse_string (s : string) : option (string * string) :=
  match s with
  | EmptyString => None
  | String c r =>
      if Ascii.eqb c dquote then Some ("", r)
      else if Ascii.eqb c backslash then
        match r with
        | String e r1 =>
            let simple (ch : ascii) :=
              '(str, rest) ← parse_string r1; Some (String ch str, rest) in
            if Ascii.eqb e dquote then simple dquote
            else if Ascii.eqb e backslash then simple backslash
            else if Ascii.eqb e "/" then simple "/"%char
            else if Ascii.eqb e "b" then simple (ascii_of_nat 8)
            else if Ascii.eqb e "f" then simple (ascii_of_nat 12)
            else if Ascii.eqb e "n" then simple (ascii_of_nat 10)
            else if Ascii.eqb e "r" then simple (ascii_of_nat 13)
            else if Ascii.eqb e "t" then simple (ascii_of_nat 9)
            else if Ascii.eqb e "u" then
              match r1 with
              | String a (String b (String c1 (String d r2))) =>
                  a' ← hex_value a; b' ← hex_value b;
                  c' ← hex_value c1; d' ← hex_value d;
                  if (a' =? 0) && (b' =? 0) then
                    '(str, rest) ← parse_string r2;
                    Some (String (ascii_of_nat (16 * c' + d')) str, rest)
                  else None
              | _ => None
              end
            else None
        | EmptyString => None
        end
      else if nat_of_ascii c <? 32 then None
      else '(str, rest) ← parse_string r; Some (String c str, rest)
  end.

Definition is_digit (c : ascii) : bool :=
  let n := nat_of_ascii c in (48 <=? n) && (n <=? 57).

Fixpoint span_digits (s : string) : string * string :=
  match s with
  | String c s' =>
      if is_digit c then
        let '(d, r) := span_digits s' in (String c d, r)
      else ("", s)
  | EmptyString => ("", "")
  end.

(** The digits of an integer literal: no leading zero before another
digit; a fraction or an exponent after them is outside the model. *)
Definition parse_digits (s : string) : option (Decimal.uint * string) :=
  let '(ds, rest) := span_digits s in
  match ds with
  | EmptyString => None
  | String first ds' =>
      if Ascii.eqb first "0" && negb (String.eqb ds' "") then None
      else
        match rest with
        | String c _ =>
            if Ascii.eqb c "." || Ascii.eqb c "e" || Ascii.eqb c "E" then None
            else d ← NilZero.uint_of_string ds; Some (d, rest)
        | EmptyString => d ← NilZero.uint_of_string ds; Some (d, rest)
        end
  end.

(** An integer literal. *)
Definition parse_int (s : string) : option (Z * string) :=
  match s with
  | String c r =>
      if Ascii.eqb c "-" then
        '(d, rest) ← parse_digits r; Some ((- Z.of_uint d)%Z, rest)
      else
        '(d, rest) ← parse_digits s; Some (Z.of_uint d, rest)
  | EmptyString => None
  end.

(** [s] without its prefix [p], when it has it. *)
Fixpoint strip_prefix (p s : string) : option string :=
  match p with
  | EmptyString => Some s
  | String c p' =>
      match s with
      | String c' s' => if Ascii.eqb c c' then strip_prefix p' s' else None
      | EmptyString => None
      end
  end.

Fixpoint parse_value (fuel : nat) (s : string) : option (json * string) :=
  match fuel with
  | O => None
  | S fuel' =>
      match skip_ws s with
      | EmptyString => None
      | String c r =>
          if Ascii.eqb c "n" then r' ← strip_prefix "ull" r; Some (JNull, r')
          else if Ascii.eqb c "t" then r' ← strip_prefix "rue" r; Some (JBool true, r')
          else if Ascii.eqb c "f" then r' ← strip_prefix "alse" r; Some (JBool false, r')
          else if Ascii.eqb c dquote then
            '(str, r') ← parse_string r; Some (JStr str, r')
          else if Ascii.eqb c "[" then
            match skip_ws r with
            | String c' r' =>
                if Ascii.eqb c' "]" then Some (JArr [], r')
                else '(l, r') ← parse_elements fuel' r; Some (JArr l, r')
            | EmptyString => None
            end
          else if Ascii.eqb c "{" then
            match skip_ws r with
            | String c' r' =>
                if Ascii.eqb c' "}" then Some (JObj [], r')
                else '(l, r') ← parse_members fuel' r; Some (JObj l, r')
            | EmptyString => None
            end
          else '(z, r') ← parse_int (String c r); Some (JNum z, r')
      end
  end
with parse_elements (fuel : nat) (s : string) : option (list json * string) :=
  match fuel with
  | O => None
  | S fuel' =>
      '(v, r) ← parse_value fuel' s;
      match skip_ws r with
      | String c r' =>
          if Ascii.eqb c "," then
            '(l, r'') ← parse_elements fuel' r'; Some (v :: l, r'')
          else if Ascii.eqb c "]" then Some ([v], r')
          else None
      | EmptyString => None
      end
  end
with parse_members (fuel : nat) (s : string)
    : option (list (string * json) * string) :=
  match fuel with
  | O => None
  | S fuel' =>
      match skip_ws s with
      | String q r =>
          if Ascii.eqb q dquote then
            '(k, r1) ← parse_string r;
            match skip_ws r1 with
            | String c r2 =>
                if Ascii.eqb c ":" then
                  '(v, r3) ← parse_value fuel' r2;
                  match skip_ws r3 with
                  | String c' r4 =>
                      if Ascii.eqb c' "," then
                        '(l, r5) ← parse_members fuel' r4; Some ((k, v) :: l, r5)
                      else if Ascii.eqb c' "}" then Some ([(k, v)], r4)
                      else None
                  | EmptyString => None
                  end
                else None
            | EmptyString => None
            end
          else None
      | EmptyString => None
      end
  end.

(** A Python dict keeps one value per key: a key read again takes the
    place of its first occurrence, with the later value. *)
Fixpoint dict_set (k : string) (v : json) (l : list (string * json))
    : list (string * json) :=
  match l with
  | [] => [(k, v)]
  | (k', v') :: l' =>
      if String.eqb k k' then (k, v) :: l' else (k', v') :: dict_set k v l'
  end.

Fixpoint normalize (j : json) : json :=
  match j with
  | JArr l => JArr (map normalize l)
  | JObj l =>
      JObj (fold_left (λ d kv, dict_set kv.1 kv.2 d)
              (map (λ kv, (kv.1, normalize kv.2)) l) [])
  | _ => j
  end.

Definition loads (s : string) : option json :=
  '(v, r) ← parse_value (S (String.length s)) s;
  match skip_ws r with
  | EmptyString => Some (normalize v)
  | _ => None
  end.

(** What may follow a value in a text that [dumps] wrote. *)
Definition delimited (rest : string) : Prop :=
  match rest with
  | EmptyString => True
  | String c _ => c = ","%char ∨ c = "]"%char ∨ c = "}"%char
  end.

(** A value that [dumps] wrote starts with a character that is neither
white space nor a closing bracket. *)
Definition value_head (c : ascii) : Prop :=
  is_ws c = false ∧ c ≠ "]"%char ∧ c ≠ "}"%char.

(** One member of a dict, as [dumps] writes it. *)
Definition dump_member (kv : string * json) : string :=
  dump_string kv.1 +:+ ": " +:+ dumps kv.2.

(** One [key: value] member, up to what follows the value: the first
part of [parse_members]. *)
Definition parse_member (fuel : nat) (s : string)
    : option (string * json * string) :=
  match skip_ws s with
  | String q r =>
      if Ascii.eqb q dquote then
        '(k, r1) ← parse_string r;
        match skip_ws r1 with
        | String c r2 =>
            if Ascii.eqb c ":" then
              '(v, r3) ← parse_value fuel r2; Some (k, v, r3)
            else None
        | EmptyString => None
        end
      else None
  | EmptyString => None
  end.

(** Fuel that suffices to read a value back. *)
Fixpoint size (j : json) : nat :=
  match j with
  | JArr l => 1 + list_sum (map (λ x, 1 + size x) l)
  | JObj l => 1 + list_sum (map (λ kv, 1 + size kv.2) l)
  | _ => 1
  end.

(** Every key of every dict occurs once, as in a Python dict. *)
Fixpoint unique_keys (j : json) : Prop :=
  match j with
  | JArr l => fold_right (λ x acc, unique_keys x ∧ acc) True l
  | JObj l =>
      NoDup (map fst l) ∧ fold_right (λ kv acc, unique_keys kv.2 ∧ acc) True l
  | _ => True
  end.

(** [j] is read back from what [dumps] wrote, whatever delimiter follows. *)
Definition reads_back (j : json) : Prop :=
  ∀ fuel rest,
    size j ≤ fuel → delimited rest →
    parse_value fuel (dumps j +:+ rest) = Some (j, rest).

End JsonText.

(** ** common/protocol.py *)

Inductive MessageType : Type :=
| CONNECT | DISCONNECT | CONNECTION_ACK | CONNECTION_ERROR
| CREATE_ROOM | JOIN_ROOM | LEAVE_ROOM | LIST_ROOMS | ROOMS_LIST | ROOM_USERS
| CHAT_MESSAGE | SYSTEM_MESSAGE
| USER_JOINED | USER_LEFT
| ERROR.

#[global] Instance MessageType_eq_dec : EqDecision MessageType.
Proof. solve_decision. Defined.

Definition all_message_types : list MessageType :=
  [CONNECT; DISCONNECT; CONNECTION_ACK; CONNECTION_ERROR;
   CREATE_ROOM; JOIN_ROOM; LEAVE_ROOM; LIST_ROOMS; ROOMS_LIST; ROOM_USERS;
   CHAT_MESSAGE; SYSTEM_MESSAGE; USER_JOINED; USER_LEFT; ERROR].

(** [t.value] *)
Definition value (t : MessageType) : string :=
  match t with
  | CONNECT => "connect"
  | DISCONNECT => "disconnect"
  | CONNECTION_ACK => "connection_ack"
  | CONNECTION_ERROR => "connection_error"
  | CREATE_ROOM => "create_room"
  | JOIN_ROOM => "join_room"
  | LEAVE_ROOM => "leave_room"
  | LIST_ROOMS => "list_rooms"
  | ROOMS_LIST => "rooms_list"
  | ROOM_USERS => "room_users"
  | CHAT_MESSAGE => "chat_message"
  | SYSTEM_MESSAGE => "system_message"
  | USER_JOINED => "user_joined"
  | USER_LEFT => "user_left"
  | ERROR => "error"
  end.

(** [MessageType(v)]: the member whose value is [v], [ValueError] when
    there is none (in particular when [v] is not a string). *)
Definition MessageType_of (v : json) : outcome MessageType :=
  match v with
  | JStr s =>
      match List.find (fun t => String.eqb (value t) s) all_message_types with
      | Some t => Ok t
      | None => Raise ValueError
      end
  | _ => Raise ValueError
  end.

Record Message : Type := mkMessage {
  type : MessageType;
  payload : json;
  timestamp : json
}.

(** [Message(type, payload, timestamp)] with [__post_init__]: a missing
    timestamp ([None]) is replaced by the clock's reading. *)
Definition Message_init (now : string) (t : MessageType) (p : json)
    (ts : json) : Message :=
  mkMessage t p (match ts with JNull => JStr now | _ => ts end).

Section Codec.

(** [json.dumps(_, ensure_ascii=False)] and [json.loads] belong to
    Python's library; [loads] answers [None] where the library raises
    [JSONDecodeError]. *)
Variable dumps : json → string.
Variable loads : string → option json.

Definition to_json (m : Message) : string :=
  let data := JObj [("type", JStr (value (type m)));
                    ("payload", payload m);
                    ("timestamp", timestamp m)] in
  dumps data.

Definition from_json (now : string) (json_str : string) : outcome Message :=
  match loads json_str with
  | None => Raise JSONDecodeError
  | Some data =>
      match Json.getitem data "type" with
      | Raise e => Raise e
      | Ok tv =>
          match MessageType_of tv with
          | Raise e => Raise e
          | Ok t =>
              match Json.getitem data "payload" with
              | Raise e => Raise e
              | Ok p =>
                  match Json.get data "timestamp" JNull with
                  | Raise e => Raise e
                  | Ok ts => Ok (Message_init now t p ts)
                  end
              end
          end
      end
  end.

End Codec.

Module MessageFactory.
Section Factory.

Variable now : string.

Definition msg (t : MessageType) (p : list (string * json)) : Message :=
  Message_init now t (JObj p) JNull.


Definition create_disconnect (username : string) : Message :=
  msg DISCONNECT [("username", JStr username)].

Definition create_connection_ack (username user_id : string) : Message :=
  msg CONNECTION_ACK [("username", JStr username); ("user_id", JStr user_id)].

Definition create_connection_error (reason : string) : Message :=
  msg CONNECTION_ERROR [("reason", JStr reason)].

Definition create_room (room_name : string) : Message :=
  msg CREATE_ROOM [("room_name", JStr room_name)].

Definition create_join_room (room_name : string) : Message :=
  msg JOIN_ROOM [("room_name", JStr room_name)].


Definition create_list_rooms : Message :=
  msg LIST_ROOMS [].

Definition create_rooms_list (rooms : list json) : Message :=
  msg ROOMS_LIST [("rooms", JArr rooms)].

Definition create_room_users (room_name : string) (users : list string)
    : Message :=
  msg ROOM_USERS [("room_name", JStr room_name);
                  ("users", JArr (JStr <$> users))].

Definition create_chat_message (username room_name content : string)
    : Message :=
  msg CHAT_MESSAGE [("username", JStr username);
                    ("room_name", JStr room_name);
                    ("content", JStr content)].

(** [room_name] defaults to [None]. *)
Definition create_system_message (content : string)
    (room_name : option string) : Message :=
  msg SYSTEM_MESSAGE
    [("content", JStr content);
     ("room_name", match room_name with Some r => JStr r | None => JNull end)].

Definition create_user_joined (username room_name : string) : Message :=
  msg USER_JOINED [("username", JStr username); ("room_name", JStr room_name)].

Definition create_user_left (username room_name : string) : Message :=
  msg USER_LEFT [("username", JStr username); ("room_name", JStr room_name)].

Definition create_error (error_message : string) : Message :=
  msg ERROR [("message", JStr error_message)].

End Factory.
End MessageFactory.

(** What the server sends: [user.send_message(m.to_json())] on a user
    object, or [websocket.send(m.to_json())] on a connection that has no
    user yet. *)
Inductive effect : Type :=
| UserSend (uid : string) (m : Message)
| SocketSend (ws : nat) (m : Message).

(** ** server/models/user.py *)

Module User.

Record t : Type := mk {
  username : string;
  websocket : nat;
  user_id : string;
  connected_at : string;
  current_room : option string
}.

Definition set_current_room (self : t) (r : option string) : t :=
  mk (username self) (websocket self) (user_id self) (connected_at self) r.

Definition join_room (self : t) (room_name : string) : t :=
  set_current_room self (Some room_name).

(** Returns the room that was left together with the updated user. *)
Definition leave_room (self : t) : option string * t :=
  let previous_room := current_room self in
  (previous_room, set_current_room self None).

Definition is_in_room (self : t) (room_name : string) : bool :=
  bool_decide (current_room self = Some room_name).

(** [bool(user.current_room)]: [None] and the empty string are false. *)
Definition in_some_room (self : t) : bool :=
  match current_room self with
  | Some r => Str.truthy r
  | None => false
  end.

End User.

(** ** server/models/room.py *)

Record HistoryEntry : Type := mkEntry {
  entry_username : string;
  entry_content : string;
  entry_timestamp : string
}.

(** [l[i:]] for a Python list, negative [i] counting from the end. *)
Definition slice_from {A} (i : Z) (l : list A) : list A :=
  if (i <? 0)%Z then drop (Z.to_nat (Z.of_nat (length l) + i)) l
  else drop (Z.to_nat i) l.

Module Room.

Record t : Type := mk {
  name : string;
  created_by : string;
  created_at : string;
  _users : gset string;
  _message_history : list HistoryEntry;
  max_history : Z
}.

(** [Room(name=..., created_by=...)] *)
Definition init (now : string) (name created_by : string) : t :=
  mk name created_by now ∅ [] 100.

Definition set_users (self : t) (s : gset string) : t :=
  mk (name self) (created_by self) (created_at self) s
     (_message_history self) (max_history self).

Definition set_history (self : t) (l : list HistoryEntry) : t :=
  mk (name self) (created_by self) (created_at self) (_users self)
     l (max_history self).

(** [__len__] *)
Definition len (self : t) : Z := Z.of_nat (size (_users self)).

(** [bool(room)]: the class defines [__len__] and no [__bool__], so a
    room is true exactly when it has a user. *)
Definition truthy (self : t) : bool := negb (len self =? 0)%Z.

Definition user_count (self : t) : Z := Z.of_nat (size (_users self)).

Definition is_empty (self : t) : bool := (Z.of_nat (size (_users self)) =? 0)%Z.

(** [usernames]: the set holds references; the names are read from the
    store of user objects. *)
Definition usernames (objs : gmap string User.t) (self : t) : list string :=
  omap (λ id, User.username <$> objs !! id) (elements (_users self)).

Definition add_user (self : t) (user : User.t) : bool * t * User.t :=
  if decide (User.user_id user ∈ _users self) then (false, self, user)
  else (true,
        set_users self (_users self ∪ {[User.user_id user]}),
        User.join_room user (name self)).

Definition remove_user (self : t) (user : User.t) : bool * t * User.t :=
  if decide (User.user_id user ∉ _users self) then (false, self, user)
  else (true,
        set_users self (_users self ∖ {[User.user_id user]}),
        (User.leave_room user).2).

Definition has_user (self : t) (uid : string) : bool :=
  bool_decide (uid ∈ _users self).

Definition add_message_to_history (now : string) (self : t)
    (username content : string) : t :=
  let message := mkEntry username content now in
  let h := _message_history self ++ [message] in
  if (Z.of_nat (length h) >? max_history self)%Z
  then set_history self (slice_from (- max_history self) h)
  else set_history self h.

(** [broadcast(message, exclude)]; a [User] object is always true, so
    [exclude and user == exclude] is [user == exclude]. *)
Definition broadcast (self : t) (message : Message)
    (exclude : option string) : list effect :=
  (λ id, UserSend id message)
    <$> filter (λ id, exclude ≠ Some id) (elements (_users self)).

Definition to_dict (objs : gmap string User.t) (self : t) : json :=
  JObj [("name", JStr (name self));
        ("created_by", JStr (created_by self));
        ("created_at", JStr (created_at self));
        ("user_count", JNum (user_count self));
        ("users", JArr (JStr <$> usernames objs self))].

(** [get_user_by_username]: the first user of the set, in its iteration
    order, that carries the name; the result is a reference. *)
Definition get_user_by_username (objs : gmap string User.t) (self : t)
    (username : string) : option string :=
  List.find
    (λ id, from_option (λ u, String.eqb (User.username u) username) false
             (objs !! id))
    (elements (_users self)).

(** [get_message_history(limit)]; [limit] defaults to 50. *)
Definition get_message_history (self : t) (limit : Z) : list HistoryEntry :=
  slice_from (- limit) (_message_history self).

End Room.

(** ** server/server.py *)

Module ChatServer.

Record t : Type := mk {
  objs : gmap string User.t;
  _users : gset string;
  _rooms : gmap string Room.t;
  _websocket_to_user : gmap nat string
}.

Definition set_objs (f : gmap string User.t → gmap string User.t) (h : t) : t :=
  mk (f (objs h)) (_users h) (_rooms h) (_websocket_to_user h).
Definition set_users (f : gset string → gset string) (h : t) : t :=
  mk (objs h) (f (_users h)) (_rooms h) (_websocket_to_user h).
Definition set_rooms (f : gmap string Room.t → gmap string Room.t) (h : t) : t :=
  mk (objs h) (_users h) (f (_rooms h)) (_websocket_to_user h).
Definition set_websocket_to_user (f : gmap nat string → gmap nat string)
    (h : t) : t :=
  mk (objs h) (_users h) (_rooms h) (f (_websocket_to_user h)).

(** A coroutine of the server: it reads and writes the server's state,
    sends, and returns or raises.  What was written and sent before a
    raise stays. *)
Definition M (A : Type) : Type := t → outcome A * t * list effect.

Definition ret {A} (a : A) : M A := λ h, (Ok a, h, []).

Definition bind {A B} (m : M A) (f : A → M B) : M B := λ h,
  match m h with
  | (Ok a, h1, e1) =>
      match f a h1 with (o, h2, e2) => (o, h2, e1 ++ e2) end
  | (Raise e, h1, e1) => (Raise e, h1, e1)
  end.

Declare Scope M_scope.
Delimit Scope M_scope with M.
Notation "x ← y ; z" := (bind y (λ x, z))
  (at level 20, y at level 100, z at level 200, only parsing) : M_scope.
Notation "x ;; z" := (bind x (λ _, z))
  (at level 100, z at level 200, only parsing, right associativity) : M_scope.
Open Scope M_scope.

Definition get : M t := λ h, (Ok h, h, []).
Definition modify (f : t → t) : M unit := λ h, (Ok tt, f h, []).
Definition send (es : list effect) : M unit := λ h, (Ok tt, h, es).
Definition raise {A} (e : exn) : M A := λ h, (Raise e, h, []).
Definition lift {A} (o : outcome A) : M A := λ h, (o, h, []).

Definition state_of {A} (r : outcome A * t * list effect) : t := r.1.2.
Definition effects_of {A} (r : outcome A * t * list effect) : list effect := r.2.
Definition result_of {A} (r : outcome A * t * list effect) : outcome A := r.1.1.

(** [es] were sent before the run [r]. *)
Definition emit {A} (es : list effect) (r : outcome A * t * list effect)
    : outcome A * t * list effect :=
  (r.1.1, r.1.2, es ++ r.2).

(** [user.current_room], read from the store. *)
Definition current_room_of (uid : string) : M (option string) :=
  h ← get; ret (objs h !! uid ≫= User.current_room).

(** [user.username] *)
Definition username_of (uid : string) : M string :=
  h ← get; ret (from_option User.username "" (objs h !! uid)).

(** [bool(user.current_room)] *)
Definition room_truthy (r : option string) : bool :=
  match r with Some s => Str.truthy s | None => false end.

(** A method of [Room] that also updates the user, called on the room
    stored under [room_name] and on the user object [uid]. *)
Definition on_room (f : Room.t → User.t → bool * Room.t * User.t)
    (room_name uid : string) : M bool :=
  h ← get;
  match _rooms h !! room_name, objs h !! uid with
  | Some room, Some user =>
      let '(ok, room', user') := f room user in
      modify (set_rooms <[room_name := room']>);;
      modify (set_objs <[uid := user']>);;
      ret ok
  | _, _ => ret false
  end.

(** The room object bound to the local variable [room]. *)
Definition room_at (room_name : string) : M Room.t :=
  h ← get;
  ret (from_option id (Room.init "" room_name "") (_rooms h !! room_name)).

Definition room_count (h : t) : Z := Z.of_nat (size (_rooms h)).

Section Operations.

Variable now : string.

(** [ChatServer()], first construction of the singleton. *)
Definition init : t :=
  mk ∅ ∅ {["General" := Room.init now "General" "Sistema"]} ∅.

Definition get_rooms_info : M (list json) :=
  h ← get;
  ret (Room.to_dict (objs h) <$> (map_to_list (_rooms h)).*2).

Definition _broadcast_to_all (message : Message) : M unit :=
  h ← get;
  send ((λ id, UserSend id message) <$> elements (_users h)).

Definition delete_room (room_name : string) : M bool :=
  if decide (room_name = "General") then ret false
  else
    h ← get;
    match _rooms h !! room_name with
    | Some room =>
        if Room.truthy room && Room.is_empty room then
          modify (set_rooms (delete room_name));;
          info ← get_rooms_info;
          _broadcast_to_all (MessageFactory.create_rooms_list now info);;
          ret true
        else ret false
    | None => ret false
    end.

Definition leave_room (uid room_name : string) : M bool :=
  h ← get;
  match _rooms h !! room_name with
  | None => ret false
  | Some room0 =>
      if negb (Room.truthy room0) then ret false
      else
        removed ← on_room Room.remove_user room_name uid;
        if removed then
          username ← username_of uid;
          room ← room_at room_name;
          send (Room.broadcast room
                  (MessageFactory.create_user_left now username room_name)
                  None);;
          h1 ← get;
          (if negb (Room.is_empty room) then
             send (Room.broadcast room
                     (MessageFactory.create_room_users now room_name
                        (Room.usernames (objs h1) room))
                     None)
           else ret tt);;
          (if Room.is_empty room && negb (bool_decide (room_name = "General"))
           then _ ← delete_room room_name; ret tt
           else
             info ← get_rooms_info;
             _broadcast_to_all (MessageFactory.create_rooms_list now info));;
          ret true
        else ret false
  end.

Definition join_room (uid room_name : string) : M bool :=
  cr ← current_room_of uid;
  (if room_truthy cr && negb (bool_decide (cr = Some room_name))
   then _ ← leave_room uid (default "" cr); ret tt
   else ret tt);;
  h ← get;
  match _rooms h !! room_name with
  | Some room0 =>
      if Room.truthy room0 then
        added ← on_room Room.add_user room_name uid;
        if added then
          username ← username_of uid;
          room ← room_at room_name;
          send (Room.broadcast room
                  (MessageFactory.create_user_joined now username room_name)
                  (Some uid));;
          h1 ← get;
          send (Room.broadcast room
                  (MessageFactory.create_room_users now room_name
                     (Room.usernames (objs h1) room))
                  None);;
          send [UserSend uid
                  (MessageFactory.create_system_message now
                     ("Te has unido a la sala '" +:+ room_name +:+ "'")
                     (Some room_name))];;
          info ← get_rooms_info;
          _broadcast_to_all (MessageFactory.create_rooms_list now info);;
          ret true
        else ret false
      else
        send [UserSend uid
                (MessageFactory.create_error now
                   ("La sala '" +:+ room_name +:+ "' no existe"))];;
        ret false
  | None =>
      send [UserSend uid
              (MessageFactory.create_error now
                 ("La sala '" +:+ room_name +:+ "' no existe"))];;
      ret false
  end.

Definition create_room (room_name creator : string) : M bool :=
  h ← get;
  if decide (is_Some (_rooms h !! room_name)) then ret false
  else
    username ← username_of creator;
    modify (set_rooms <[room_name := Room.init now room_name username]>);;
    _broadcast_to_all
      (MessageFactory.create_system_message now
         ("Se ha creado la sala '" +:+ room_name +:+ "'") None);;
    ret true.

Definition create_room_and_join (room_name creator : string) : M bool :=
  cr ← current_room_of creator;
  (if room_truthy cr
   then _ ← leave_room creator (default "" cr); ret tt
   else ret tt);;
  h ← get;
  if decide (is_Some (_rooms h !! room_name)) then ret false
  else
    username ← username_of creator;
    let room0 := Room.init now room_name username in
    room ←
      match objs h !! creator with
      | Some user =>
          let '(_, room', user') := Room.add_user room0 user in
          modify (set_objs <[creator := user']>);;
          ret room'
      | None => ret room0
      end;
    modify (set_rooms <[room_name := room]>);;
    _broadcast_to_all
      (MessageFactory.create_system_message now
         ("Se ha creado la sala '" +:+ room_name +:+ "'") None);;
    info ← get_rooms_info;
    _broadcast_to_all (MessageFactory.create_rooms_list now info);;
    h1 ← get;
    send [UserSend creator
            (MessageFactory.create_room_users now room_name
               (Room.usernames (objs h1) room))];;
    send [UserSend creator
            (MessageFactory.create_system_message now
               ("Has creado y te has unido a la sala '" +:+ room_name +:+ "'")
               (Some room_name))];;
    ret true.

Definition broadcast_message (uid room_name content : string) : M bool :=
  h ← get;
  match _rooms h !! room_name with
  | None => ret false
  | Some room0 =>
      if negb (Room.truthy room0) then ret false
      else if negb (Room.has_user room0 uid) then
        send [UserSend uid
                (MessageFactory.create_error now "No estás en esta sala")];;
        ret false
      else
        username ← username_of uid;
        let room := Room.add_message_to_history now room0 username content in
        modify (set_rooms <[room_name := room]>);;
        send (Room.broadcast room
                (MessageFactory.create_chat_message now username room_name
                   content)
                None);;
        ret true
  end.

(** [register_user(websocket, username)]; [uid] is the identifier drawn
    for the new [User].  The result is a reference to the new user. *)
Definition register_user (uid : string) (websocket : nat)
    (username : string) : M (option string) :=
  let username := Str.strip username in
  if negb (Str.truthy username) then ret None
  else if (Str.len username >? 30)%Z then ret None
  else
    h ← get;
    if existsb
         (λ existing_user,
            String.eqb (Str.lower (User.username existing_user))
                       (Str.lower username))
         (omap (λ id, objs h !! id) (elements (_users h)))
    then ret None
    else
      let user := User.mk username websocket uid now None in
      modify (set_objs <[uid := user]>);;
      modify (set_users (λ s, s ∪ {[uid]}));;
      modify (set_websocket_to_user <[websocket := uid]>);;
      ret (Some uid).

Definition disconnect_user (uid : string) : M unit :=
  cr ← current_room_of uid;
  (if room_truthy cr
   then _ ← leave_room uid (default "" cr); ret tt
   else ret tt);;
  h ← get;
  modify (set_users (λ s, s ∖ {[uid]}));;
  modify (set_websocket_to_user
            (match objs h !! uid with
             | Some user => delete (User.websocket user)
             | None => id
             end)).

End Operations.

End ChatServer.

(** ** server/handlers/message_handler.py *)

Module Handlers.
Import ChatServer.

Section Handle.

Variable now : string.

(** A value of the payload used as a key of [_rooms]: a list or a
    dict is unhashable ([TypeError] in [_rooms.get], the first
    statement of the server's method); a number, a boolean or [None]
    is no key of [_rooms], whose keys are strings, and the method
    returns at once; a string is looked up. *)
Definition with_room_key {A} (k : json) (miss : A) (f : string → M A) : M A :=
  match k with
  | JStr s => f s
  | JArr _ | JObj _ => raise TypeError
  | JNull | JBool _ | JNum _ => ret miss
  end.

Definition error_to (uid : string) (text : string) : M unit :=
  send [UserSend uid (MessageFactory.create_error now text)].

Definition ConnectHandler (uid : string) (message : Message) : M unit :=
  ret tt.

Definition CreateRoomHandler (uid : string) (message : Message) : M unit :=
  v ← lift (Json.get (payload message) "room_name" (JStr ""));
  room_name ← lift (Json.strip v);
  if negb (Str.truthy room_name) then
    error_to uid "El nombre de la sala no puede estar vacío"
  else if (Str.len room_name >? 50)%Z then
    error_to uid "El nombre de la sala es demasiado largo (máx. 50 caracteres)"
  else
    success ← create_room_and_join now room_name uid;
    if negb success then
      error_to uid ("La sala '" +:+ room_name +:+ "' ya existe")
    else ret tt.

Definition JoinRoomHandler (uid : string) (message : Message) : M unit :=
  v ← lift (Json.get (payload message) "room_name" (JStr ""));
  room_name ← lift (Json.strip v);
  if negb (Str.truthy room_name) then
    error_to uid "Debe especificar el nombre de la sala"
  else
    _ ← join_room now uid room_name; ret tt.

Definition LeaveRoomHandler (uid : string) (message : Message) : M unit :=
  room_name ← lift (Json.get (payload message) "room_name" JNull);
  if Json.truthy room_name then
    _ ← with_room_key room_name false (leave_room now uid); ret tt
  else
    cr ← current_room_of uid;
    if room_truthy cr then
      _ ← leave_room now uid (default "" cr); ret tt
    else ret tt.

Definition ListRoomsHandler (uid : string) (message : Message) : M unit :=
  rooms_info ← get_rooms_info;
  send [UserSend uid (MessageFactory.create_rooms_list now rooms_info)].

Definition ChatMessageHandler (uid : string) (message : Message) : M unit :=
  v ← lift (Json.get (payload message) "content" (JStr ""));
  content ← lift (Json.strip v);
  k ← lift (Json.get (payload message) "room_name" JNull);
  cr ← current_room_of uid;
  let room_name :=
    if Json.truthy k then k
    else match cr with Some r => JStr r | None => JNull end in
  if negb (Str.truthy content) then ret tt
  else if negb (Json.truthy room_name) then
    error_to uid "No estás en ninguna sala"
  else
    _ ← with_room_key room_name false
          (λ r, broadcast_message now uid r content);
    ret tt.

Definition DisconnectHandler (uid : string) (message : Message) : M unit :=
  disconnect_user now uid.

(** [MessageHandlerRegistry.get_handler], after
    [_register_default_handlers]. *)
Definition get_handler (message_type : MessageType)
    : option (string → Message → M unit) :=
  match message_type with
  | CONNECT => Some ConnectHandler
  | CREATE_ROOM => Some CreateRoomHandler
  | JOIN_ROOM => Some JoinRoomHandler
  | LEAVE_ROOM => Some LeaveRoomHandler
  | LIST_ROOMS => Some ListRoomsHandler
  | CHAT_MESSAGE => Some ChatMessageHandler
  | DISCONNECT => Some DisconnectHandler
  | _ => None
  end.

Definition handle_message (uid : string) (message : Message) : M bool :=
  match get_handler (type message) with
  | Some handler => handler uid message;; ret true
  | None => ret false
  end.

End Handle.

End Handlers.

(** ** The connection loop of [ChatServer.handle_connection] *)

Module Connection.
Import ChatServer.

Section Loop.

Variable loads : string → option json.
Variable now : string.

(** The body of the [try] inside the loop, for one frame.  [user] is
    the loop's variable, [uid] the identifier that a registration
    would draw; the result is the new value of [user]. *)
Definition body (websocket : nat) (uid : string) (user : option string)
    (raw_message : string) : M (option string) :=
  message ← lift (from_json loads now raw_message);
  match user with
  | None =>
      if negb (bool_decide (type message = CONNECT)) then
        send [SocketSend websocket
                (MessageFactory.create_connection_error now
                   "Primer mensaje debe ser de conexión")];;
        ret None
      else
        v ← lift (Json.get (payload message) "username" (JStr ""));
        (* [username.strip()], first statement of [register_user] *)
        username ← lift (match v with
                         | JStr s => Ok s
                         | _ => Raise AttributeError
                         end);
        user' ← register_user now uid websocket username;
        match user' with
        | None =>
            send [SocketSend websocket
                    (MessageFactory.create_connection_error now
                       "Nombre de usuario inválido o ya en uso")];;
            ret None
        | Some id =>
            name ← username_of id;
            send [SocketSend websocket
                    (MessageFactory.create_connection_ack now name id)];;
            info ← get_rooms_info;
            send [SocketSend websocket
                    (MessageFactory.create_rooms_list now info)];;
            ret (Some id)
        end
  | Some id =>
      _ ← Handlers.handle_message now id message;
      ret (Some id)
  end.

(** One turn of the loop: both [except] clauses log and go on with
    the next frame, leaving [user] as it was. *)
Definition on_frame (websocket : nat) (uid : string) (user : option string)
    (raw_message : string) (h : t) : option string * t * list effect :=
  match body websocket uid user raw_message h with
  | (Ok user', h', es) => (user', h', es)
  | (Raise _, h', es) => (user, h', es)
  end.

(** The [finally] clause, when the connection closes. *)
Definition on_close (user : option string) : M unit :=
  match user with
  | Some id => disconnect_user now id
  | None => ret tt
  end.

End Loop.

End Connection.

(** ** client/client.py *)

(** [a == b] for two values that came out of [json.loads]: a boolean
    equals the number 1 or 0, two dicts are equal when they hold the same
    keys with equal values, in any order. *)
Fixpoint py_eq (a b : json) : bool :=
  match a, b with
  | JNull, JNull => true
  | JBool x, JBool y => Bool.eqb x y
  | JNum x, JNum y => Z.eqb x y
  | JBool x, JNum y => Z.eqb (if x then 1 else 0) y
  | JNum x, JBool y => Z.eqb x (if y then 1 else 0)
  | JStr x, JStr y => String.eqb x y
  | JArr l1, JArr l2 =>
      (fix go (l1 l2 : list json) : bool :=
         match l1, l2 with
         | [], [] => true
         | x :: l1', y :: l2' => py_eq x y && go l1' l2'
         | _, _ => false
         end) l1 l2
  | JObj l1, JObj l2 =>
      (length l1 =? length l2) &&
      (fix go (l1 : list (string * json)) : bool :=
         match l1 with
         | [] => true
         | (k, v) :: l1' =>
             match Json.assoc k l2 with
             | Some v' => py_eq v v'
             | None => false
             end && go l1'
         end) l1
  | _, _ => false
  end.

Module ChatClient.

(** A text handed to the window: a value of a payload, or the f-string
    that puts a suffix after a value. *)
Inductive text : Type :=
| Value (v : json)
| Format (v : json) (suffix : string).

(** The calls on [self.gui]. *)
Inductive gui_call : Type :=
| show_connected (username : json)
| show_disconnected
| show_connection_error (message : json)
| update_rooms (rooms : json)
| update_users (users : json)
| set_current_room (room_name : json)
| add_message (username : json) (content : text) (timestamp : json)
    (is_system : bool)
| clear_messages
| show_error (message : json).

(** What the client does: a call on the window, [websocket.send] of an
    encoded message, [websocket.close]. *)
Inductive action : Type :=
| Gui (c : gui_call)
| WsSend (m : Message)
| WsClose.

(** The fields of [ChatClient]; [None] is [JNull], and [websocket] and
    [_loop] are kept as "is not [None]". *)
Record t : Type := mk {
  username : json;
  user_id : json;
  current_room : json;
  websocket : bool;
  _running : bool;
  _loop : bool
}.

Definition set_username (v : json) (self : t) : t :=
  mk v (user_id self) (current_room self) (websocket self) (_running self)
     (_loop self).
Definition set_user_id (v : json) (self : t) : t :=
  mk (username self) v (current_room self) (websocket self) (_running self)
     (_loop self).
Definition set_room (v : json) (self : t) : t :=
  mk (username self) (user_id self) v (websocket self) (_running self)
     (_loop self).
Definition set_websocket (b : bool) (self : t) : t :=
  mk (username self) (user_id self) (current_room self) b (_running self)
     (_loop self).
Definition set_running (b : bool) (self : t) : t :=
  mk (username self) (user_id self) (current_room self) (websocket self) b
     (_loop self).

(** [ChatClient()] *)
Definition init : t := mk JNull JNull JNull false false false.

(** A method of the client: it reads and writes the fields, acts, and
    returns or raises. *)
Definition C (A : Type) : Type := t → outcome A * t * list action.

Definition ret {A} (a : A) : C A := λ self, (Ok a, self, []).

Definition bind {A B} (m : C A) (f : A → C B) : C B := λ self,
  match m self with
  | (Ok a, self1, a1) =>
      match f a self1 with (o, self2, a2) => (o, self2, a1 ++ a2) end
  | (Raise e, self1, a1) => (Raise e, self1, a1)
  end.

Declare Scope C_scope.
Delimit Scope C_scope with C.
Notation "x ← y ; z" := (bind y (λ x, z))
  (at level 20, y at level 100, z at level 200, only parsing) : C_scope.
Notation "x ;; z" := (bind x (λ _, z))
  (at level 100, z at level 200, only parsing, right associativity) : C_scope.
Open Scope C_scope.

Definition get : C t := λ self, (Ok self, self, []).
Definition modify (f : t → t) : C unit := λ self, (Ok tt, f self, []).
Definition act (l : list action) : C unit := λ self, (Ok tt, self, l).
Definition lift {A} (o : outcome A) : C A := λ self, (o, self, []).

Section Methods.

Variable now : string.

(** [_send]; a send that fails is not in the model. *)
Definition _send (message : Message) : C bool :=
  self ← get;
  if websocket self && _running self then act [WsSend message];; ret true
  else ret false.

(** [_schedule_coroutine(coro)]: the coroutine runs at once. *)
Definition _schedule_coroutine {A} (coro : C A) : C unit :=
  self ← get;
  if _loop self && _running self then _ ← coro; ret tt else ret tt.




(** [MessageFactory.create_chat_message(self.username, self.current_room,
    content)], on fields that hold whatever a payload held. *)
Definition _on_gui_send_message (content : string) : C unit :=
  self ← get;
  if Json.truthy (current_room self) then
    _schedule_coroutine
      (_send (MessageFactory.msg now CHAT_MESSAGE
                [("username", username self);
                 ("room_name", current_room self);
                 ("content", JStr content)]))
  else ret tt.



End Methods.

Definition _handle_connection_ack (message : Message) : C unit :=
  name ← lift (Json.get (payload message) "username" JNull);
  modify (set_username name);;
  id ← lift (Json.get (payload message) "user_id" JNull);
  modify (set_user_id id);;
  self ← get;
  act [Gui (show_connected (username self))].

Definition _handle_connection_error (message : Message) : C unit :=
  reason ← lift (Json.get (payload message) "reason" (JStr "Error desconocido"));
  act [Gui (show_connection_error reason)];;
  modify (set_running false).

Definition _handle_rooms_list (message : Message) : C unit :=
  rooms ← lift (Json.get (payload message) "rooms" (JArr []));
  act [Gui (update_rooms rooms)].

Definition _handle_room_users (message : Message) : C unit :=
  room_name ← lift (Json.get (payload message) "room_name" JNull);
  users ← lift (Json.get (payload message) "users" (JArr []));
  if Json.truthy room_name then
    modify (set_room room_name);;
    act [Gui (set_current_room room_name); Gui (update_users users);
         Gui clear_messages]
  else ret tt.

Definition _handle_chat_message (message : Message) : C unit :=
  name ← lift (Json.get (payload message) "username" (JStr ""));
  content ← lift (Json.get (payload message) "content" (JStr ""));
  act [Gui (add_message name (Value content) (timestamp message) false)].

Definition _handle_system_message (message : Message) : C unit :=
  content ← lift (Json.get (payload message) "content" (JStr ""));
  act [Gui (add_message (JStr "Sistema") (Value content) (timestamp message)
              true)].

(** The [create_join_room] message that the method builds is never
    sent. *)
Definition _handle_user_joined (message : Message) : C unit :=
  name ← lift (Json.get (payload message) "username" (JStr ""));
  room_name ← lift (Json.get (payload message) "room_name" (JStr ""));
  self ← get;
  if py_eq room_name (current_room self) then
    act [Gui (add_message (JStr "Sistema")
                (Format name " se ha unido a la sala")
                (timestamp message) true)]
  else ret tt.

Definition _handle_user_left (message : Message) : C unit :=
  name ← lift (Json.get (payload message) "username" (JStr ""));
  room_name ← lift (Json.get (payload message) "room_name" (JStr ""));
  self ← get;
  if py_eq room_name (current_room self) then
    act [Gui (add_message (JStr "Sistema")
                (Format name " ha abandonado la sala")
                (timestamp message) true)]
  else ret tt.

Definition _handle_error (message : Message) : C unit :=
  error_msg ← lift (Json.get (payload message) "message"
                      (JStr "Error desconocido"));
  act [Gui (show_error error_msg)].

Definition _handle_message (message : Message) : C unit :=
  match type message with
  | CONNECTION_ACK => _handle_connection_ack message
  | CONNECTION_ERROR => _handle_connection_error message
  | ROOMS_LIST => _handle_rooms_list message
  | ROOM_USERS => _handle_room_users message
  | CHAT_MESSAGE => _handle_chat_message message
  | SYSTEM_MESSAGE => _handle_system_message message
  | USER_JOINED => _handle_user_joined message
  | USER_LEFT => _handle_user_left message
  | ERROR => _handle_error message
  | _ => ret tt
  end.

Section Loop.

Variable loads : string → option json.
Variable now : string.

(** One frame in the loop of [_websocket_handler]: the loop ends, and
    with it the connection, when the client no longer runs; both
    [except] clauses print and go on. *)
Definition on_frame (raw_message : string) (self : t) : t * list action :=
  if negb (_running self) then (set_websocket false self, [])
  else
    match bind (lift (from_json loads now raw_message)) _handle_message self with
    | (_, self', l) => (self', l)
    end.

End Loop.

End ChatClient.

(** The frames that the server sent to the user object [uid], in the
    order of sending. *)
Definition inbox (uid : string) (es : list effect) : list Message :=
  omap (λ e, match e with
             | UserSend id m => if String.eqb id uid then Some m else None
             | SocketSend _ _ => None
             end) es.

(** The client reads the frames of [ms], written by [dumps], one after
    the other. *)
Definition deliver (now : string) (ms : list Message) (c : ChatClient.t)
    : ChatClient.t :=
  fold_left
    (λ c m, (ChatClient.on_frame JsonText.loads now
               (to_json JsonText.dumps m) c).1)
    ms c.

(** ** Reachable states and the invariant of the hub *)

Import ChatServer.

(** The states of the server: its initial state, and what a registration,
    a frame handled for a user object, or the closing of a connection
    makes of a state.  A registration draws an identifier that no user
    object carries yet. *)
Inductive reachable : t → Prop :=
| reach_init now :
    reachable (init now)
| reach_register now uid websocket username h :
    reachable h →
    objs h !! uid = None →
    reachable (state_of (register_user now uid websocket username h))
| reach_message now uid message h :
    reachable h →
    is_Some (objs h !! uid) →
    reachable (state_of (Handlers.handle_message now uid message h))
| reach_disconnect now uid h :
    reachable h →
    is_Some (objs h !! uid) →
    reachable (state_of (disconnect_user now uid h)).

(** [session.current_room == R] for the user object [uid]. *)
Definition in_room (h : t) (uid R : string) : Prop :=
  ∃ u, objs h !! uid = Some u ∧ User.current_room u = Some R.

(** [uid] is in [rooms[R].members]. *)
Definition member_of (h : t) (uid R : string) : Prop :=
  ∃ room, _rooms h !! R = Some room ∧ uid ∈ Room._users room.

(** [member_of], computed. *)
Definition is_member (h : t) (uid R : string) : bool :=
  from_option (λ room, bool_decide (uid ∈ Room._users room)) false (_rooms h !! R).

(** What a leave sends: [user_left], [room_users] and [rooms_list]. *)
Definition leave_notice (e : effect) : Prop :=
  ∃ id m, e = UserSend id m ∧
          (type m = USER_LEFT ∨ type m = ROOM_USERS ∨ type m = ROOMS_LIST).

Record WF (h : t) : Prop := mkWF {
  wf_room_name : ∀ R room, _rooms h !! R = Some room → Room.name room = R;
  wf_room_key : ∀ R, is_Some (_rooms h !! R) → R ≠ "";
  wf_max_history : ∀ R room,
    _rooms h !! R = Some room → Room.max_history room = 100%Z;
  wf_history : ∀ R room,
    _rooms h !! R = Some room → length (Room._message_history room) ≤ 100;
  wf_user_id : ∀ uid u, objs h !! uid = Some u → User.user_id u = uid;
  wf_member : ∀ uid R, member_of h uid R → in_room h uid R;
  wf_current : ∀ uid R, in_room h uid R → member_of h uid R;
  wf_live : ∀ uid, uid ∈ _users h → is_Some (objs h !! uid);
  wf_general : is_Some (_rooms h !! "General")
}.

(** One step of the server: a registration with an identifier that no
    user object carries, a frame handled for a user object, or the
    closing of a connection. *)
Inductive step : t → t → Prop :=
| step_register now uid websocket username h :
    objs h !! uid = None →
    step h (state_of (register_user now uid websocket username h))
| step_message now uid message h :
    is_Some (objs h !! uid) →
    step h (state_of (Handlers.handle_message now uid message h))
| step_disconnect now uid h :
    is_Some (objs h !! uid) →
    step h (state_of (disconnect_user now uid h)).

(** What no method changes of a user object: every field but
    [current_room]. *)
Definition same_user (u u' : User.t) : Prop :=
  User.username u' = User.username u ∧
  User.websocket u' = User.websocket u ∧
  User.user_id u' = User.user_id u ∧
  User.connected_at u' = User.connected_at u.

(** What no method changes of a room: its name, creator, creation time
    and bound, and all of it while it has no user. *)
Definition same_room (room room' : Room.t) : Prop :=
  Room.name room' = Room.name room ∧
  Room.created_by room' = Room.created_by room ∧
  Room.created_at room' = Room.created_at room ∧
  Room.max_history room' = Room.max_history room ∧
  (Room._users room = ∅ → room' = room).

(** What a handled frame or a disconnection keeps of the server's state;
    [new_room] holds of the keys that it may add to [_rooms]. *)
Record frame (new_room : string → Prop) (h h' : t) : Prop := mkFrame {
  fr_objs : ∀ id u,
    objs h !! id = Some u → ∃ u', objs h' !! id = Some u' ∧ same_user u u';
  fr_fresh : ∀ id, objs h !! id = None → objs h' !! id = None;
  fr_users : _users h' ⊆ _users h;
  fr_rooms : ∀ R room,
    _rooms h !! R = Some room →
    ∃ room', _rooms h' !! R = Some room' ∧ same_room room room';
  fr_new : ∀ R, _rooms h !! R = None → is_Some (_rooms h' !! R) → new_room R
}.

(** The message that an effect carries. *)
Definition msg_of (e : effect) : Message :=
  match e with UserSend _ m | SocketSend _ m => m end.

(** A message that the codec writes and reads back: its timestamp is a
    string and no dict of its payload repeats a key. *)
Definition wire_ok (e : effect) : Prop :=
  JsonText.unique_keys (payload (msg_of e)) ∧
  ∃ ts, timestamp (msg_of e) = JStr ts.

(** The names that [CreateRoomHandler] accepts. *)
Definition room_name_ok (R : string) : Prop :=
  R ≠ "" ∧ String.length R ≤ 50.

(** What a handler made of a state: the frame, what it sent, and nothing
    at all where it raised. *)
Definition handled {A} (h : t) (r : outcome A * t * list effect) : Prop :=
  frame room_name_ok h (state_of r) ∧ Forall wire_ok (effects_of r) ∧
  (∀ e, result_of r = Raise e → state_of r = h ∧ effects_of r = []).


(** ** Concrete runs

    Alice registers and creates the room [foo]; Bob registers and joins
    her there. *)

Module Scenario.

Definition frame (t : MessageType) (p : list (string * json)) : Message :=
  mkMessage t (JObj p) (JStr "2026-01-01T10:00:00").

Definition started : t := init "2026-01-01T09:00:00".

Definition alice_registered : t :=
  state_of (register_user "2026-01-01T09:01:00" "a1a1a1a1" 1 " alice " started).

Definition alice_in_foo : t :=
  state_of (Handlers.handle_message "2026-01-01T09:02:00" "a1a1a1a1"
              (frame CREATE_ROOM [("room_name", JStr "foo")])
              alice_registered).

Definition bob_registered : t :=
  state_of (register_user "2026-01-01T09:03:00" "b2b2b2b2" 2 "bob" alice_in_foo).

Definition both_in_foo : t :=
  state_of (Handlers.handle_message "2026-01-01T09:04:00" "b2b2b2b2"
              (frame JOIN_ROOM [("room_name", JStr "foo")])
              bob_registered).

End Scenario.

(** ** Running a coroutine step by step *)

Lemma room_never_true_and_empty (room : Room.t) :
  Room.truthy room && Room.is_empty room = false.
Proof.
  unfold Room.truthy, Room.is_empty, Room.len.
  by destruct (Z.of_nat (size (Room._users room)) =? 0)%Z.
Qed.

Lemma room_truthy_iff (room : Room.t) :
  Room.truthy room = true ↔ Room._users room ≠ ∅.
Proof.
  unfold Room.truthy, Room.len. rewrite negb_true_iff, Z.eqb_neq.
  rewrite <- (leibniz_equiv_iff (Room._users room) ∅), <- size_empty_iff. lia.
Qed.

Lemma room_truthy_member (room : Room.t) uid :
  uid ∈ Room._users room → Room.truthy room = true.
Proof. intros Hin. apply room_truthy_iff. set_solver. Qed.

(** [delete_room] never deletes: its guard asks for a room that is true,
    that is, has a user, and is empty. *)
Lemma delete_room_noop now room_name h :
  delete_room now room_name h = (Ok false, h, []).
Proof.
  unfold delete_room. case_decide; [done|].
  unfold bind, get. simpl.
  destruct (_rooms h !! room_name) as [room|]; [|done].
  by rewrite room_never_true_and_empty.
Qed.

(** ** The invariant is kept by every operation *)

Ltac split_WF H :=
  destruct H as [Hname Hkey Hmax Hhist Hid Hmem Hcur Hlive Hgen].

Lemma WF_remove h R room uid u :
  WF h →
  _rooms h !! R = Some room →
  objs h !! uid = Some u →
  uid ∈ Room._users room →
  WF (set_objs <[uid := User.set_current_room u None]>
        (set_rooms <[R := Room.set_users room (Room._users room ∖ {[uid]})]> h)).
Proof.
  intros Hwf HR Hu Hin. split_WF Hwf.
  assert (Hcr : User.current_room u = Some R).
  { destruct (Hmem uid R) as (u' & Hu' & Hc); [by exists room|]. congruence. }
  constructor; simpl.
  - intros R0 room0. destruct (decide (R = R0)) as [->|];
      [rewrite lookup_insert_eq|rewrite lookup_insert_ne by done]; eauto.
    intros [= <-]. simpl. eauto.
  - intros R0. destruct (decide (R = R0)) as [->|];
      [rewrite lookup_insert_eq|rewrite lookup_insert_ne by done]; eauto.
  - intros R0 room0. destruct (decide (R = R0)) as [->|];
      [rewrite lookup_insert_eq|rewrite lookup_insert_ne by done]; eauto.
    intros [= <-]. simpl. eauto.
  - intros R0 room0. destruct (decide (R = R0)) as [->|];
      [rewrite lookup_insert_eq|rewrite lookup_insert_ne by done]; eauto.
    intros [= <-]. simpl. eauto.
  - intros uid0 u0. destruct (decide (uid = uid0)) as [->|];
      [rewrite lookup_insert_eq|rewrite lookup_insert_ne by done]; eauto.
    intros [= <-]. simpl. eauto.
  - intros uid0 R0 (room0 & Hr0 & Hin0). simpl in *.
    unfold in_room; simpl.
    destruct (decide (R = R0)) as [->|Hne].
    + rewrite lookup_insert_eq in Hr0. injection Hr0 as <-.
      assert (uid ≠ uid0) by (simpl in Hin0; set_solver).
      rewrite lookup_insert_ne by done.
      apply Hmem. exists room. split; [done|simpl in Hin0; set_solver].
    + rewrite lookup_insert_ne in Hr0 by done.
      destruct (decide (uid = uid0)) as [->|].
      * destruct (Hmem uid0 R0) as (u' & Hu' & Hc); [by exists room0|]. congruence.
      * rewrite lookup_insert_ne by done. apply Hmem. by exists room0.
  - intros uid0 R0 (u0 & Hu0 & Hc0). simpl in *.
    unfold member_of; simpl.
    destruct (decide (uid = uid0)) as [->|Hne].
    + rewrite lookup_insert_eq in Hu0. injection Hu0 as <-. done.
    + rewrite lookup_insert_ne in Hu0 by done.
      destruct (Hcur uid0 R0) as (room0 & Hr0 & Hin0); [by exists u0|].
      destruct (decide (R = R0)) as [->|].
      * rewrite lookup_insert_eq. eexists; split; [done|]. simpl.
        assert (room0 = room) by congruence. subst. set_solver.
      * rewrite lookup_insert_ne by done. eauto.
  - intros uid0 Hin0. destruct (decide (uid = uid0)) as [->|];
      [rewrite lookup_insert_eq|rewrite lookup_insert_ne by done]; eauto.
  - destruct (decide (R = "General")) as [->|];
      [rewrite lookup_insert_eq|rewrite lookup_insert_ne by done]; eauto.
Qed.

Ltac ins k k0 :=
  destruct (decide (k = k0)) as [->|];
  [rewrite lookup_insert_eq|rewrite lookup_insert_ne by done].
Ltac ins_in k k0 H :=
  destruct (decide (k = k0)) as [->|];
  [rewrite lookup_insert_eq in H|rewrite lookup_insert_ne in H by done].

Lemma WF_add h R room uid u :
  WF h →
  _rooms h !! R = Some room →
  objs h !! uid = Some u →
  User.current_room u = None →
  WF (set_objs <[uid := User.join_room u (Room.name room)]>
        (set_rooms <[R := Room.set_users room (Room._users room ∪ {[uid]})]> h)).
Proof.
  intros Hwf HR Hu Hnone. split_WF Hwf.
  assert (HnR : Room.name room = R) by eauto.
  constructor; simpl.
  - intros R0 room0. ins R R0; eauto. intros [= <-]. simpl. eauto.
  - intros R0. ins R R0; eauto.
  - intros R0 room0. ins R R0; eauto. intros [= <-]. simpl. eauto.
  - intros R0 room0. ins R R0; eauto. intros [= <-]. simpl. eauto.
  - intros uid0 u0. ins uid uid0; eauto. intros [= <-]. simpl. eauto.
  - intros uid0 R0 (room0 & Hr0 & Hin0). simpl in *.
    unfold in_room; simpl.
    ins_in R R0 Hr0.
    + injection Hr0 as <-. simpl in Hin0.
      ins uid uid0.
      * eexists; split; [done|]. simpl. by rewrite HnR.
      * apply Hmem. exists room. split; [done|set_solver].
    + ins uid uid0.
      * destruct (Hmem uid0 R0) as (u' & Hu' & Hc); [by exists room0|]. congruence.
      * apply Hmem. by exists room0.
  - intros uid0 R0 (u0 & Hu0 & Hc0). simpl in *.
    unfold member_of; simpl.
    ins_in uid uid0 Hu0.
    + injection Hu0 as <-. simpl in Hc0. rewrite HnR in Hc0. injection Hc0 as <-.
      rewrite lookup_insert_eq. eexists; split; [done|]. simpl. set_solver.
    + destruct (Hcur uid0 R0) as (room0 & Hr0 & Hin0); [by exists u0|].
      ins R R0.
      * eexists; split; [done|]. simpl.
        assert (room0 = room) by congruence. subst. set_solver.
      * eauto.
  - intros uid0 Hin0. ins uid uid0; eauto.
  - ins R "General"; eauto.
Qed.

Lemma WF_create now h R creator uid u :
  WF h →
  _rooms h !! R = None →
  R ≠ "" →
  objs h !! uid = Some u →
  User.current_room u = None →
  WF (set_rooms
        <[R := Room.set_users (Room.init now R creator) (∅ ∪ {[uid]})]>
        (set_objs <[uid := User.join_room u R]> h)).
Proof.
  intros Hwf HR Hne Hu Hnone. split_WF Hwf.
  constructor; simpl.
  - intros R0 room0. ins R R0; eauto. by intros [= <-].
  - intros R0. ins R R0; eauto.
  - intros R0 room0. ins R R0; eauto. by intros [= <-].
  - intros R0 room0. ins R R0; eauto. intros [= <-]. simpl. lia.
  - intros uid0 u0. ins uid uid0; eauto. intros [= <-]. simpl. eauto.
  - intros uid0 R0 (room0 & Hr0 & Hin0). simpl in *.
    unfold in_room; simpl.
    ins_in R R0 Hr0.
    + injection Hr0 as <-. simpl in Hin0.
      assert (uid0 = uid) as -> by set_solver.
      rewrite lookup_insert_eq. eauto.
    + ins uid uid0.
      * destruct (Hmem uid0 R0) as (u' & Hu' & Hc); [by exists room0|]. congruence.
      * apply Hmem. by exists room0.
  - intros uid0 R0 (u0 & Hu0 & Hc0). simpl in *.
    unfold member_of; simpl.
    ins_in uid uid0 Hu0.
    + injection Hu0 as <-. simpl in Hc0. injection Hc0 as <-.
      rewrite lookup_insert_eq. eexists; split; [done|]. simpl. set_solver.
    + destruct (Hcur uid0 R0) as (room0 & Hr0 & Hin0); [by exists u0|].
      ins R R0; [congruence|eauto].
  - intros uid0 Hin0. ins uid uid0; eauto.
  - ins R "General"; eauto.
Qed.

Lemma length_slice_from_neg {A} (n : Z) (l : list A) :
  (0 < n)%Z → length (slice_from (- n) l) = min (Z.to_nat n) (length l).
Proof.
  intros Hn. unfold slice_from.
  destruct (Z.ltb_spec (- n) 0); [|lia].
  rewrite length_drop. lia.
Qed.

Lemma add_message_to_history_length now room username content :
  Room.max_history room = 100%Z →
  length (Room._message_history room) ≤ 100 →
  length (Room._message_history
            (Room.add_message_to_history now room username content)) ≤ 100.
Proof.
  intros Hmax Hlen. unfold Room.add_message_to_history. rewrite Hmax.
  match goal with |- context [(?a >? ?b)%Z] => destruct (Z.gtb_spec a b) as [Hgt|Hle] end;
    simpl.
  - rewrite (length_slice_from_neg 100) by lia. lia.
  - rewrite length_app in *. simpl in *. lia.
Qed.

Lemma WF_history now h R room username content :
  WF h →
  _rooms h !! R = Some room →
  WF (set_rooms
        <[R := Room.add_message_to_history now room username content]> h).
Proof.
  intros Hwf HR.
  assert (Hlen := add_message_to_history_length now room username content
                    (wf_max_history h Hwf R room HR) (wf_history h Hwf R room HR)).
  assert (Hsame : ∀ r, let r' := Room.add_message_to_history now r username content in
            Room.name r' = Room.name r ∧ Room._users r' = Room._users r ∧
            Room.max_history r' = Room.max_history r).
  { intros r. unfold Room.add_message_to_history. simpl. by case_match. }
  destruct (Hsame room) as (Hn & Hu & Hm).
  split_WF Hwf.
  constructor; simpl; eauto.
  - intros R0 room0. ins R R0; eauto. intros [= <-]. rewrite Hn. eauto.
  - intros R0. ins R R0; eauto.
  - intros R0 room0. ins R R0; eauto. intros [= <-]. rewrite Hm. eauto.
  - intros R0 room0. ins R R0; eauto. by intros [= <-].
  - intros uid0 R0 (room0 & Hr0 & Hin0). simpl in *.
    apply Hmem. ins_in R R0 Hr0.
    + injection Hr0 as <-. rewrite Hu in Hin0. by exists room.
    + by exists room0.
  - intros uid0 R0 Hin. destruct (Hcur uid0 R0 Hin) as (room0 & Hr0 & Hin0).
    unfold member_of; simpl. ins R R0; eauto.
    eexists; split; [done|]. rewrite Hu. congruence.
  - ins R "General"; eauto.
Qed.

Lemma WF_register now h uid websocket username :
  WF h →
  objs h !! uid = None →
  WF (set_websocket_to_user <[websocket := uid]>
        (set_users (λ s, s ∪ {[uid]})
           (set_objs <[uid := User.mk username websocket uid now None]> h))).
Proof.
  intros Hwf Hfresh. split_WF Hwf.
  constructor; simpl; eauto.
  - intros uid0 u0. ins uid uid0; eauto. by intros [= <-].
  - intros uid0 R0 Hm. destruct (Hmem uid0 R0 Hm) as (u0 & Hu0 & Hc0).
    unfold in_room; simpl. ins uid uid0; [congruence|eauto].
  - intros uid0 R0 (u0 & Hu0 & Hc0). simpl in *.
    ins_in uid uid0 Hu0; [by injection Hu0 as <-|].
    apply Hcur. by exists u0.
  - intros uid0 Hin0. ins uid uid0; eauto. apply Hlive. set_solver.
Qed.

Lemma WF_unregister h uid f :
  WF h →
  WF (set_websocket_to_user f (set_users (λ s, s ∖ {[uid]}) h)).
Proof.
  intros Hwf. split_WF Hwf. constructor; simpl; eauto.
  intros uid0 Hin0. apply Hlive. set_solver.
Qed.

Lemma WF_init now : WF (init now).
Proof.
  constructor; unfold init, in_room, member_of; simpl.
  - intros R room. rewrite lookup_singleton_Some. by intros [<- <-].
  - intros R [room Hr]. apply lookup_singleton_Some in Hr as [<- _]. done.
  - intros R room. rewrite lookup_singleton_Some. by intros [<- <-].
  - intros R room. rewrite lookup_singleton_Some. intros [<- <-]. simpl. lia.
  - intros uid u. by rewrite lookup_empty.
  - intros uid R (room & Hr & Hin). apply lookup_singleton_Some in Hr as [<- <-].
    simpl in Hin. set_solver.
  - intros uid R (u & Hu & _). by rewrite lookup_empty in Hu.
  - intros uid Hin. set_solver.
  - rewrite lookup_singleton_eq. eauto.
Qed.


Lemma emit_nil {A} (r : outcome A * t * list effect) : emit [] r = r.
Proof. by destruct r as [[o h] e]. Qed.

Lemma emit_emit {A} es1 es2 (r : outcome A * t * list effect) :
  emit es1 (emit es2 r) = emit (es1 ++ es2) r.
Proof. destruct r as [[o h] e]. unfold emit; simpl. by rewrite app_assoc. Qed.

Lemma bind_run {A B} (m : M A) (f : A → M B) h a h1 e1 :
  m h = (Ok a, h1, e1) → bind m f h = emit e1 (f a h1).
Proof. intros Hm. unfold bind, emit. rewrite Hm. by destruct (f a h1) as [[o h2] e2]. Qed.

Lemma bind_raise {A B} (m : M A) (f : A → M B) h e h1 e1 :
  m h = (Raise e, h1, e1) → bind m f h = (Raise e, h1, e1).
Proof. intros Hm. unfold bind. by rewrite Hm. Qed.

Lemma bind_pure {A B} (m : M A) (f : A → M B) h a :
  m h = (Ok a, h, []) → bind m f h = f a h.
Proof. intros Hm. rewrite (bind_run _ _ _ _ _ _ Hm). apply emit_nil. Qed.

Lemma bind_get {B} (f : t → M B) h : bind get f h = f h h.
Proof. by apply bind_pure. Qed.

Lemma bind_ret {A B} (a : A) (f : A → M B) h : bind (ret a) f h = f a h.
Proof. by apply bind_pure. Qed.

Lemma bind_modify {B} g (f : unit → M B) h : bind (modify g) f h = f tt (g h).
Proof. unfold bind, modify. by destruct (f tt (g h)) as [[o h2] e2]. Qed.

Lemma bind_send {B} es (f : unit → M B) h : bind (send es) f h = emit es (f tt h).
Proof. by apply bind_run. Qed.

Lemma bind_lift_Ok {A B} (a : A) (f : A → M B) h : bind (lift (Ok a)) f h = f a h.
Proof. by apply bind_pure. Qed.

Lemma bind_lift_Raise {A B} e (f : A → M B) h :
  bind (lift (Raise e)) f h = (Raise e, h, []).
Proof. by apply bind_raise. Qed.

Lemma bind_assoc {A B C} (m : M A) (f : A → M B) (g : B → M C) h :
  bind (bind m f) g h = bind m (λ a, bind (f a) g) h.
Proof.
  unfold bind. destruct (m h) as [[[a|e] h1] e1]; [|done].
  destruct (f a h1) as [[[b|e] h2] e2]; [|done].
  destruct (g b h2) as [[o h3] e3]. by rewrite app_assoc.
Qed.

Lemma bind_current_room_of {B} uid (f : option string → M B) h :
  bind (current_room_of uid) f h = f (objs h !! uid ≫= User.current_room) h.
Proof. by apply bind_pure. Qed.

Lemma bind_username_of {B} uid (f : string → M B) h :
  bind (username_of uid) f h = f (from_option User.username "" (objs h !! uid)) h.
Proof. by apply bind_pure. Qed.

Lemma bind_room_at {B} R (f : Room.t → M B) h :
  bind (room_at R) f h = f (from_option id (Room.init "" R "") (_rooms h !! R)) h.
Proof. by apply bind_pure. Qed.

Lemma bind_get_rooms_info {B} (f : list json → M B) h :
  bind get_rooms_info f h
  = f (Room.to_dict (objs h) <$> (map_to_list (_rooms h)).*2) h.
Proof. by apply bind_pure. Qed.

Lemma bind_broadcast_to_all {B} message (f : unit → M B) h :
  bind (_broadcast_to_all message) f h
  = emit ((λ id, UserSend id message) <$> elements (_users h)) (f tt h).
Proof. by apply bind_run. Qed.

Lemma broadcast_to_all_run message h :
  _broadcast_to_all message h
  = (Ok tt, h, (λ id, UserSend id message) <$> elements (_users h)).
Proof. unfold _broadcast_to_all, bind, get, send. simpl. done. Qed.

Lemma bind_delete_room {B} now R (f : bool → M B) h :
  bind (delete_room now R) f h = f false h.
Proof. apply bind_pure, delete_room_noop. Qed.

Ltac stepM :=
  repeat first
    [ rewrite bind_assoc
    | rewrite bind_get
    | rewrite bind_ret
    | rewrite bind_modify
    | rewrite bind_send
    | rewrite bind_lift_Ok
    | rewrite bind_lift_Raise
    | rewrite bind_current_room_of
    | rewrite bind_username_of
    | rewrite bind_room_at
    | rewrite bind_get_rooms_info
    | rewrite bind_broadcast_to_all
    | rewrite bind_delete_room
    | rewrite broadcast_to_all_run
    | rewrite emit_emit ].

Lemma on_room_run f R uid h room user :
  _rooms h !! R = Some room →
  objs h !! uid = Some user →
  on_room f R uid h
  = (Ok (f room user).1.1,
     set_objs <[uid := (f room user).2]>
       (set_rooms <[R := (f room user).1.2]> h), []).
Proof.
  intros HR Hu. unfold on_room. stepM. rewrite HR, Hu.
  destruct (f room user) as [[ok room'] user']. by stepM.
Qed.

Lemma store_same h R room uid u :
  _rooms h !! R = Some room →
  objs h !! uid = Some u →
  set_objs <[uid := u]> (set_rooms <[R := room]> h) = h.
Proof.
  intros HR Hu. destruct h as [o us rs ws]. unfold set_objs, set_rooms. simpl in *.
  by rewrite !insert_id.
Qed.

Lemma Forall_broadcast (P : effect → Prop) room message exclude :
  (∀ id, P (UserSend id message)) →
  Forall P (Room.broadcast room message exclude).
Proof.
  intros HP. unfold Room.broadcast. apply Forall_fmap, Forall_forall.
  intros id _. apply HP.
Qed.

Lemma Forall_to_all (P : effect → Prop) message (ids : list string) :
  (∀ id, P (UserSend id message)) →
  Forall P ((λ id, UserSend id message) <$> ids).
Proof. intros HP. apply Forall_fmap, Forall_forall. intros id _. apply HP. Qed.

Lemma leave_room_WF now uid R h u :
  WF h →
  objs h !! uid = Some u →
  ∃ b es h' u',
    leave_room now uid R h = (Ok b, h', es) ∧ WF h' ∧
    objs h' !! uid = Some u' ∧
    (User.current_room u = Some R → User.current_room u' = None) ∧
    (User.current_room u ≠ Some R → h' = h ∧ b = false ∧ es = []) ∧
    (u' = u ∨ u' = User.set_current_room u None) ∧
    _users h' = _users h ∧
    Forall leave_notice es.
Proof.
  intros Hwf Hu.
  assert (Hid : User.user_id u = uid) by (eapply wf_user_id; eauto).
  assert (Hmiss : (∀ room, _rooms h !! R = Some room → uid ∉ Room._users room) →
                  User.current_room u ≠ Some R).
  { intros Hno Hc. destruct (wf_current h Hwf uid R) as (r & Hr & Hin); [by exists u|].
    by eapply Hno. }
  unfold leave_room. stepM.
  destruct (_rooms h !! R) as [room0|] eqn:HR.
  2:{ exists false, [], h, u. split_and!; try done; [|by left].
      intros Hc. by destruct Hmiss. }
  destruct (Room.truthy room0) eqn:Ht; simpl.
  2:{ exists false, [], h, u. split_and!; try done; [|by left].
      intros Hc. destruct Hmiss; [|done]. intros r [= <-] Hin.
      apply room_truthy_member in Hin. congruence. }
  rewrite (bind_run _ _ _ _ _ _ (on_room_run _ _ _ _ _ _ HR Hu)).
  unfold Room.remove_user. rewrite Hid.
  destruct (decide (uid ∉ Room._users room0)) as [Hin|Hin]; simpl.
  { stepM. rewrite emit_nil. unfold ret. rewrite store_same by done.
    exists false, [], h, u. split_and!; try done; [|by left].
    intros Hc. destruct Hmiss; [|done]. by intros r [= <-]. }
  apply dec_stable in Hin. clear Hmiss.
  assert (Hfin : ∀ (b : bool) es,
    Forall leave_notice es →
    ∃ b0 es0 h' u',
      (Ok b, set_objs <[uid := User.set_current_room u None]>
               (set_rooms <[R := Room.set_users room0 (Room._users room0 ∖ {[uid]})]> h),
       es) = (Ok b0, h', es0 : list effect) ∧ WF h' ∧
      objs h' !! uid = Some u' ∧
      (User.current_room u = Some R → User.current_room u' = None) ∧
      (User.current_room u ≠ Some R → h' = h ∧ b0 = false ∧ es0 = []) ∧
      (u' = u ∨ u' = User.set_current_room u None) ∧
      _users h' = _users h ∧
      Forall leave_notice es0).
  { intros b es Hes. eexists _, _, _, _. split; [reflexivity|].
    split; [by apply WF_remove|].
    split; [apply lookup_insert_eq|].
    split; [done|].
    split; [|split_and!; try done; by right].
    intros Hc. destruct Hc.
    destruct (wf_member h Hwf uid R) as (u' & Hu' & Hc'); [by exists room0|].
    congruence. }
  assert (Hn : ∀ m, (type m = USER_LEFT ∨ type m = ROOM_USERS ∨ type m = ROOMS_LIST) →
               ∀ id, leave_notice (UserSend id m)).
  { intros m Hm id. by exists id, m. }
  stepM.
  repeat (match goal with |- context [if ?b then _ else _] => destruct b end; stepM);
    unfold ret, emit; simpl; apply Hfin;
    rewrite ?app_nil_r;
    repeat (apply Forall_app; split);
    try apply Forall_nil;
    (apply Forall_broadcast || apply Forall_to_all); apply Hn; simpl; auto.
Qed.

Lemma WF_no_empty_room h uid u :
  WF h → objs h !! uid = Some u → User.current_room u ≠ Some "".
Proof.
  intros Hwf Hu Hc.
  destruct (wf_current h Hwf uid "") as (room & Hr & _); [by exists u|].
  by eapply wf_room_key; eauto.
Qed.

(** The common prologue: leave the current room where there is one. *)
Lemma leave_first_WF now uid h u (other_than : option string) :
  WF h →
  objs h !! uid = Some u →
  let cr := User.current_room u in
  let cond := room_truthy cr &&
              match other_than with
              | Some R => negb (bool_decide (cr = Some R))
              | None => true
              end in
  ∃ es h' u',
    (if cond then bind (leave_room now uid (default "" cr)) (λ _, ret tt)
     else ret tt) h = (Ok tt, h', es) ∧
    WF h' ∧ objs h' !! uid = Some u' ∧
    (User.current_room u' = None ∨
     (h' = h ∧ u' = u ∧ es = [] ∧ User.current_room u = other_than
      ∧ other_than ≠ None)) ∧
    User.username u' = User.username u ∧
    _users h' = _users h ∧
    Forall leave_notice es ∧
    (User.current_room u = None → h' = h ∧ es = []).
Proof.
  intros Hwf Hu cr cond.
  destruct cond eqn:Hcond.
  - destruct (leave_room_WF now uid (default "" cr) h u Hwf Hu)
      as (b & es & h' & u' & Hrun & Hwf' & Hu' & Hleft & _ & Hsame & Hlive & Hes).
    rewrite (bind_run _ _ _ _ _ _ Hrun). unfold ret, emit. simpl.
    eexists _, _, _. split_and!; eauto.
    + left. apply Hleft. subst cond cr.
      destruct (User.current_room u); [done|]. by simpl in Hcond.
    + by destruct Hsame as [->| ->].
    + by rewrite app_nil_r.
    + intros Hnone. subst cond cr. by rewrite Hnone in Hcond.
  - exists [], h, u. split_and!; eauto.
    subst cond cr. destruct (User.current_room u) as [r|] eqn:Hc; [|by left].
    right. split_and!; try done.
    + simpl in Hcond. destruct r; [by destruct (WF_no_empty_room h uid u)|].
      simpl in Hcond. destruct other_than; [|done].
      by apply negb_false_iff, bool_decide_eq_true in Hcond.
    + simpl in Hcond. destruct r; [by destruct (WF_no_empty_room h uid u)|].
      simpl in Hcond. intros ->. done.
Qed.

Lemma join_room_WF now uid R h :
  WF h →
  is_Some (objs h !! uid) →
  ∃ b es h', join_room now uid R h = (Ok b, h', es) ∧ WF h' ∧
             is_Some (objs h' !! uid).
Proof.
  intros Hwf [u Hu]. unfold join_room. stepM. rewrite Hu. simpl.
  destruct (leave_first_WF now uid h u (Some R) Hwf Hu)
    as (es1 & h1 & u1 & Hrun & Hwf1 & Hu1 & Hpost & _).
  simpl in Hrun. rewrite (bind_run _ _ _ _ _ _ Hrun). clear Hrun. stepM.
  destruct (_rooms h1 !! R) as [room0|] eqn:HR.
  2:{ stepM. unfold ret, emit; simpl. eauto 10. }
  destruct (Room.truthy room0) eqn:Ht.
  2:{ stepM. unfold ret, emit; simpl. eauto 10. }
  rewrite (bind_run _ _ _ _ _ _ (on_room_run _ _ _ _ _ _ HR Hu1)).
  assert (Hid : User.user_id u1 = uid) by (eapply wf_user_id; eauto).
  unfold Room.add_user. rewrite Hid.
  destruct (decide (uid ∈ Room._users room0)) as [Hin|Hin]; simpl.
  { stepM. rewrite store_same by done. unfold ret, emit; simpl. eauto 10. }
  stepM. unfold ret, emit; simpl.
  eexists _, _, _. split; [reflexivity|]. split; [|simpl; rewrite ?lookup_insert_eq; eauto].
  apply WF_add; try done.
  destruct Hpost as [Hnone|(-> & -> & _ & Hc & _)]; [done|].
  destruct (wf_current h Hwf uid R) as (r & Hr & Hin'); [by exists u|].
  congruence.
Qed.

Lemma create_room_and_join_WF now uid R h :
  WF h →
  is_Some (objs h !! uid) →
  R ≠ "" →
  ∃ b es h', create_room_and_join now R uid h = (Ok b, h', es) ∧ WF h' ∧
             is_Some (objs h' !! uid).
Proof.
  intros Hwf [u Hu] Hne. unfold create_room_and_join. stepM. rewrite Hu. simpl.
  destruct (leave_first_WF now uid h u None Hwf Hu)
    as (es1 & h1 & u1 & Hrun & Hwf1 & Hu1 & Hpost & _).
  simpl in Hrun. rewrite andb_true_r in Hrun.
  rewrite (bind_run _ _ _ _ _ _ Hrun). clear Hrun. stepM.
  destruct (decide (is_Some (_rooms h1 !! R))) as [Hsome|Hnone].
  { unfold ret, emit; simpl. eauto 10. }
  stepM. rewrite Hu1.
  assert (Hid : User.user_id u1 = uid) by (eapply wf_user_id; eauto).
  unfold Room.add_user. rewrite Hid. simpl.
  destruct (decide (uid ∈ ∅)) as [Hin|_]; [set_solver|].
  stepM. unfold ret, emit; simpl.
  eexists _, _, _. split; [reflexivity|]. split; [|simpl; rewrite ?lookup_insert_eq; eauto].
  apply WF_create; try done.
  - by apply eq_None_not_Some.
  - by destruct Hpost as [?|(_ & _ & _ & _ & ?)].
Qed.

Lemma broadcast_message_WF now uid R content h :
  WF h →
  ∃ b es h', broadcast_message now uid R content h = (Ok b, h', es) ∧ WF h' ∧
             objs h' = objs h.
Proof.
  intros Hwf. unfold broadcast_message. stepM.
  destruct (_rooms h !! R) as [room0|] eqn:HR; [|unfold ret; eauto 10].
  destruct (negb (Room.truthy room0)); [unfold ret; eauto 10|].
  destruct (negb (Room.has_user room0 uid)).
  { stepM. unfold ret, emit; simpl. eauto 10. }
  stepM. unfold ret, emit; simpl.
  eexists _, _, _. split; [reflexivity|]. split; [|done]. by apply WF_history.
Qed.

Lemma register_user_WF now uid websocket username h :
  WF h →
  objs h !! uid = None →
  ∃ r es h', register_user now uid websocket username h = (Ok r, h', es) ∧ WF h'.
Proof.
  intros Hwf Hfresh. unfold register_user.
  destruct (negb _); [unfold ret; eauto 10|].
  destruct (_ >? _)%Z; [unfold ret; eauto 10|].
  stepM. destruct (existsb _ _); [unfold ret; eauto 10|].
  stepM. unfold ret; simpl.
  eexists _, _, _. split; [reflexivity|]. by apply WF_register.
Qed.

Lemma disconnect_user_WF now uid h :
  WF h →
  is_Some (objs h !! uid) →
  ∃ es h', disconnect_user now uid h = (Ok tt, h', es) ∧ WF h'.
Proof.
  intros Hwf [u Hu]. unfold disconnect_user. stepM. rewrite Hu. simpl.
  destruct (leave_first_WF now uid h u None Hwf Hu)
    as (es1 & h1 & u1 & Hrun & Hwf1 & Hu1 & Hpost & _).
  simpl in Hrun. rewrite andb_true_r in Hrun.
  rewrite (bind_run _ _ _ _ _ _ Hrun). clear Hrun. stepM.
  unfold modify, emit; simpl.
  eexists _, _. split; [reflexivity|]. by apply WF_unregister.
Qed.

Lemma truthy_nonempty s : Str.truthy s = true → s ≠ "".
Proof. by destruct s. Qed.

Lemma leave_room_WF' now uid R h :
  WF h → is_Some (objs h !! uid) → WF (state_of (leave_room now uid R h)).
Proof.
  intros Hwf [u Hu].
  destruct (leave_room_WF now uid R h u Hwf Hu) as (b & es & h' & u' & -> & ? & _).
  done.
Qed.

Lemma handle_message_WF now uid message h :
  WF h →
  is_Some (objs h !! uid) →
  WF (state_of (Handlers.handle_message now uid message h)).
Proof.
  intros Hwf Hsome. unfold Handlers.handle_message.
  destruct (Handlers.get_handler now (type message)) as [handler|] eqn:Hh;
    [|done].
  destruct (type message); simpl in Hh; try discriminate; injection Hh as <-.
  - (* connect *) unfold Handlers.ConnectHandler. by stepM.
  - (* disconnect *)
    unfold Handlers.DisconnectHandler.
    destruct (disconnect_user_WF now uid h Hwf Hsome) as (es & h' & Hrun & Hwf').
    rewrite (bind_run _ _ _ _ _ _ Hrun). by stepM.
  - (* create_room *)
    unfold Handlers.CreateRoomHandler. stepM.
    destruct (Json.get (payload message) "room_name" (JStr "")) as [v|e];
      [|by stepM].
    stepM. destruct (Json.strip v) as [room_name|e]; [|by stepM].
    stepM. destruct (Str.truthy room_name) eqn:Hne; simpl;
      [|unfold Handlers.error_to; by stepM].
    destruct (_ >? _)%Z; [unfold Handlers.error_to; by stepM|].
    destruct (create_room_and_join_WF now uid room_name h Hwf Hsome)
      as (b & es & h' & Hrun & Hwf' & _); [by apply truthy_nonempty|].
    rewrite ?bind_assoc, (bind_run _ _ _ _ _ _ Hrun).
    destruct b; simpl; unfold Handlers.error_to; by stepM.
  - (* join_room *)
    unfold Handlers.JoinRoomHandler. stepM.
    destruct (Json.get (payload message) "room_name" (JStr "")) as [v|e];
      [|by stepM].
    stepM. destruct (Json.strip v) as [room_name|e]; [|by stepM].
    stepM. destruct (Str.truthy room_name) eqn:Hne; simpl;
      [|unfold Handlers.error_to; by stepM].
    destruct (join_room_WF now uid room_name h Hwf Hsome)
      as (b & es & h' & Hrun & Hwf' & _).
    rewrite ?bind_assoc, (bind_run _ _ _ _ _ _ Hrun). by stepM.
  - (* leave_room *)
    unfold Handlers.LeaveRoomHandler. stepM.
    destruct (Json.get (payload message) "room_name" JNull) as [k|e];
      [|by stepM].
    stepM. destruct Hsome as [u Hu].
    destruct (Json.truthy k).
    + destruct k; simpl; try by stepM.
      destruct (leave_room_WF now uid s h u Hwf Hu)
        as (b & es & h' & u' & Hrun & Hwf' & _).
      rewrite ?bind_assoc, (bind_run _ _ _ _ _ _ Hrun). by stepM.
    + stepM. destruct (room_truthy _); [|by stepM].
      destruct (leave_room_WF now uid (default "" (objs h !! uid ≫= User.current_room)) h u Hwf Hu)
        as (b & es & h' & u' & Hrun & Hwf' & _).
      rewrite ?bind_assoc, (bind_run _ _ _ _ _ _ Hrun). by stepM.
  - (* list_rooms *)
    unfold Handlers.ListRoomsHandler. by stepM.
  - (* chat_message *)
    unfold Handlers.ChatMessageHandler. stepM.
    destruct (Json.get (payload message) "content" (JStr "")) as [v|e];
      [|by stepM].
    stepM. destruct (Json.strip v) as [content|e]; [|by stepM].
    stepM.
    destruct (Json.get (payload message) "room_name" JNull) as [k|e];
      [|by stepM].
    stepM. destruct (negb (Str.truthy content)); [by stepM|].
    match goal with |- context [negb (Json.truthy ?x)] =>
      generalize x; intros key end.
    destruct (negb (Json.truthy key)); [unfold Handlers.error_to; by stepM|].
    destruct key; simpl; try by stepM.
    destruct (broadcast_message_WF now uid s content h Hwf)
      as (b & es & h' & Hrun & Hwf' & _).
    rewrite ?bind_assoc, (bind_run _ _ _ _ _ _ Hrun). by stepM.
Qed.

(** Every reachable state satisfies the invariant. *)
Lemma reachable_WF h : reachable h → WF h.
Proof.
  induction 1 as [now|now uid ws name h Hr IH Hfresh
                  |now uid message h Hr IH Hsome|now uid h Hr IH Hsome].
  - apply WF_init.
  - destruct (register_user_WF now uid ws name h IH Hfresh) as (r & es & h' & -> & ?).
    done.
  - by apply handle_message_WF.
  - destruct (disconnect_user_WF now uid h IH Hsome) as (es & h' & -> & ?). done.
Qed.

(** ** Facts about single operations *)

Lemma is_member_spec h uid R : is_member h uid R = true ↔ member_of h uid R.
Proof.
  unfold is_member, member_of. destruct (_rooms h !! R) as [room|]; simpl.
  - rewrite bool_decide_eq_true. split; [by exists room|].
    by intros (room' & [= <-] & Hin).
  - split; [done|]. by intros (room' & [=] & _).
Qed.

Lemma not_member_of h uid R : is_member h uid R = false → ¬ member_of h uid R.
Proof. intros Hf Hm%is_member_spec. congruence. Qed.



Lemma truthy_iff s : Str.truthy s = true ↔ s ≠ "".
Proof. by destruct s. Qed.



Lemma existsb_taken (h : t) (name : string) :
  existsb
    (λ existing_user,
       String.eqb (Str.lower (User.username existing_user)) (Str.lower name))
    (omap (λ id, objs h !! id) (elements (_users h))) = true
  ↔ ∃ id u, id ∈ _users h ∧ objs h !! id = Some u ∧
            Str.lower (User.username u) = Str.lower name.
Proof.
  rewrite existsb_exists. split.
  - intros (u & Hin & Heq). apply list_elem_of_In, list_elem_of_omap in Hin
      as (id & Hid & Hu). apply elem_of_elements in Hid.
    apply String.eqb_eq in Heq. eauto.
  - intros (id & u & Hid & Hu & Heq). exists u. split.
    + apply list_elem_of_In, list_elem_of_omap. exists id. split; [|done].
      by apply elem_of_elements.
    + by apply String.eqb_eq.
Qed.

(** [register_user], case by case. *)
Lemma register_user_run now uid websocket username h :
  let name := Str.strip username in
  let taken := ∃ id u, id ∈ _users h ∧ objs h !! id = Some u ∧
                       Str.lower (User.username u) = Str.lower name in
  (name = "" ∨ 30 < String.length name ∨ taken →
   register_user now uid websocket username h = (Ok None, h, [])) ∧
  (¬ (name = "" ∨ 30 < String.length name ∨ taken) →
   register_user now uid websocket username h
   = (Ok (Some uid),
      set_websocket_to_user <[websocket := uid]>
        (set_users (λ s, s ∪ {[uid]})
           (set_objs <[uid := User.mk name websocket uid now None]> h)),
      [])).
Proof.
  intros name taken. unfold register_user. fold name.
  destruct (Str.truthy name) eqn:Ht; simpl.
  2:{ split; [done|]. intros Hn. destruct Hn. left. by destruct name. }
  assert (name ≠ "") by (by destruct name).
  unfold Str.len.
  destruct (Z.gtb_spec (Z.of_nat (String.length name)) 30) as [Hgt|Hle].
  { split; [done|]. intros Hn. destruct Hn. right. left. lia. }
  rewrite bind_get.
  destruct (existsb _ _) eqn:Hex.
  { split; [done|]. intros Hn. destruct Hn. right. right.
    by apply existsb_taken. }
  split.
  - intros [?|[?|Htaken]]; [done|lia|].
    apply existsb_taken in Htaken. congruence.
  - intros _. by stepM.
Qed.

Lemma MessageType_of_unknown (v : json) :
  (∀ t, v ≠ JStr (value t)) → MessageType_of v = Raise ValueError.
Proof.
  intros Hno. unfold MessageType_of. destruct v as [| | |s| |]; try done.
  destruct (List.find _ all_message_types) as [t|] eqn:Hfind; [|done].
  apply find_some in Hfind as [_ Heq]. apply String.eqb_eq in Heq.
  destruct (Hno t). by rewrite Heq.
Qed.

Lemma MessageType_of_value (t : MessageType) :
  MessageType_of (JStr (value t)) = Ok t.
Proof. by destruct t. Qed.

(** ** The concrete runs are reachable *)

Lemma alice_registered_reachable : reachable Scenario.alice_registered.
Proof. apply reach_register; [apply reach_init|reflexivity]. Qed.

Lemma alice_in_foo_reachable : reachable Scenario.alice_in_foo.
Proof.
  apply reach_message; [apply alice_registered_reachable|].
  vm_compute. eauto.
Qed.

Lemma bob_registered_reachable : reachable Scenario.bob_registered.
Proof.
  apply reach_register; [apply alice_in_foo_reachable|]. by vm_compute.
Qed.

Lemma both_in_foo_reachable : reachable Scenario.both_in_foo.
Proof.
  apply reach_message; [apply bob_registered_reachable|].
  vm_compute. eauto.
Qed.


Lemma on_room_eq f R uid h :
  on_room f R uid h
  = match _rooms h !! R, objs h !! uid with
    | Some room, Some user =>
        (Ok (f room user).1.1,
         set_objs <[uid := (f room user).2]>
           (set_rooms <[R := (f room user).1.2]> h), [])
    | _, _ => (Ok false, h, [])
    end.
Proof.
  unfold on_room. rewrite bind_get.
  destruct (_rooms h !! R) as [room|]; [|done].
  destruct (objs h !! uid) as [user|]; [|done].
  destruct (f room user) as [[ok room'] user']. by stepM.
Qed.

(** [leave_room] removes no room, whatever the state. *)
Lemma leave_room_keeps_rooms now uid R h R0 :
  is_Some (_rooms h !! R0) →
  is_Some (_rooms (state_of (leave_room now uid R h)) !! R0).
Proof.
  intros Hsome. unfold leave_room. rewrite bind_get.
  destruct (_rooms h !! R) as [room0|] eqn:HR; [|done].
  destruct (negb (Room.truthy room0)); [done|].
  assert (Hrun := on_room_eq Room.remove_user R uid h). rewrite HR in Hrun.
  destruct (objs h !! uid) as [user|].
  2:{ rewrite (bind_run _ _ _ _ _ _ Hrun). by stepM. }
  rewrite (bind_run _ _ _ _ _ _ Hrun).
  assert (Hkeep : ∀ room' user',
    is_Some (_rooms (set_objs <[uid := user']> (set_rooms <[R := room']> h)) !! R0)).
  { intros room' user'. simpl. destruct (decide (R = R0)) as [->|];
      [rewrite lookup_insert_eq|rewrite lookup_insert_ne by done]; eauto. }
  destruct (Room.remove_user room0 user) as [[[] room'] user']; simpl; stepM;
    [|apply (Hkeep room' user')].
  repeat (match goal with |- context [if ?b then _ else _] => destruct b end; stepM);
    apply (Hkeep room' user').
Qed.

(** Where the session is in no room, a refused creation changes nothing
    and the handler sends the error to the session alone. *)
Lemma rejected_create_without_room now uid R h :
  objs h !! uid ≫= User.current_room = None →
  is_Some (_rooms h !! R) →
  create_room_and_join now R uid h = (Ok false, h, []).
Proof.
  intros Hcr Hsome. unfold create_room_and_join.
  rewrite bind_current_room_of, Hcr. simpl. stepM.
  by destruct (decide (is_Some (_rooms h !! R))).
Qed.

(** Where the session is in no room, a join of a room that is not there
    changes nothing and sends the error to the session alone. *)
Lemma rejected_join_without_room now uid R h :
  objs h !! uid ≫= User.current_room = None →
  _rooms h !! R = None →
  join_room now uid R h
  = (Ok false, h,
     [UserSend uid
        (MessageFactory.create_error now ("La sala '" +:+ R +:+ "' no existe"))]).
Proof.
  intros Hcr HR. unfold join_room.
  rewrite bind_current_room_of, Hcr. simpl. stepM. rewrite HR. by stepM.
Qed.

(** ** The model of [json] reads back what it writes *)

Module JsonTextFacts.
Import JsonText.

Lemma app_cons (c : ascii) (a b : string) : String c a +:+ b = String c (a +:+ b).
Proof. reflexivity. Qed.

Lemma app_empty (b : string) : "" +:+ b = b.
Proof. reflexivity. Qed.

Lemma string_app_assoc (a b c : string) : (a +:+ b) +:+ c = a +:+ (b +:+ c).
Proof.
  induction a as [|x a IH]; [done|]. rewrite !app_cons. f_equal. exact IH.
Qed.

Lemma string_app_length (a b : string) :
  String.length (a +:+ b) = String.length a + String.length b.
Proof.
  induction a as [|x a IH]; [done|]. rewrite app_cons. simpl. by rewrite IH.
Qed.

(** *** String literals *)

Lemma parse_string_escape_char (c : ascii) (r : string) :
  parse_string (escape_char c +:+ r)
  = '(str, rest) ← parse_string r; Some (String c str, rest).
Proof. destruct c as [[] [] [] [] [] [] [] []]; reflexivity. Qed.

Lemma parse_string_escape (s rest : string) :
  parse_string (escape s +:+ String dquote rest) = Some (s, rest).
Proof.
  induction s as [|c s IH]; [done|].
  change (escape (String c s)) with (escape_char c +:+ escape s).
  rewrite string_app_assoc, parse_string_escape_char, IH. reflexivity.
Qed.

(** *** Integer literals *)

Lemma span_digits_stop (rest : string) :
  delimited rest → span_digits rest = ("", rest).
Proof.
  destruct rest as [|c r]; [done|]. by intros [-> |[-> | ->]].
Qed.

Lemma span_digits_uint (d : Decimal.uint) (rest : string) :
  delimited rest →
  span_digits (NilEmpty.string_of_uint d +:+ rest)
  = (NilEmpty.string_of_uint d, rest).
Proof.
  intros Hrest.
  induction d as [|d IH|d IH|d IH|d IH|d IH|d IH|d IH|d IH|d IH|d IH];
    [by apply span_digits_stop|..];
    cbn [NilEmpty.string_of_uint]; rewrite app_cons;
    cbn [span_digits]; rewrite IH; reflexivity.
Qed.

Lemma to_uint_head (p : positive) :
  ∃ c s, NilEmpty.string_of_uint (Pos.to_uint p) = String c s ∧
         c ≠ "0"%char ∧ c ≠ "-"%char.
Proof.
  assert (Hnorm : Pos.to_uint p = Decimal.unorm (Pos.to_uint p)).
  { rewrite <- (Unsigned.to_of (Pos.to_uint p)), Unsigned.of_to. reflexivity. }
  assert (Hnz : Decimal.nzhead (Pos.to_uint p) ≠ Decimal.Nil).
  { intros Hnil. apply unorm_0 in Hnil. rewrite <- Hnorm in Hnil.
    by apply (Unsigned.to_uint_nonzero p). }
  rewrite (unorm_nzhead _ Hnz) in Hnorm.
  assert (Hhead := nzhead_nonzero (Pos.to_uint p)). rewrite <- Hnorm in Hhead.
  destruct (Pos.to_uint p) as [|d|d|d|d|d|d|d|d|d|d] eqn:Hd;
    [by destruct (Unsigned.to_uint_nonnil p)|by destruct (Hhead d)|..];
    cbn [NilEmpty.string_of_uint]; eexists _, _; split_and!; try reflexivity;
    discriminate.
Qed.

Lemma string_of_uint_pos (p : positive) :
  NilZero.string_of_uint (Pos.to_uint p) = NilEmpty.string_of_uint (Pos.to_uint p).
Proof.
  unfold NilZero.string_of_uint.
  by destruct (Pos.to_uint p) eqn:?; [destruct (Unsigned.to_uint_nonnil p)|..].
Qed.

Lemma delimited_not_number (rest : string) :
  delimited rest →
  match rest with
  | String c _ => Ascii.eqb c "." || Ascii.eqb c "e" || Ascii.eqb c "E"
  | EmptyString => false
  end = false.
Proof. destruct rest as [|c r]; [done|]. by intros [-> |[-> | ->]]. Qed.

Lemma parse_digits_pos (p : positive) (rest : string) :
  delimited rest →
  parse_digits (NilEmpty.string_of_uint (Pos.to_uint p) +:+ rest)
  = Some (Pos.to_uint p, rest).
Proof.
  intros Hrest. unfold parse_digits. rewrite (span_digits_uint _ _ Hrest).
  destruct (to_uint_head p) as (c & s & Hs & Hnz & _). rewrite Hs.
  destruct (Ascii.eqb_spec c "0") as [->|_]; [done|]. cbn [andb].
  rewrite <- Hs, <- string_of_uint_pos,
    (NilZero.usu _ (Unsigned.to_uint_nonnil p)).
  assert (Hn := delimited_not_number rest Hrest).
  destruct rest as [|c' r']; [done|]. by rewrite Hn.
Qed.

Lemma parse_digits_zero (rest : string) :
  delimited rest →
  parse_digits (String "0" rest) = Some (Decimal.zero, rest).
Proof.
  intros Hrest. unfold parse_digits. cbn [span_digits].
  change (is_digit "0") with true. cbn iota.
  rewrite (span_digits_stop _ Hrest).
  assert (Hn := delimited_not_number rest Hrest).
  destruct rest as [|c' r']; [done|]. cbn in *. by rewrite Hn.
Qed.

Lemma parse_dump_int (z : Z) (rest : string) :
  delimited rest →
  parse_int (dump_int z +:+ rest) = Some (z, rest).
Proof.
  intros Hrest. unfold dump_int. destruct z as [|p|p];
    cbn [Z.to_int NilZero.string_of_int].
  - change (NilZero.string_of_uint Decimal.zero +:+ rest) with (String "0" rest).
    unfold parse_int. change (Ascii.eqb "0" "-") with false. cbn iota.
    by rewrite (parse_digits_zero _ Hrest).
  - rewrite string_of_uint_pos.
    destruct (to_uint_head p) as (c & s & Hs & _ & Hnm).
    unfold parse_int.
    assert (Hp := parse_digits_pos p rest Hrest). rewrite Hs, app_cons in *.
    destruct (Ascii.eqb_spec c "-") as [->|_]; [done|].
    rewrite Hp. cbn. unfold Z.of_uint. by rewrite Unsigned.of_to.
  - rewrite string_of_uint_pos, app_cons. unfold parse_int.
    change (Ascii.eqb "-" "-") with true. cbn iota.
    rewrite (parse_digits_pos p rest Hrest). cbn.
    unfold Z.of_uint. by rewrite Unsigned.of_to.
Qed.

(** The first character of an integer literal. *)
Lemma dump_int_head (z : Z) :
  ∃ c s, dump_int z = String c s ∧ (is_digit c = true ∨ c = "-"%char).
Proof.
  unfold dump_int. destruct z as [|p|p]; cbn [Z.to_int NilZero.string_of_int].
  - eexists _, _. split; [reflexivity|]. by left.
  - rewrite string_of_uint_pos.
    destruct (Pos.to_uint p) as [|d|d|d|d|d|d|d|d|d|d] eqn:Hd;
      [by destruct (Unsigned.to_uint_nonnil p)|..];
      cbn [NilEmpty.string_of_uint]; eexists _, _; (split; [reflexivity|by left]).
  - eexists _, _. split; [reflexivity|]. by right.
Qed.

(** *** Values *)

Lemma skip_ws_space (s : string) : skip_ws (String " " s) = skip_ws s.
Proof. reflexivity. Qed.

Lemma parse_value_space fuel s :
  parse_value fuel (String " " s) = parse_value fuel s.
Proof. by destruct fuel. Qed.

Lemma parse_members_space fuel s :
  parse_members fuel (String " " s) = parse_members fuel s.
Proof. by destruct fuel. Qed.

Lemma parse_elements_space fuel s :
  parse_elements fuel (String " " s) = parse_elements fuel s.
Proof. destruct fuel; [done|]. cbn [parse_elements]. by rewrite parse_value_space. Qed.

Lemma skip_ws_delimited (rest : string) : delimited rest → skip_ws rest = rest.
Proof. destruct rest as [|c r]; [done|]. by intros [-> |[-> | ->]]. Qed.

Lemma dumps_head (j : json) : ∃ c s, dumps j = String c s ∧ value_head c.
Proof.
  destruct j as [|[]|z|s|l|l]; try (by eexists _, _).
  destruct (dump_int_head z) as (c & s & Hs & Hc). exists c, s. split; [done|].
  destruct Hc as [Hd| ->]; [|done].
  destruct c as [[] [] [] [] [] [] [] []]; try done.
Qed.

Lemma reads_back_elements (l : list json) :
  l ≠ [] →
  Forall reads_back l →
  ∀ fuel rest,
    list_sum (map (λ x, 1 + size x) l) ≤ fuel →
    parse_elements fuel (join ", " (map dumps l) +:+ String "]" rest)
    = Some (l, rest).
Proof.
  intros Hne Hall. induction Hall as [|x l Hx Hall IH]; [done|].
  intros fuel rest Hfuel. cbn [map] in Hfuel.
  change (list_sum (?a :: ?l)) with (a + list_sum l) in Hfuel.
  destruct fuel as [|fuel]; [lia|]. cbn [parse_elements].
  destruct l as [|y l].
  - cbn [map join]. rewrite (Hx fuel (String "]" rest)); [|lia|by right; left].
    reflexivity.
  - change (join ", " (map dumps (x :: y :: l)))
      with (dumps x +:+ ", " +:+ join ", " (map dumps (y :: l))).
    rewrite !string_app_assoc.
    rewrite (Hx fuel); [|lia|by left]. cbn [mbind option_bind].
    change (", " +:+ ?s) with (String "," (String " " s)).
    cbn [skip_ws is_ws]. change (is_ws ",") with false. cbn iota.
    change (Ascii.eqb "," ",") with true. cbn iota.
    rewrite parse_elements_space, IH; [done|done|lia].
Qed.

Ltac norm_app :=
  repeat first [rewrite app_cons | rewrite app_empty | rewrite string_app_assoc].

Lemma parse_members_unfold fuel s :
  parse_members (S fuel) s
  = '(k, v, r3) ← parse_member fuel s;
    match skip_ws r3 with
    | String c' r4 =>
        if Ascii.eqb c' "," then
          '(l, r5) ← parse_members fuel r4; Some ((k, v) :: l, r5)
        else if Ascii.eqb c' "}" then Some ([(k, v)], r4)
        else None
    | EmptyString => None
    end.
Proof.
  cbn [parse_members]. unfold parse_member.
  destruct (skip_ws s) as [|q r]; [done|].
  destruct (Ascii.eqb q dquote); [|done].
  destruct (parse_string r) as [[k r1]|]; [|done]. cbn [mbind option_bind].
  destruct (skip_ws r1) as [|c r2]; [done|].
  destruct (Ascii.eqb c ":"); [|done].
  by destruct (parse_value fuel r2) as [[v r3]|].
Qed.

Lemma parse_dump_member fuel k v tail :
  reads_back v → size v ≤ fuel → delimited tail →
  parse_member fuel (dump_member (k, v) +:+ tail) = Some (k, v, tail).
Proof.
  intros Hv Hfuel Htail. unfold parse_member, dump_member, dump_string.
  cbn [fst snd]. norm_app. cbn [skip_ws]. change (is_ws dquote) with false.
  cbn iota. change (Ascii.eqb dquote dquote) with true. cbn iota.
  rewrite parse_string_escape. cbn [mbind option_bind skip_ws].
  change (is_ws ":") with false. cbn iota.
  change (Ascii.eqb ":" ":") with true. cbn iota.
  by rewrite parse_value_space, (Hv fuel tail).
Qed.

Lemma reads_back_members (l : list (string * json)) :
  l ≠ [] →
  Forall (λ kv, reads_back kv.2) l →
  ∀ fuel rest,
    list_sum (map (λ kv, 1 + size kv.2) l) ≤ fuel →
    parse_members fuel (join ", " (map dump_member l) +:+ String "}" rest)
    = Some (l, rest).
Proof.
  intros Hne Hall. induction Hall as [|[k v] l Hv Hall IH]; [done|].
  intros fuel rest Hfuel. cbn [map snd] in Hfuel.
  change (list_sum (?a :: ?l)) with (a + list_sum l) in Hfuel.
  destruct fuel as [|fuel]; [lia|]. rewrite parse_members_unfold.
  destruct l as [|y l].
  - cbn [map join].
    rewrite parse_dump_member; [done|done|lia|by right; right].
  - change (join ", " (map dump_member ((k, v) :: y :: l)))
      with (dump_member (k, v) +:+ ", " +:+ join ", " (map dump_member (y :: l))).
    rewrite string_app_assoc.
    rewrite parse_dump_member; [|done|lia|by norm_app; left].
    cbn [mbind option_bind]. norm_app. cbn [skip_ws].
    change (is_ws ",") with false. cbn iota.
    change (Ascii.eqb "," ",") with true. cbn iota.
    rewrite parse_members_space, IH; [done|done|lia].
Qed.

Lemma size_pos (j : json) : 1 ≤ size j.
Proof. destruct j; simpl; lia. Qed.

(** Every value is read back from what [dumps] wrote. *)
Lemma dumps_reads_back (j : json) : reads_back j.
Proof.
  induction j as [|b|z|s|l IH|l IH] using json_induction;
    intros fuel rest Hfuel Hrest;
    (destruct fuel as [|fuel]; [cbn [size] in Hfuel; lia|]).
  - reflexivity.
  - by destruct b.
  - cbn [dumps parse_value].
    destruct (dump_int_head z) as (c & s & Hs & Hc).
    assert (Hp := parse_dump_int z rest Hrest). rewrite Hs, app_cons in *.
    assert (Hws : is_ws c = false).
    { destruct Hc as [Hd| ->]; [|done]. by destruct c as [[] [] [] [] [] [] [] []]. }
    cbn [skip_ws]. rewrite Hws, Hp.
    destruct Hc as [Hd| ->]; [|done].
    by destruct c as [[] [] [] [] [] [] [] []].
  - cbn [dumps parse_value]. unfold dump_string. norm_app. cbn [skip_ws].
    change (is_ws dquote) with false. cbn iota.
    change (Ascii.eqb dquote "n") with false.
    change (Ascii.eqb dquote "t") with false.
    change (Ascii.eqb dquote "f") with false.
    change (Ascii.eqb dquote dquote) with true. cbn iota.
    by rewrite parse_string_escape.
  - cbn [dumps parse_value]. norm_app. cbn [skip_ws].
    change (is_ws "[") with false. cbn iota.
    change (Ascii.eqb "[" "n") with false.
    change (Ascii.eqb "[" "t") with false.
    change (Ascii.eqb "[" "f") with false.
    change (Ascii.eqb "[" dquote) with false.
    change (Ascii.eqb "[" "[") with true. cbn iota.
    destruct l as [|x l]; [reflexivity|].
    assert (Hrun := reads_back_elements (x :: l) ltac:(done) IH fuel rest).
    cbn [size] in Hfuel. specialize (Hrun ltac:(lia)).
    destruct (dumps_head x) as (c & s & Hs & Hws & Hc & _).
    assert (Hstart : ∃ s', join ", " (map dumps (x :: l)) +:+ String "]" rest
                           = String c s').
    { destruct l; cbn [map join]; rewrite Hs; norm_app; eauto. }
    destruct Hstart as [s' Hs']. rewrite Hs' in *.
    cbn [skip_ws]. rewrite Hws.
    destruct (Ascii.eqb_spec c "]") as [->|_]; [done|]. by rewrite Hrun.
  - cbn [dumps parse_value]. norm_app. cbn [skip_ws].
    change (is_ws "{") with false. cbn iota.
    change (Ascii.eqb "{" "n") with false.
    change (Ascii.eqb "{" "t") with false.
    change (Ascii.eqb "{" "f") with false.
    change (Ascii.eqb "{" dquote) with false.
    change (Ascii.eqb "{" "[") with false.
    change (Ascii.eqb "{" "{") with true. cbn iota.
    destruct l as [|[k v] l]; [reflexivity|].
    assert (Hrun := reads_back_members ((k, v) :: l) ltac:(done) IH fuel rest).
    cbn [size] in Hfuel. specialize (Hrun ltac:(lia)).
    fold dump_member.
    assert (Hstart : ∃ s', join ", " (map dump_member ((k, v) :: l))
                             +:+ String "}" rest
                           = String dquote s').
    { destruct l; cbn [map join]; unfold dump_member at 1, dump_string;
        norm_app; eauto. }
    destruct Hstart as [s' Hs']. rewrite Hs' in *.
    cbn [skip_ws]. change (is_ws dquote) with false. cbn iota.
    change (Ascii.eqb dquote "}") with false. cbn iota. by rewrite Hrun.
Qed.

(** *** Whole texts *)

Lemma app_empty_r (s : string) : s +:+ "" = s.
Proof. induction s as [|c s IH]; [done|]. by rewrite app_cons, IH. Qed.

Lemma join_length {A} (f : A → string) (g : A → nat) (l : list A) :
  l ≠ [] →
  Forall (λ x, g x ≤ String.length (f x)) l →
  list_sum (map (λ x, 1 + g x) l) ≤ String.length (join ", " (map f l)) + 1.
Proof.
  intros Hne Hall. induction Hall as [|x l Hx Hall IH]; [done|].
  cbn [map]. change (list_sum (?a :: ?l)) with (a + list_sum l).
  destruct l as [|y l].
  - cbn [map join list_sum fold_right]. lia.
  - specialize (IH ltac:(done)). cbn [map] in *.
    change (join ", " (?a :: ?b :: ?l)) with (a +:+ ", " +:+ join ", " (b :: l)).
    change (list_sum (?a :: ?l)) with (a + list_sum l) in *.
    rewrite !string_app_length. change (String.length ", ") with 2. lia.
Qed.

Lemma size_le_length (j : json) : size j ≤ String.length (dumps j).
Proof.
  induction j as [|b|z|s|l IH|l IH] using json_induction.
  - simpl. lia.
  - destruct b; simpl; lia.
  - destruct (dump_int_head z) as (c & s & Hs & _). cbn [size dumps].
    rewrite Hs. simpl. lia.
  - cbn [size dumps]. unfold dump_string. simpl. lia.
  - cbn [size dumps]. rewrite !string_app_length.
    change (String.length "[") with 1. change (String.length "]") with 1.
    destruct l as [|x l]; [simpl; lia|].
    pose proof (join_length dumps size (x :: l) ltac:(done) IH). lia.
  - cbn [size dumps]. rewrite !string_app_length.
    change (String.length "{") with 1. change (String.length "}") with 1.
    destruct l as [|x l]; [simpl; lia|].
    fold dump_member.
    assert (Hall : Forall (λ kv : string * json,
                             size kv.2 ≤ String.length (dump_member kv)) (x :: l)).
    { eapply Forall_impl; [exact IH|]. intros [k v] Hv. cbn beta in *.
      unfold dump_member. rewrite !string_app_length. cbn [snd] in *. lia. }
    pose proof (join_length dump_member (λ kv, size kv.2) (x :: l)
                  ltac:(done) Hall). lia.
Qed.

Lemma dict_set_fresh k v (d : list (string * json)) :
  k ∉ map fst d → dict_set k v d = d ++ [(k, v)].
Proof.
  induction d as [|[k' v'] d IH]; [done|]. intros Hk. cbn [dict_set].
  destruct (String.eqb_spec k k') as [->|Hne].
  - destruct Hk. cbn [map fst]. by left.
  - cbn [app]. f_equal. apply IH. intros Hin. apply Hk. cbn [map]. by right.
Qed.

Lemma dict_of_unique (l acc : list (string * json)) :
  NoDup (map fst (acc ++ l)) →
  fold_left (λ d kv, dict_set kv.1 kv.2 d) l acc = acc ++ l.
Proof.
  revert acc. induction l as [|[k v] l IH]; intros acc Hnd.
  - by rewrite app_nil_r.
  - cbn [fold_left fst snd]. rewrite dict_set_fresh.
    + rewrite IH; rewrite <- app_assoc; [done|]. exact Hnd.
    + rewrite map_app in Hnd. apply NoDup_app in Hnd as (_ & Hdisj & _).
      intros Hin. apply (Hdisj k Hin). cbn [map fst]. by left.
Qed.

Lemma normalize_unique (j : json) : unique_keys j → normalize j = j.
Proof.
  induction j as [|b|z|s|l IH|l IH] using json_induction; try done.
  - cbn [unique_keys normalize]. intros Hu. f_equal.
    induction IH as [|x l Hx Hall IHl]; [done|].
    cbn [fold_right map] in *. destruct Hu as [Hux Hul].
    by rewrite (Hx Hux), (IHl Hul).
  - cbn [unique_keys normalize]. intros [Hnd Hu]. f_equal.
    assert (Hmap : map (λ kv : string * json, (kv.1, normalize kv.2)) l = l).
    { clear Hnd. induction IH as [|[k v] l Hx Hall IHl]; [done|].
      cbn [fold_right map fst snd] in *. destruct Hu as [Hux Hul].
      by rewrite (Hx Hux), (IHl Hul). }
    rewrite Hmap. by apply (dict_of_unique l []).
Qed.

(** The model of the library reads back what it writes. *)
Lemma loads_dumps (j : json) : unique_keys j → loads (dumps j) = Some j.
Proof.
  intros Hu. unfold loads.
  assert (Hrun := dumps_reads_back j (S (String.length (dumps j))) ""
                    ltac:(pose proof (size_le_length j); lia) I).
  rewrite app_empty_r in Hrun. rewrite Hrun. cbn.
  by rewrite normalize_unique.
Qed.

End JsonTextFacts.

(** ** The connection loop *)

Lemma state_of_emit {A} es (r : outcome A * t * list effect) :
  state_of (emit es r) = state_of r.
Proof. done. Qed.

(** The connection loop stays within the reachable states: a frame on a
    connection whose user, if any, is a user object of the store, with an
    identifier at hand that no user object carries. *)
Lemma on_frame_reachable loads now websocket uid user raw h :
  reachable h →
  objs h !! uid = None →
  (∀ id, user = Some id → is_Some (objs h !! id)) →
  reachable (Connection.on_frame loads now websocket uid user raw h).1.2.
Proof.
  intros Hreach Hfresh Huser.
  assert (Hstate : (Connection.on_frame loads now websocket uid user raw h).1.2
                   = state_of (Connection.body loads now websocket uid user raw h)).
  { unfold Connection.on_frame, state_of.
    by destruct (Connection.body _ _ _ _ _ _ _) as [[[] ?] ?]. }
  rewrite Hstate. unfold Connection.body.
  destruct (from_json loads now raw) as [message|e]; [|by rewrite bind_lift_Raise].
  rewrite bind_lift_Ok. destruct user as [id|].
  - assert (Hrun := reach_message now id message h Hreach (Huser id eq_refl)).
    destruct (Handlers.handle_message now id message h) as [[[b|e] h1] es1] eqn:Hm.
    + by rewrite (bind_run _ _ _ _ _ _ Hm).
    + by rewrite (bind_raise _ _ _ _ _ _ Hm).
  - destruct (negb _); [by stepM|].
    destruct (Json.get _ _ _) as [v|e]; [|by stepM]. stepM.
    destruct v; try by stepM. stepM.
    assert (Hrun := reach_register now uid websocket s h Hreach Hfresh).
    destruct (register_user now uid websocket s h) as [[[r|e] h1] es1] eqn:Hm.
    + rewrite (bind_run _ _ _ _ _ _ Hm). rewrite state_of_emit.
      destruct r; by stepM.
    + by rewrite (bind_raise _ _ _ _ _ _ Hm).
Qed.

Lemma on_close_reachable now user h :
  reachable h →
  (∀ id, user = Some id → is_Some (objs h !! id)) →
  reachable (state_of (Connection.on_close now user h)).
Proof.
  intros Hreach Huser. destruct user as [id|]; [|done].
  apply reach_disconnect; eauto.
Qed.

(** A room without a user is false, so a join of it is refused as if the
room were not there: this is so for [General] until somebody is in it. *)
Lemma join_of_empty_room_refused now uid R room h :
  objs h !! uid ≫= User.current_room = None →
  _rooms h !! R = Some room →
  Room._users room = ∅ →
  join_room now uid R h
  = (Ok false, h,
     [UserSend uid
        (MessageFactory.create_error now ("La sala '" +:+ R +:+ "' no existe"))]).
Proof.
  intros Hcr HR Hempty. unfold join_room.
  rewrite bind_current_room_of, Hcr. simpl. stepM. rewrite HR.
  assert (Hfalse : Room.truthy room = false).
  { apply not_true_is_false. rewrite room_truthy_iff. by intros []. }
  rewrite Hfalse. by stepM.
Qed.

(** * The claims *)

(** ** C1: refused operations *)

(** C1 (the code departs from it).  Alice and Bob are in [foo].  Alice
    asks to create [General], which exists, and, from the same state, to
    join [bar], which does not: each request is refused with the error
    for Alice, but only after Alice was taken out of [foo] and Bob and
    every live session were told so. *)
Theorem rejected_request_leaves_current_room :
  let alice := "a1a1a1a1" in
  let bob := "b2b2b2b2" in
  let h := Scenario.both_in_foo in
  let create := Handlers.handle_message "12:00" alice
                  (Scenario.frame CREATE_ROOM [("room_name", JStr "General")]) h in
  let join := join_room "12:00" alice "bar" h in
  is_Some (_rooms h !! "General") ∧
  _rooms h !! "bar" = None ∧
  objs h !! alice ≫= User.current_room = Some "foo" ∧
  result_of (create_room_and_join "12:00" "General" alice h) = Ok false ∧
  last (effects_of create)
  = Some (UserSend alice
            (MessageFactory.create_error "12:00" "La sala 'General' ya existe")) ∧
  objs (state_of create) !! alice ≫= User.current_room = None ∧
  elements <$> (Room._users <$> _rooms (state_of create) !! "foo") = Some [bob] ∧
  head (effects_of create)
  = Some (UserSend bob (MessageFactory.create_user_left "12:00" "alice" "foo")) ∧
  result_of join = Ok false ∧
  last (effects_of join)
  = Some (UserSend alice
            (MessageFactory.create_error "12:00" "La sala 'bar' no existe")) ∧
  objs (state_of join) !! alice ≫= User.current_room = None ∧
  elements <$> (Room._users <$> _rooms (state_of join) !! "foo") = Some [bob] ∧
  head (effects_of join)
  = Some (UserSend bob (MessageFactory.create_user_left "12:00" "alice" "foo")).
Proof. vm_compute. split_and!; eauto. Qed.

(** ** C2: membership symmetry and single room *)

(** C2.  In every reachable state, a live session's [current_room] is [R]
    exactly when the session is in the member set of the room stored
    under [R], and no session is in the member sets of two rooms. *)
Theorem membership_symmetry_single_room (h : t) :
  reachable h →
  (∀ uid R, uid ∈ _users h → in_room h uid R ↔ member_of h uid R) ∧
  (∀ uid R1 R2, member_of h uid R1 → member_of h uid R2 → R1 = R2).
Proof.
  intros Hwf%reachable_WF. split.
  - intros uid R _. split; [apply wf_current|apply wf_member]; done.
  - intros uid R1 R2 H1 H2.
    destruct (wf_member h Hwf uid R1 H1) as (u1 & Hu1 & Hc1).
    destruct (wf_member h Hwf uid R2 H2) as (u2 & Hu2 & Hc2).
    congruence.
Qed.

Lemma membership_symmetry_single_room_witness :
  (∀ uid R, uid ∈ _users Scenario.both_in_foo →
     in_room Scenario.both_in_foo uid R ↔ member_of Scenario.both_in_foo uid R) ∧
  (∀ uid R1 R2, member_of Scenario.both_in_foo uid R1 →
     member_of Scenario.both_in_foo uid R2 → R1 = R2).
Proof.
  apply (membership_symmetry_single_room Scenario.both_in_foo).
  apply both_in_foo_reachable.
Defined.

(** ** C3: the echo of a chat message *)



(** ** C4: registration *)



(** ** C5: chatting outside membership *)

(** C5, as the code has it.  When the session is not a member of [R], nothing is
    broadcast and the state, every history in it, stays as it was; the
    session is sent the error when [R] names a room that has a member,
    and nothing when no room is named [R]. *)
Theorem chat_outside_membership (now : string) (h : t) (uid R content : string) :
  ¬ member_of h uid R →
  let r := broadcast_message now uid R content h in
  let error := UserSend uid (MessageFactory.create_error now "No estás en esta sala") in
  result_of r = Ok false ∧
  state_of r = h ∧
  (∀ e, e ∈ effects_of r → e = error) ∧
  (∀ room, _rooms h !! R = Some room → Room._users room ≠ ∅ →
     effects_of r = [error]) ∧
  (_rooms h !! R = None → effects_of r = []).
Proof.
  intros Hnot r error. subst r. unfold broadcast_message. rewrite bind_get.
  destruct (_rooms h !! R) as [room|] eqn:HR.
  2:{ unfold ret, result_of, state_of, effects_of. simpl.
      split_and!; try done. intros e He. by apply elem_of_nil in He. }
  destruct (Room.truthy room) eqn:Ht; simpl.
  2:{ unfold ret, result_of, state_of, effects_of. simpl.
      split_and!; try done.
      - intros e He. by apply elem_of_nil in He.
      - intros room' [= <-] Hne. apply room_truthy_iff in Hne. congruence. }
  unfold Room.has_user. rewrite bool_decide_eq_false_2; simpl.
  2:{ intros Hin. apply Hnot. by exists room. }
  stepM. unfold ret, emit, result_of, state_of, effects_of. simpl.
  split_and!; try done. intros e He. by apply list_elem_of_singleton in He.
Qed.

Lemma chat_outside_membership_witness :
  result_of (broadcast_message "12:00" "b2b2b2b2" "foo" "hola" Scenario.bob_registered)
  = Ok false.
Proof.
  apply (chat_outside_membership "12:00" Scenario.bob_registered "b2b2b2b2" "foo" "hola").
  apply not_member_of. vm_compute. reflexivity.
Defined.

Lemma chat_outside_membership_counterexample :
  ¬ member_of Scenario.alice_registered "a1a1a1a1" "bar" ∧
  effects_of (broadcast_message "12:00" "a1a1a1a1" "bar" "hola"
                Scenario.alice_registered)
  ≠ [UserSend "a1a1a1a1"
       (MessageFactory.create_error "12:00" "No estás en esta sala")].
Proof.
  split.
  - apply not_member_of. vm_compute. reflexivity.
  - vm_compute. discriminate.
Qed.

(** ** C6: what a join sends *)



(** ** C7: the bound on a room's history *)



(** ** C8: malformed frames *)

(** C8, as the code has it.  A frame that is not JSON, or whose [type] is none
    of the tags, is dropped: nothing is sent, the state and the
    connection's user stay as they were. *)
Theorem malformed_frame_dropped (loads : string → option json) (now : string)
    (websocket : nat) (uid id raw : string) (h : t) :
  loads raw = None ∨
  (∃ l v, loads raw = Some (JObj l) ∧ Json.assoc "type" l = Some v ∧
          ∀ t, v ≠ JStr (value t)) →
  Connection.on_frame loads now websocket uid (Some id) raw h = (Some id, h, []).
Proof.
  intros Hbad.
  assert (Hraise : ∃ e, from_json loads now raw = Raise e).
  { unfold from_json. destruct Hbad as [-> | (l & v & -> & Hv & Hno)]; [eauto|].
    simpl. rewrite Hv, (MessageType_of_unknown v Hno). eauto. }
  destruct Hraise as [e He].
  unfold Connection.on_frame, Connection.body. by rewrite He, bind_lift_Raise.
Qed.

Lemma malformed_frame_dropped_witness :
  Connection.on_frame JsonText.loads "12:00" 1 "c3c3c3c3" (Some "a1a1a1a1")
    "{ not json" Scenario.alice_in_foo
  = (Some "a1a1a1a1", Scenario.alice_in_foo, []).
Proof.
  apply (malformed_frame_dropped JsonText.loads).
  left. vm_compute. reflexivity.
Defined.

Lemma malformed_frame_counterexample :
  JsonText.loads "{ not json" = None ∧
  (Connection.on_frame JsonText.loads "12:00" 1 "c3c3c3c3" (Some "a1a1a1a1")
     "{ not json" Scenario.alice_in_foo).2
  ≠ [UserSend "a1a1a1a1"
       (MessageFactory.create_error "12:00" "mensaje inválido")].
Proof. split; [by vm_compute|]. vm_compute. discriminate. Qed.

(** ** C9: the default room *)

(** C9.  The room [General] is in the initial state and in every
    reachable state; [delete_room] on it answers false and changes
    nothing, and leaving it, even as its last member, keeps it. *)
Theorem general_is_immortal (h : t) :
  reachable h →
  (∀ now, is_Some (_rooms (init now) !! "General")) ∧
  is_Some (_rooms h !! "General") ∧
  (∀ now h0, delete_room now "General" h0 = (Ok false, h0, [])) ∧
  (∀ now uid h0,
     is_Some (_rooms h0 !! "General") →
     is_Some (_rooms (state_of (leave_room now uid "General" h0)) !! "General")).
Proof.
  intros Hwf%reachable_WF. split_and!.
  - intros now. apply (wf_general _ (WF_init now)).
  - by apply wf_general.
  - intros now h0. apply delete_room_noop.
  - intros now uid h0. apply leave_room_keeps_rooms.
Qed.

Lemma general_is_immortal_witness :
  (∀ now, is_Some (_rooms (init now) !! "General")) ∧
  is_Some (_rooms Scenario.both_in_foo !! "General") ∧
  (∀ now h0, delete_room now "General" h0 = (Ok false, h0, [])) ∧
  (∀ now uid h0,
     is_Some (_rooms h0 !! "General") →
     is_Some (_rooms (state_of (leave_room now uid "General" h0)) !! "General")).
Proof.
  apply (general_is_immortal Scenario.both_in_foo).
  apply both_in_foo_reachable.
Defined.

(** ** C10: the codec *)

(** For any pair of [dumps] and [loads] that reads the frame of [m] back
as it was written, decoding the encoded [m] gives [m]. *)
Lemma from_json_to_json (dumps : json → string) (loads : string → option json)
    (now : string) (m : Message) (ts : string) :
  timestamp m = JStr ts →
  (let data := JObj [("type", JStr (value (type m)));
                     ("payload", payload m);
                     ("timestamp", timestamp m)] in
   loads (dumps data) = Some data) →
  from_json loads now (to_json dumps m) = Ok m.
Proof.
  intros Hts Hlib. simpl in Hlib.
  unfold from_json, to_json. rewrite Hlib. cbn -[MessageType_of].
  rewrite MessageType_of_value. unfold Message_init. rewrite Hts.
  destruct m. simpl in *. by rewrite Hts.
Qed.

(** C10.  A message whose timestamp is a string and whose payload is a
JSON value (each dict with one value per key) is decoded from its encoding
with the same type, payload and timestamp.  The property holds for any JSON
library that reads back what it writes ([from_json_to_json]); it is stated
here for the model of Python's, whose numbers are integers. *)
Theorem codec_roundtrip (now : string) (m : Message) (ts : string) :
  timestamp m = JStr ts →
  JsonText.unique_keys (payload m) →
  from_json JsonText.loads now (to_json JsonText.dumps m) = Ok m ∧
  (∀ m', from_json JsonText.loads now (to_json JsonText.dumps m) = Ok m' →
         type m' = type m ∧ payload m' = payload m ∧ timestamp m' = timestamp m).
Proof.
  intros Hts Hu.
  assert (Hback : from_json JsonText.loads now (to_json JsonText.dumps m) = Ok m).
  { apply (from_json_to_json _ _ now m ts Hts). cbn zeta.
    apply JsonTextFacts.loads_dumps. rewrite Hts. cbn.
    split; [|done]. apply (bool_decide_unpack _). by vm_compute. }
  split; [done|]. intros m' Hm'. rewrite Hback in Hm'. by injection Hm' as <-.
Qed.

Lemma codec_roundtrip_witness :
  from_json JsonText.loads "12:00"
    (to_json JsonText.dumps
       (MessageFactory.create_chat_message "11:59" "alice" "foo" "hola, Bob"))
  = Ok (MessageFactory.create_chat_message "11:59" "alice" "foo" "hola, Bob").
Proof.
  apply (codec_roundtrip "12:00"
           (MessageFactory.create_chat_message "11:59" "alice" "foo" "hola, Bob")
           "11:59").
  - reflexivity.
  - simpl. split; [|done]. apply (bool_decide_unpack _). vm_compute. exact I.
Defined.

(** * Further properties of the code *)

(** ** What every operation keeps *)

Lemma same_user_refl u : same_user u u.
Proof. by repeat split. Qed.

Lemma same_user_trans u1 u2 u3 : same_user u1 u2 → same_user u2 u3 → same_user u1 u3.
Proof. unfold same_user. intros (?&?&?&?) (?&?&?&?). split_and!; congruence. Qed.

Lemma same_user_set u r : same_user u (User.set_current_room u r).
Proof. by repeat split. Qed.

Lemma same_room_refl room : same_room room room.
Proof. by repeat split. Qed.

Lemma same_room_trans r1 r2 r3 : same_room r1 r2 → same_room r2 r3 → same_room r1 r3.
Proof.
  unfold same_room. intros (?&?&?&?&HE1) (?&?&?&?&HE2). split_and!; try congruence.
  intros He. rewrite <- (HE1 He). apply HE2. by rewrite (HE1 He).
Qed.

Lemma frame_refl P h : frame P h h.
Proof.
  constructor; eauto using same_user_refl, same_room_refl.
  intros R HN [r Hr]. congruence.
Qed.

Lemma frame_trans P h1 h2 h3 : frame P h1 h2 → frame P h2 h3 → frame P h1 h3.
Proof.
  intros [Ho1 Hf1 Hu1 Hr1 Hn1] [Ho2 Hf2 Hu2 Hr2 Hn2]. constructor.
  - intros id u Hu. destruct (Ho1 id u Hu) as (u' & Hu' & Hs).
    destruct (Ho2 id u' Hu') as (u'' & Hu'' & Hs'). eauto using same_user_trans.
  - eauto.
  - set_solver.
  - intros R room Hr. destruct (Hr1 R room Hr) as (r' & Hr' & Hs).
    destruct (Hr2 R r' Hr') as (r'' & Hr'' & Hs'). eauto using same_room_trans.
  - intros R HN Hs. destruct (_rooms h2 !! R) as [r2|] eqn:H2; eauto.
Qed.

Lemma frame_weaken (P Q : string → Prop) h h' :
  (∀ R, P R → Q R) → frame P h h' → frame Q h h'.
Proof. intros HPQ [Ho Hf Hu Hr Hn]. constructor; eauto. Qed.

(** A room with a user and a user object are written back. *)
Lemma frame_update P h R room room' uid u u' :
  _rooms h !! R = Some room → same_room room room' →
  objs h !! uid = Some u → same_user u u' →
  frame P h (set_objs <[uid := u']> (set_rooms <[R := room']> h)).
Proof.
  intros HR Hsr Hu Hsu. constructor; simpl.
  - intros id u0 Hu0. destruct (decide (uid = id)) as [->|].
    + rewrite lookup_insert_eq. assert (u0 = u) as -> by congruence. eauto.
    + rewrite lookup_insert_ne by done. eauto using same_user_refl.
  - intros id Hid. rewrite lookup_insert_ne; [done|]. intros ->. congruence.
  - done.
  - intros R0 room0 Hr0. destruct (decide (R = R0)) as [->|].
    + rewrite lookup_insert_eq. assert (room0 = room) as -> by congruence. eauto.
    + rewrite lookup_insert_ne by done. eauto using same_room_refl.
  - intros R0 HN. rewrite lookup_insert_ne; [intros [? ?]; congruence|].
    intros ->. congruence.
Qed.

Lemma frame_update_room P h R room room' :
  _rooms h !! R = Some room → same_room room room' →
  frame P h (set_rooms <[R := room']> h).
Proof.
  intros HR Hsr. constructor; simpl; eauto using same_user_refl.
  - intros R0 room0 Hr0. destruct (decide (R = R0)) as [->|].
    + rewrite lookup_insert_eq. assert (room0 = room) as -> by congruence. eauto.
    + rewrite lookup_insert_ne by done. eauto using same_room_refl.
  - intros R0 HN. rewrite lookup_insert_ne; [intros [? ?]; congruence|].
    intros ->. congruence.
Qed.

Lemma truthy_not_empty room : Room.truthy room = true → Room._users room = ∅ → False.
Proof. intros Ht He. by apply room_truthy_iff in Ht. Qed.

Lemma same_room_users room s :
  Room.truthy room = true → same_room room (Room.set_users room s).
Proof. intros Ht. split_and!; try done. intros He. by destruct (truthy_not_empty room). Qed.

Lemma same_room_history room l :
  Room.truthy room = true → same_room room (Room.set_history room l).
Proof. intros Ht. split_and!; try done. intros He. by destruct (truthy_not_empty room). Qed.

(** ** Messages on the wire *)

Lemma unique_keys_strs (l : list string) : JsonText.unique_keys (JArr (JStr <$> l)).
Proof. induction l as [|s l IH]; simpl; [done|]. split; [done|]. apply IH. Qed.

Lemma unique_keys_to_dict objs room : JsonText.unique_keys (Room.to_dict objs room).
Proof.
  unfold Room.to_dict. simpl. split.
  - apply (bool_decide_unpack _). vm_compute. exact I.
  - split_and!; try done. apply unique_keys_strs.
Qed.

Lemma unique_keys_arr (l : list json) :
  Forall JsonText.unique_keys l → JsonText.unique_keys (JArr l).
Proof. induction 1; simpl; [done|]. by split. Qed.

Lemma unique_keys_rooms_info objs (l : list Room.t) :
  JsonText.unique_keys (JArr (Room.to_dict objs <$> l)).
Proof.
  apply unique_keys_arr, Forall_fmap, Forall_forall. intros r _.
  apply unique_keys_to_dict.
Qed.

Ltac wire_one :=
  unfold wire_ok; simpl;
  split;
  [ split;
    [ apply (bool_decide_unpack _); vm_compute; exact I
    | split_and!;
      first [ exact (unique_keys_strs _) | exact (unique_keys_rooms_info _ _)
            | done | by case_match ] ]
  | eauto ].

Ltac wire :=
  rewrite ?app_nil_r;
  repeat (apply Forall_app; split);
  try apply List.Forall_nil;
  try (apply Forall_broadcast; intros ?);
  try (apply Forall_to_all; intros ?);
  repeat (apply List.Forall_cons; [|try apply List.Forall_nil]);
  wire_one.

(** Every operation of the server keeps the frame, sends messages that
    the codec reads back, and leaves [_users] as it was. *)
Lemma leave_room_frame P now uid R h :
  ∃ b h' es, leave_room now uid R h = (Ok b, h', es) ∧ frame P h h' ∧
             Forall wire_ok es ∧ _users h' = _users h.
Proof.
  unfold leave_room. rewrite bind_get.
  destruct (_rooms h !! R) as [room0|] eqn:HR;
    [|unfold ret; eauto 10 using frame_refl].
  destruct (Room.truthy room0) eqn:Ht; simpl;
    [|unfold ret; eauto 10 using frame_refl].
  assert (Hrun := on_room_eq Room.remove_user R uid h). rewrite HR in Hrun.
  destruct (objs h !! uid) as [user|] eqn:Hu.
  2:{ rewrite (bind_run _ _ _ _ _ _ Hrun). stepM. unfold ret, emit. simpl.
      eauto 10 using frame_refl. }
  rewrite (bind_run _ _ _ _ _ _ Hrun).
  assert (Hfr : frame P h
            (set_objs <[uid := (Room.remove_user room0 user).2]>
               (set_rooms <[R := (Room.remove_user room0 user).1.2]> h))).
  { eapply frame_update; eauto; unfold Room.remove_user; case_decide; simpl;
      auto using same_room_refl, same_user_refl, same_room_users, same_user_set. }
  destruct (Room.remove_user room0 user) as [[[] room'] user']; simpl in *; stepM.
  2:{ unfold ret, emit. simpl. eauto 10. }
  repeat (match goal with |- context [if ?b then _ else _] => destruct b end; stepM);
    unfold ret, emit; simpl;
    (eexists _, _, _; split; [reflexivity|]; split; [exact Hfr|]; split; [|done]);
    wire.
Qed.

Lemma frame_update_user P h uid u u' :
  objs h !! uid = Some u → same_user u u' →
  frame P h (set_objs <[uid := u']> h).
Proof.
  intros Hu Hsu. constructor; simpl; eauto using same_room_refl.
  - intros id u0 Hu0. destruct (decide (uid = id)) as [->|].
    + rewrite lookup_insert_eq. assert (u0 = u) as -> by congruence. eauto.
    + rewrite lookup_insert_ne by done. eauto using same_user_refl.
  - intros id Hid. rewrite lookup_insert_ne; [done|]. intros ->. congruence.
  - intros R0 HN [? ?]. congruence.
Qed.

Lemma frame_insert_room (P : string → Prop) h R room :
  _rooms h !! R = None → P R →
  frame P h (set_rooms <[R := room]> h).
Proof.
  intros HR HP. constructor; simpl; eauto using same_user_refl.
  - intros R0 room0 Hr0. rewrite lookup_insert_ne by congruence.
    eauto using same_room_refl.
  - intros R0 HN. destruct (decide (R = R0)) as [->|]; [done|].
    rewrite lookup_insert_ne by done. intros [? ?]. congruence.
Qed.

Ltac fin := unfold ret, emit; simpl; rewrite <- ?app_assoc.

(** The prologue of [join_room], [create_room_and_join] and
    [disconnect_user]. *)
Lemma leave_first_frame P now uid (c : bool) (R : string) h :
  ∃ h' es,
    (if c then bind (leave_room now uid R) (λ _, ret tt) else ret tt) h
    = (Ok tt, h', es) ∧
    frame P h h' ∧ Forall wire_ok es ∧ _users h' = _users h.
Proof.
  destruct c; [|unfold ret; eauto 10 using frame_refl].
  destruct (leave_room_frame P now uid R h) as (b & h' & es & Hrun & Hfr & Hes & Hus).
  rewrite (bind_run _ _ _ _ _ _ Hrun). unfold ret, emit. simpl.
  rewrite app_nil_r. eauto 10.
Qed.

Lemma join_room_frame P now uid R h :
  ∃ b h' es, join_room now uid R h = (Ok b, h', es) ∧ frame P h h' ∧
             Forall wire_ok es ∧ _users h' = _users h.
Proof.
  unfold join_room. rewrite bind_current_room_of.
  match goal with |- context [bind (if ?c then bind (leave_room _ _ ?r) _ else _)] =>
    destruct (leave_first_frame P now uid c r h) as (h1 & es1 & Hrun & Hfr1 & Hes1 & Hus1)
  end.
  rewrite (bind_run _ _ _ _ _ _ Hrun). clear Hrun. stepM.
  assert (Hdone : ∀ (b : bool) h' es,
    frame P h1 h' → Forall wire_ok es → _users h' = _users h1 →
    ∃ b0 h0 es0, (Ok b, h', es1 ++ es) = (Ok b0 : outcome bool, h0, es0 : list effect) ∧
                 frame P h h0 ∧ Forall wire_ok es0 ∧ _users h0 = _users h).
  { intros b h' es Hfr Hes Hus. eexists _, _, _. split; [reflexivity|].
    split_and!; [by eapply frame_trans|by apply Forall_app|congruence]. }
  destruct (_rooms h1 !! R) as [room0|] eqn:HR.
  2:{ stepM. fin. apply Hdone; [apply frame_refl| |done]. wire. }
  destruct (Room.truthy room0) eqn:Ht.
  2:{ stepM. fin. apply Hdone; [apply frame_refl| |done]. wire. }
  assert (Hrun := on_room_eq Room.add_user R uid h1). rewrite HR in Hrun.
  destruct (objs h1 !! uid) as [user|] eqn:Hu.
  2:{ rewrite (bind_run _ _ _ _ _ _ Hrun). stepM. fin.
      apply Hdone; [apply frame_refl|done|done]. }
  rewrite (bind_run _ _ _ _ _ _ Hrun).
  assert (Hfr : frame P h1
            (set_objs <[uid := (Room.add_user room0 user).2]>
               (set_rooms <[R := (Room.add_user room0 user).1.2]> h1))).
  { eapply frame_update; eauto; unfold Room.add_user; case_decide; simpl;
      auto using same_room_refl, same_user_refl, same_room_users, same_user_set.
    apply same_user_set. }
  destruct (Room.add_user room0 user) as [[[] room'] user']; simpl in *; stepM;
    fin; (apply Hdone; [exact Hfr| |done]); [|done].
  wire.
Qed.

Lemma create_room_frame (P : string → Prop) now R creator h :
  P R →
  ∃ b h' es, create_room now R creator h = (Ok b, h', es) ∧ frame P h h' ∧
             Forall wire_ok es ∧ _users h' = _users h.
Proof.
  intros HP. unfold create_room. rewrite bind_get.
  destruct (decide (is_Some (_rooms h !! R))) as [Hsome|Hnone];
    [unfold ret; eauto 10 using frame_refl|].
  stepM. unfold ret, emit; simpl.
  eexists _, _, _. split; [reflexivity|]. split_and!; [|wire|done].
  apply frame_insert_room; [by apply eq_None_not_Some|done].
Qed.

Lemma create_room_and_join_frame (P : string → Prop) now R creator h :
  P R →
  ∃ b h' es, create_room_and_join now R creator h = (Ok b, h', es) ∧
             frame P h h' ∧ Forall wire_ok es ∧ _users h' = _users h.
Proof.
  intros HP. unfold create_room_and_join. rewrite bind_current_room_of.
  match goal with |- context [bind (if ?c then bind (leave_room _ _ ?r) _ else _)] =>
    destruct (leave_first_frame P now creator c r h) as (h1 & es1 & Hrun & Hfr1 & Hes1 & Hus1)
  end.
  rewrite (bind_run _ _ _ _ _ _ Hrun). clear Hrun. stepM.
  assert (Hdone : ∀ (b : bool) h' es,
    frame P h1 h' → Forall wire_ok es → _users h' = _users h1 →
    ∃ b0 h0 es0, (Ok b, h', es1 ++ es) = (Ok b0 : outcome bool, h0, es0 : list effect) ∧
                 frame P h h0 ∧ Forall wire_ok es0 ∧ _users h0 = _users h).
  { intros b h' es Hfr Hes Hus. eexists _, _, _. split; [reflexivity|].
    split_and!; [by eapply frame_trans|by apply Forall_app|congruence]. }
  destruct (decide (is_Some (_rooms h1 !! R))) as [Hsome|Hnone].
  { fin. apply Hdone; [apply frame_refl|done|done]. }
  apply eq_None_not_Some in Hnone.
  stepM. destruct (objs h1 !! creator) as [user|] eqn:Hu.
  - destruct (Room.add_user _ user) as [[ok room'] user'] eqn:Hadd.
    assert (Hsu : same_user user user').
    { unfold Room.add_user in Hadd. case_decide; injection Hadd as <- <- <-;
        [apply same_user_refl|apply same_user_set]. }
    stepM. fin. apply Hdone; [| |done].
    + eapply frame_trans; [by eapply (frame_update_user P h1)|].
      by apply frame_insert_room.
    + wire.
  - stepM. fin. apply Hdone; [| |done].
    + by apply frame_insert_room.
    + wire.
Qed.

Lemma broadcast_message_frame P now uid R content h :
  ∃ b h' es, broadcast_message now uid R content h = (Ok b, h', es) ∧
             frame P h h' ∧ Forall wire_ok es ∧ _users h' = _users h.
Proof.
  unfold broadcast_message. rewrite bind_get.
  destruct (_rooms h !! R) as [room0|] eqn:HR;
    [|unfold ret; eauto 10 using frame_refl].
  destruct (Room.truthy room0) eqn:Ht; simpl;
    [|unfold ret; eauto 10 using frame_refl].
  destruct (negb (Room.has_user room0 uid)).
  { stepM. unfold ret, emit; simpl. eexists _, _, _. split; [reflexivity|].
    split_and!; [apply frame_refl|wire|done]. }
  stepM. unfold ret, emit; simpl. eexists _, _, _. split; [reflexivity|].
  split_and!; [|wire|done].
  eapply frame_update_room; [done|].
  unfold Room.add_message_to_history. case_match; by apply same_room_history.
Qed.

Lemma disconnect_user_frame P now uid h :
  ∃ h' es, disconnect_user now uid h = (Ok tt, h', es) ∧
           frame P h h' ∧ Forall wire_ok es ∧ _users h' = _users h ∖ {[uid]}.
Proof.
  unfold disconnect_user. rewrite bind_current_room_of.
  match goal with |- context [bind (if ?c then bind (leave_room _ _ ?r) _ else _)] =>
    destruct (leave_first_frame P now uid c r h) as (h1 & es1 & Hrun & Hfr1 & Hes1 & Hus1)
  end.
  rewrite (bind_run _ _ _ _ _ _ Hrun). clear Hrun. stepM.
  unfold modify, emit; simpl. rewrite app_nil_r.
  eexists _, _. split; [reflexivity|]. split_and!; [|done|simpl; by rewrite Hus1].
  eapply frame_trans; [exact Hfr1|].
  constructor; simpl; eauto using same_user_refl, same_room_refl.
  - set_solver.
  - intros R0 HN [? ?]. congruence.
Qed.

Lemma handled_silent {A} h (o : outcome A) : handled h (o, h, []).
Proof. split_and!; [apply frame_refl|done|done]. Qed.

Lemma handled_Ok {A} h (a : A) h' es :
  frame room_name_ok h h' → Forall wire_ok es → handled h (Ok a, h', es).
Proof. intros Hfr Hes. split_and!; [done|done|]. by intros e [=]. Qed.

Lemma handler_frame now uid message h :
  handled h (Handlers.handle_message now uid message h).
Proof.
  unfold Handlers.handle_message.
  destruct (Handlers.get_handler now (type message)) as [handler|] eqn:Hh;
    [|apply handled_silent].
  destruct (type message); simpl in Hh; try discriminate; injection Hh as <-.
  - (* connect *) unfold Handlers.ConnectHandler. stepM. apply handled_silent.
  - (* disconnect *)
    unfold Handlers.DisconnectHandler.
    destruct (disconnect_user_frame room_name_ok now uid h)
      as (h' & es & Hrun & Hfr & Hes & _).
    rewrite (bind_run _ _ _ _ _ _ Hrun). stepM. fin.
    apply handled_Ok; [done|by rewrite app_nil_r].
  - (* create_room *)
    unfold Handlers.CreateRoomHandler. stepM.
    destruct (Json.get (payload message) "room_name" (JStr "")) as [v|e];
      [|stepM; apply handled_silent].
    stepM. destruct (Json.strip v) as [room_name|e]; [|stepM; apply handled_silent].
    stepM. destruct (Str.truthy room_name) eqn:Hne; simpl;
      [|unfold Handlers.error_to; stepM; fin; apply handled_Ok;
        [apply frame_refl|wire]].
    unfold Str.len.
    destruct (Z.gtb_spec (Z.of_nat (String.length room_name)) 50);
      [unfold Handlers.error_to; stepM; fin; apply handled_Ok;
        [apply frame_refl|wire]|].
    destruct (create_room_and_join_frame room_name_ok now room_name uid h)
      as (b & h' & es & Hrun & Hfr & Hes & _).
    { split; [by apply truthy_nonempty|lia]. }
    rewrite ?bind_assoc, (bind_run _ _ _ _ _ _ Hrun).
    destruct b; simpl; unfold Handlers.error_to; stepM; fin;
      (apply handled_Ok; [done|]); rewrite ?app_nil_r; [done|].
    apply Forall_app. split; [done|]. wire.
  - (* join_room *)
    unfold Handlers.JoinRoomHandler. stepM.
    destruct (Json.get (payload message) "room_name" (JStr "")) as [v|e];
      [|stepM; apply handled_silent].
    stepM. destruct (Json.strip v) as [room_name|e]; [|stepM; apply handled_silent].
    stepM. destruct (Str.truthy room_name) eqn:Hne; simpl;
      [|unfold Handlers.error_to; stepM; fin; apply handled_Ok;
        [apply frame_refl|wire]].
    destruct (join_room_frame room_name_ok now uid room_name h)
      as (b & h' & es & Hrun & Hfr & Hes & _).
    rewrite ?bind_assoc, (bind_run _ _ _ _ _ _ Hrun). stepM. fin.
    apply handled_Ok; [done|by rewrite app_nil_r].
  - (* leave_room *)
    unfold Handlers.LeaveRoomHandler. stepM.
    destruct (Json.get (payload message) "room_name" JNull) as [k|e];
      [|stepM; apply handled_silent].
    stepM. destruct (Json.truthy k).
    + destruct k; simpl; stepM; try apply handled_silent.
      destruct (leave_room_frame room_name_ok now uid s h)
        as (b & h' & es & Hrun & Hfr & Hes & _).
      rewrite ?bind_assoc, (bind_run _ _ _ _ _ _ Hrun). stepM. fin.
      apply handled_Ok; [done|by rewrite app_nil_r].
    + stepM. destruct (room_truthy _); [|stepM; apply handled_silent].
      destruct (leave_room_frame room_name_ok now uid
                  (default "" (objs h !! uid ≫= User.current_room)) h)
        as (b & h' & es & Hrun & Hfr & Hes & _).
      rewrite ?bind_assoc, (bind_run _ _ _ _ _ _ Hrun). stepM. fin.
      apply handled_Ok; [done|by rewrite app_nil_r].
  - (* list_rooms *)
    unfold Handlers.ListRoomsHandler. stepM. fin.
    apply handled_Ok; [apply frame_refl|wire].
  - (* chat_message *)
    unfold Handlers.ChatMessageHandler. stepM.
    destruct (Json.get (payload message) "content" (JStr "")) as [v|e];
      [|stepM; apply handled_silent].
    stepM. destruct (Json.strip v) as [content|e]; [|stepM; apply handled_silent].
    stepM.
    destruct (Json.get (payload message) "room_name" JNull) as [k|e];
      [|stepM; apply handled_silent].
    stepM. destruct (negb (Str.truthy content)); [stepM; apply handled_silent|].
    match goal with |- context [negb (Json.truthy ?x)] =>
      generalize x; intros key end.
    destruct (negb (Json.truthy key));
      [unfold Handlers.error_to; stepM; fin; apply handled_Ok;
        [apply frame_refl|wire]|].
    destruct key; simpl; stepM; try apply handled_silent.
    destruct (broadcast_message_frame room_name_ok now uid s content h)
      as (b & h' & es & Hrun & Hfr & Hes & _).
    rewrite ?bind_assoc, (bind_run _ _ _ _ _ _ Hrun). stepM. fin.
    apply handled_Ok; [done|by rewrite app_nil_r].
Qed.

(** ** Invariants of the reachable states *)

Lemma register_user_cases now uid websocket username h :
  let name := Str.strip username in
  register_user now uid websocket username h = (Ok None, h, []) ∨
  (name ≠ "" ∧ String.length name ≤ 30 ∧
   (∀ id u, id ∈ _users h → objs h !! id = Some u →
            Str.lower (User.username u) ≠ Str.lower name) ∧
   register_user now uid websocket username h
   = (Ok (Some uid),
      set_websocket_to_user <[websocket := uid]>
        (set_users (λ s, s ∪ {[uid]})
           (set_objs <[uid := User.mk name websocket uid now None]> h)),
      [])).
Proof.
  intros name.
  destruct (register_user_run now uid websocket username h) as [Hno Hyes].
  fold name in Hno, Hyes.
  destruct (decide (name = "")) as [He|He]; [left; apply Hno; by left|].
  destruct (decide (30 < String.length name)) as [Hl|Hl];
    [left; apply Hno; right; by left|].
  destruct (existsb
    (λ existing_user,
       String.eqb (Str.lower (User.username existing_user)) (Str.lower name))
    (omap (λ id, objs h !! id) (elements (_users h)))) eqn:Hex.
  - left. apply Hno. right. right. by apply existsb_taken.
  - right. assert (Hfree : ¬ ∃ id u, id ∈ _users h ∧ objs h !! id = Some u ∧
                        Str.lower (User.username u) = Str.lower name).
    { intros Ht. apply existsb_taken in Ht. congruence. }
    split_and!; [done|lia| |].
    + intros id u Hid Hu Heq. apply Hfree. eauto.
    + apply Hyes. intros [?|[?|?]]; [done|lia|done].
Qed.

(** A registration keeps the rooms and the user objects that are there. *)
Lemma register_user_rooms now uid websocket username h :
  _rooms (state_of (register_user now uid websocket username h)) = _rooms h.
Proof.
  destruct (register_user_cases now uid websocket username h)
    as [->|(_ & _ & _ & ->)]; done.
Qed.

Lemma step_rooms h h' R room :
  step h h' → _rooms h !! R = Some room →
  ∃ room', _rooms h' !! R = Some room' ∧ same_room room room'.
Proof.
  intros Hstep HR. destruct Hstep as [now uid ws name h _|now uid message h _|now uid h _].
  - rewrite register_user_rooms. eauto using same_room_refl.
  - destruct (handler_frame now uid message h) as (Hfr & _). by eapply fr_rooms.
  - destruct (disconnect_user_frame room_name_ok now uid h) as (h' & es & -> & Hfr & _).
    by eapply fr_rooms.
Qed.

Lemma steps_rooms h h' R room :
  rtc step h h' → _rooms h !! R = Some room →
  ∃ room', _rooms h' !! R = Some room' ∧ same_room room room'.
Proof.
  intros Hsteps. revert room. induction Hsteps as [h|h h1 h2 Hstep _ IH]; intros room HR.
  - eauto using same_room_refl.
  - destruct (step_rooms _ _ _ _ Hstep HR) as (r1 & Hr1 & Hs1).
    destruct (IH r1 Hr1) as (r2 & Hr2 & Hs2). eauto using same_room_trans.
Qed.

Lemma reachable_step h h' : reachable h → step h h' → reachable h'.
Proof.
  intros Hr Hstep. destruct Hstep; [by apply reach_register|by apply reach_message
                                   |by apply reach_disconnect].
Qed.

Lemma reachable_steps h h' : reachable h → rtc step h h' → reachable h'.
Proof. intros Hr Hsteps. induction Hsteps; eauto using reachable_step. Qed.

Lemma reachable_from_init h : reachable h → ∃ now, rtc step (init now) h.
Proof.
  induction 1 as [now|now uid ws name h Hr [n IH] Hfresh
                  |now uid message h Hr [n IH] Hsome|now uid h Hr [n IH] Hsome].
  - exists now. apply rtc_refl.
  - exists n. eapply rtc_r; [done|]. by constructor.
  - exists n. eapply rtc_r; [done|]. by constructor.
  - exists n. eapply rtc_r; [done|]. by constructor.
Qed.

Lemma scenario_steps : rtc step Scenario.started Scenario.both_in_foo.
Proof.
  eapply rtc_l; [apply (step_register "2026-01-01T09:01:00" "a1a1a1a1" 1 " alice ");
                 reflexivity|].
  eapply rtc_l; [apply (step_message "2026-01-01T09:02:00" "a1a1a1a1"
                          (Scenario.frame CREATE_ROOM [("room_name", JStr "foo")]));
                 vm_compute; eauto|].
  eapply rtc_l; [apply (step_register "2026-01-01T09:03:00" "b2b2b2b2" 2 "bob");
                 by vm_compute|].
  eapply rtc_once.
  apply (step_message "2026-01-01T09:04:00" "b2b2b2b2"
           (Scenario.frame JOIN_ROOM [("room_name", JStr "foo")])).
  vm_compute. eauto.
Qed.

(** X1.  No step of the server removes a room: a room that is there stays
    under its key, with its name, creator, creation time and history
    bound, and unchanged altogether while it has no user: nobody enters
    it, nothing is added to its history.  So [room_count] never
    decreases. *)
Theorem rooms_are_never_removed (h h' : t) :
  rtc step h h' →
  (∀ R room, _rooms h !! R = Some room →
     ∃ room', _rooms h' !! R = Some room' ∧
              Room.name room' = Room.name room ∧
              Room.created_by room' = Room.created_by room ∧
              Room.created_at room' = Room.created_at room ∧
              Room.max_history room' = Room.max_history room ∧
              (Room._users room = ∅ → room' = room)) ∧
  (room_count h ≤ room_count h')%Z.
Proof.
  intros Hsteps. split.
  - intros R room HR.
    destruct (steps_rooms _ _ _ _ Hsteps HR) as (room' & HR' & (?&?&?&?&?)). eauto 10.
  - unfold room_count. apply inj_le. rewrite <- !size_dom.
    apply subseteq_size. intros R HR. apply elem_of_dom in HR as [room HR].
    destruct (steps_rooms _ _ _ _ Hsteps HR) as (room' & HR' & _).
    apply elem_of_dom. eauto.
Qed.

Lemma rooms_are_never_removed_witness :
  (∀ R room, _rooms Scenario.started !! R = Some room →
     ∃ room', _rooms Scenario.both_in_foo !! R = Some room' ∧
              Room.name room' = Room.name room ∧
              Room.created_by room' = Room.created_by room ∧
              Room.created_at room' = Room.created_at room ∧
              Room.max_history room' = Room.max_history room ∧
              (Room._users room = ∅ → room' = room)) ∧
  (room_count Scenario.started ≤ room_count Scenario.both_in_foo)%Z.
Proof.
  apply (rooms_are_never_removed Scenario.started Scenario.both_in_foo).
  apply scenario_steps.
Defined.

(** X2.  In every reachable state [General] is the room that [__init__]
    made, without a user and without history: no user is ever a member
    of it. *)
Theorem general_is_never_entered (h : t) :
  reachable h →
  ∃ now, _rooms h !! "General" = Some (Room.init now "General" "Sistema") ∧
         ∀ uid, ¬ member_of h uid "General".
Proof.
  intros [now Hsteps]%reachable_from_init. exists now.
  assert (HG : _rooms h !! "General" = Some (Room.init now "General" "Sistema")).
  { destruct (steps_rooms _ _ "General" _ Hsteps (lookup_singleton_eq _ _))
      as (room' & HR' & (_&_&_&_&Hsame)). by rewrite <- Hsame. }
  split; [done|]. intros uid (room & Hr & Hin).
  rewrite HG in Hr. injection Hr as <-. simpl in Hin. set_solver.
Qed.

Lemma general_is_never_entered_witness :
  ∃ now,
    _rooms Scenario.both_in_foo !! "General"
    = Some (Room.init now "General" "Sistema") ∧
    ∀ uid, ¬ member_of Scenario.both_in_foo uid "General".
Proof.
  apply (general_is_never_entered Scenario.both_in_foo).
  apply both_in_foo_reachable.
Defined.













(** ** Single operations *)

Lemma room_falsy room : Room._users room = ∅ → Room.truthy room = false.
Proof. intros He. apply not_true_is_false. rewrite room_truthy_iff. by intros []. Qed.

Lemma broadcast_empty room message exclude :
  Room._users room = ∅ → Room.broadcast room message exclude = [].
Proof. intros He. unfold Room.broadcast. rewrite He, elements_empty. done. Qed.

(** X6.  [delete_room] answers false, removes nothing and sends
    nothing, whatever the name and the state: its guard asks for a room
    that is true, which has a user, and that is empty. *)
Theorem delete_room_never_deletes (now room_name : string) (h : t) :
  delete_room now room_name h = (Ok false, h, []).
Proof.
  unfold delete_room. case_decide; [done|]. rewrite bind_get.
  destruct (_rooms h !! room_name) as [room|]; [|done].
  by rewrite room_never_true_and_empty.
Qed.

(** X7.  When the only member of a room other than [General] leaves
    it, the room stays, without a user, and nobody is sent anything, not
    even the list of the rooms. *)
Theorem last_member_leaves_silently (now uid R : string) (h : t)
    (room : Room.t) (u : User.t) :
  _rooms h !! R = Some room →
  Room._users room = {[uid]} →
  objs h !! uid = Some u →
  User.user_id u = uid →
  R ≠ "General" →
  leave_room now uid R h
  = (Ok true,
     set_objs <[uid := User.set_current_room u None]>
       (set_rooms <[R := Room.set_users room ∅]> h),
     []).
Proof.
  intros HR Hus Hu Hid HG. unfold leave_room. rewrite bind_get, HR.
  assert (Ht : Room.truthy room = true) by (apply room_truthy_iff; set_solver).
  rewrite Ht. simpl.
  rewrite (bind_run _ _ _ _ _ _ (on_room_run _ _ _ _ _ _ HR Hu)).
  unfold Room.remove_user. rewrite Hid, Hus.
  destruct (decide (uid ∉ ({[uid]} : gset string))) as [Hn|_]; [set_solver|].
  assert (Hd : ({[uid]} : gset string) ∖ {[uid]} = ∅) by set_solver.
  rewrite Hd. simpl. stepM. simpl. rewrite lookup_insert_eq. simpl.
  rewrite !broadcast_empty by done.
  change (Room.is_empty (Room.set_users room ∅)) with true. simpl.
  rewrite bool_decide_eq_false_2 by done. simpl. by stepM.
Qed.

Lemma last_member_leaves_silently_witness :
  effects_of (leave_room "12:00" "a1a1a1a1" "foo" Scenario.alice_in_foo) = [] ∧
  is_Some (_rooms (state_of (leave_room "12:00" "a1a1a1a1" "foo" Scenario.alice_in_foo))
             !! "foo").
Proof.
  rewrite (last_member_leaves_silently "12:00" "a1a1a1a1" "foo" Scenario.alice_in_foo
             (default (Room.init "" "" "") (_rooms Scenario.alice_in_foo !! "foo"))
             (User.mk "alice" 1 "a1a1a1a1" "2026-01-01T09:01:00" (Some "foo"))).
  - split; [reflexivity|]. vm_compute. eauto.
  - vm_compute. reflexivity.
  - vm_compute. reflexivity.
  - vm_compute. reflexivity.
  - reflexivity.
  - discriminate.
Defined.

(** X8.  A room without a user can neither be joined nor be created
    again: for a user in no room, a join of it is answered with "no
    existe" and a creation with "ya existe", and neither changes the
    state. *)
Theorem empty_room_is_dead (now uid R : string) (ts : json) (h : t)
    (room : Room.t) :
  _rooms h !! R = Some room →
  Room._users room = ∅ →
  objs h !! uid ≫= User.current_room = None →
  Str.strip R = R →
  String.length R ≤ 50 →
  R ≠ "" →
  Handlers.handle_message now uid
    (mkMessage JOIN_ROOM (JObj [("room_name", JStr R)]) ts) h
  = (Ok true, h,
     [UserSend uid
        (MessageFactory.create_error now ("La sala '" +:+ R +:+ "' no existe"))]) ∧
  Handlers.handle_message now uid
    (mkMessage CREATE_ROOM (JObj [("room_name", JStr R)]) ts) h
  = (Ok true, h,
     [UserSend uid
        (MessageFactory.create_error now ("La sala '" +:+ R +:+ "' ya existe"))]).
Proof.
  intros HR He Hcr Hstrip Hlen Hne.
  assert (Ht : Str.truthy R = true) by (by apply truthy_iff).
  split.
  - unfold Handlers.handle_message. simpl. unfold Handlers.JoinRoomHandler. simpl.
    stepM. simpl. stepM. rewrite Hstrip, Ht. simpl.
    rewrite bind_assoc.
    rewrite (bind_run _ _ _ _ _ _
               (join_of_empty_room_refused now uid R room h Hcr HR He)).
    by stepM.
  - unfold Handlers.handle_message. simpl. unfold Handlers.CreateRoomHandler. simpl.
    stepM. simpl. stepM. rewrite Hstrip, Ht. simpl.
    unfold Str.len.
    destruct (Z.gtb_spec (Z.of_nat (String.length R)) 50); [lia|].
    rewrite bind_assoc.
    rewrite (bind_run _ _ _ _ _ _
               (rejected_create_without_room now uid R h Hcr ltac:(eauto))).
    simpl. unfold Handlers.error_to. by stepM.
Qed.

Lemma empty_room_is_dead_witness :
  Handlers.handle_message "12:00" "a1a1a1a1"
    (mkMessage JOIN_ROOM (JObj [("room_name", JStr "General")]) (JStr "11:59"))
    Scenario.alice_registered
  = (Ok true, Scenario.alice_registered,
     [UserSend "a1a1a1a1"
        (MessageFactory.create_error "12:00" "La sala 'General' no existe")]) ∧
  Handlers.handle_message "12:00" "a1a1a1a1"
    (mkMessage CREATE_ROOM (JObj [("room_name", JStr "General")]) (JStr "11:59"))
    Scenario.alice_registered
  = (Ok true, Scenario.alice_registered,
     [UserSend "a1a1a1a1"
        (MessageFactory.create_error "12:00" "La sala 'General' ya existe")]).
Proof.
  apply (empty_room_is_dead "12:00" "a1a1a1a1" "General" (JStr "11:59")
           Scenario.alice_registered
           (Room.init "2026-01-01T09:00:00" "General" "Sistema")).
  - reflexivity.
  - reflexivity.
  - reflexivity.
  - reflexivity.
  - vm_compute. lia.
  - discriminate.
Defined.

(** X9.  [create_room] refuses a name that is taken and changes
    nothing; otherwise it stores a room without a user, created by the
    creator's name, tells every live user, and leaves the user objects as
    they were.  A join of the new room by a user in no room is then
    refused. *)
Theorem create_room_makes_an_empty_room (now now' room_name creator uid : string)
    (h : t) :
  let r := create_room now room_name creator h in
  let name := from_option User.username "" (objs h !! creator) in
  (is_Some (_rooms h !! room_name) → r = (Ok false, h, [])) ∧
  (_rooms h !! room_name = None →
   r = (Ok true,
        set_rooms <[room_name := Room.init now room_name name]> h,
        (λ id, UserSend id
           (MessageFactory.create_system_message now
              ("Se ha creado la sala '" +:+ room_name +:+ "'") None))
          <$> elements (_users h)) ∧
   objs (state_of r) = objs h ∧
   (objs h !! uid ≫= User.current_room = None →
    join_room now' uid room_name (state_of r)
    = (Ok false, state_of r,
       [UserSend uid
          (MessageFactory.create_error now'
             ("La sala '" +:+ room_name +:+ "' no existe"))]))).
Proof.
  intros r name. subst r. unfold create_room. rewrite bind_get. split.
  - intros Hsome. by destruct (decide (is_Some (_rooms h !! room_name))).
  - intros Hnone.
    destruct (decide (is_Some (_rooms h !! room_name))) as [[? ?]|_]; [congruence|].
    stepM. unfold ret, emit. simpl. rewrite app_nil_r. split_and!; [done|done|].
    intros Hcr. unfold state_of. simpl.
    eapply join_of_empty_room_refused; [done| |]; simpl.
    + apply lookup_insert_eq.
    + done.
Qed.

(** [disconnect_user] for a user object: the user is taken out of its
    room, of [_users] and of the map of the connections. *)
Lemma disconnect_user_run now uid h u :
  WF h →
  objs h !! uid = Some u →
  ∃ es h1 u1,
    disconnect_user now uid h
    = (Ok tt,
       set_websocket_to_user (delete (User.websocket u1))
         (set_users (λ s, s ∖ {[uid]}) h1), es) ∧
    WF h1 ∧ objs h1 !! uid = Some u1 ∧ User.current_room u1 = None ∧
    _users h1 = _users h.
Proof.
  intros Hwf Hu.
  destruct (leave_first_WF now uid h u None Hwf Hu)
    as (es1 & h1 & u1 & Hrun & Hwf1 & Hu1 & Hpost & _ & Hlive & _).
  simpl in Hrun. rewrite andb_true_r in Hrun.
  destruct Hpost as [Hnone|(_ & _ & _ & _ & ?)]; [|done].
  exists es1, h1, u1. split_and!; try done.
  unfold disconnect_user. rewrite bind_current_room_of, Hu.
  rewrite (bind_run _ _ _ _ _ _ Hrun). stepM. rewrite Hu1.
  unfold modify, emit. simpl. by rewrite app_nil_r.
Qed.

(** X10.  In a reachable state, [disconnect_user] takes the user out
    of [_users] and of its room: afterwards the user is live no more, has
    no current room and is a member of no room, and a second
    [disconnect_user] changes nothing and sends nothing. *)
Theorem disconnect_user_leaves_nothing (now now' uid : string) (h : t) :
  reachable h →
  is_Some (objs h !! uid) →
  let r := disconnect_user now uid h in
  (result_of r = Ok tt) ∧
  (uid ∉ _users (state_of r)) ∧
  _users (state_of r) = _users h ∖ {[uid]} ∧
  objs (state_of r) !! uid ≫= User.current_room = None ∧
  (∀ R, ¬ member_of (state_of r) uid R) ∧
  disconnect_user now' uid (state_of r) = (Ok tt, state_of r, []).
Proof.
  intros Hwf%reachable_WF [u Hu] r.
  destruct (disconnect_user_run now uid h u Hwf Hu)
    as (es1 & h1 & u1 & Hr & Hwf1 & Hu1 & Hnone & Hlive).
  subst r. rewrite Hr. unfold result_of, state_of. simpl.
  assert (Hno : ∀ R, ¬ member_of h1 uid R).
  { intros R Hm. destruct (wf_member h1 Hwf1 uid R Hm) as (u' & Hu' & Hc). congruence. }
  split_and!; try done.
  - set_solver.
  - by rewrite Hlive.
  - by rewrite Hu1.
  - unfold disconnect_user. rewrite bind_current_room_of.
    change (objs (set_websocket_to_user (delete (User.websocket u1))
                    (set_users (λ s, s ∖ {[uid]}) h1))) with (objs h1).
    rewrite Hu1. simpl. rewrite Hnone. simpl. stepM.
    change (objs (set_websocket_to_user (delete (User.websocket u1))
                    (set_users (λ s, s ∖ {[uid]}) h1))) with (objs h1).
    rewrite Hu1.
    unfold modify. simpl. f_equal. f_equal.
    clear. destruct h1 as [o us rs ws]. unfold set_websocket_to_user, set_users. simpl.
    f_equal.
    + set_solver.
    + apply delete_delete_eq.
Qed.

Lemma disconnect_user_leaves_nothing_witness :
  let r := disconnect_user "12:00" "a1a1a1a1" Scenario.both_in_foo in
  (result_of r = Ok tt) ∧
  ("a1a1a1a1" ∉ _users (state_of r)) ∧
  _users (state_of r) = _users Scenario.both_in_foo ∖ {["a1a1a1a1"]} ∧
  objs (state_of r) !! "a1a1a1a1" ≫= User.current_room = None ∧
  (∀ R, ¬ member_of (state_of r) "a1a1a1a1" R) ∧
  disconnect_user "12:01" "a1a1a1a1" (state_of r) = (Ok tt, state_of r, []).
Proof.
  apply (disconnect_user_leaves_nothing "12:00" "12:01" "a1a1a1a1" Scenario.both_in_foo).
  - apply both_in_foo_reachable.
  - vm_compute. eauto.
Defined.







(** ** The handlers *)



(** X14.  In a reachable state, a [leave_room] frame that names a
    room the user is no member of, or that names none while the user is
    in no room, changes nothing and sends nothing. *)
Theorem leave_outside_a_room_is_silent (now uid : string)
    (p : list (string * json)) (ts : json) (h : t) (u : User.t) :
  reachable h →
  objs h !! uid = Some u →
  (∃ R, Json.assoc "room_name" p = Some (JStr R) ∧ R ≠ "" ∧ ¬ member_of h uid R) ∨
  ((Json.assoc "room_name" p = None ∨ Json.assoc "room_name" p = Some JNull ∨
    Json.assoc "room_name" p = Some (JStr "")) ∧
   User.current_room u = None) →
  Handlers.handle_message now uid (mkMessage LEAVE_ROOM (JObj p) ts) h
  = (Ok true, h, []).
Proof.
  intros Hwf%reachable_WF Hu Hcase.
  unfold Handlers.handle_message. simpl. unfold Handlers.LeaveRoomHandler. simpl.
  destruct Hcase as [(R & -> & Hne & Hnot)|[Hk Hcr]].
  - stepM. simpl. rewrite (proj2 (truthy_iff R)) by done. simpl.
    destruct (leave_room_WF now uid R h u Hwf Hu)
      as (b & es & h' & u' & Hrun & _ & _ & _ & Hsame & _).
    destruct Hsame as (-> & -> & ->).
    { intros Hc. apply Hnot. apply (wf_current h Hwf). by exists u. }
    rewrite !bind_assoc, (bind_run _ _ _ _ _ _ Hrun). by stepM.
  - destruct Hk as [-> | [-> | ->]]; stepM; simpl; stepM;
      rewrite Hu; simpl; rewrite Hcr; simpl; by stepM.
Qed.

Lemma leave_outside_a_room_is_silent_witness :
  Handlers.handle_message "12:00" "b2b2b2b2"
    (mkMessage LEAVE_ROOM (JObj [("room_name", JStr "foo")]) (JStr "11:59"))
    Scenario.bob_registered
  = (Ok true, Scenario.bob_registered, []).
Proof.
  apply (leave_outside_a_room_is_silent "12:00" "b2b2b2b2" [("room_name", JStr "foo")]
           (JStr "11:59") Scenario.bob_registered
           (User.mk "bob" 2 "b2b2b2b2" "2026-01-01T09:03:00" None)).
  - apply bob_registered_reachable.
  - vm_compute. reflexivity.
  - left. exists "foo". split_and!; [reflexivity|discriminate|].
    apply not_member_of. vm_compute. reflexivity.
Defined.



(** X16.  A [list_rooms] frame changes nothing and sends one
    [rooms_list] to the sender alone, with one dict per room of the
    state. *)
Theorem list_rooms_answers_the_sender (now uid : string) (message : Message) (h : t) :
  type message = LIST_ROOMS →
  ∃ rooms,
    Handlers.handle_message now uid message h
    = (Ok true, h, [UserSend uid (MessageFactory.create_rooms_list now rooms)]) ∧
    Z.of_nat (length rooms) = room_count h ∧
    ∀ d, d ∈ rooms ↔ ∃ R room, _rooms h !! R = Some room ∧
                                 d = Room.to_dict (objs h) room.
Proof.
  intros Hty. exists (Room.to_dict (objs h) <$> (map_to_list (_rooms h)).*2).
  split_and!.
  - unfold Handlers.handle_message. rewrite Hty. simpl.
    unfold Handlers.ListRoomsHandler. by stepM.
  - unfold room_count. by rewrite !length_fmap, length_map_to_list.
  - intros d. rewrite list_elem_of_fmap. split.
    + intros (room & -> & Hin). apply list_elem_of_fmap in Hin as ([R room'] & -> & Hin).
      apply elem_of_map_to_list in Hin. eauto.
    + intros (R & room & HR & ->). exists room. split; [done|].
      apply list_elem_of_fmap. exists (R, room). split; [done|].
      by apply elem_of_map_to_list.
Qed.

Lemma list_rooms_answers_the_sender_witness :
  ∃ rooms,
    Handlers.handle_message "12:00" "a1a1a1a1" (Scenario.frame LIST_ROOMS [])
      Scenario.both_in_foo
    = (Ok true, Scenario.both_in_foo,
       [UserSend "a1a1a1a1" (MessageFactory.create_rooms_list "12:00" rooms)]) ∧
    Z.of_nat (length rooms) = room_count Scenario.both_in_foo ∧
    ∀ d, d ∈ rooms ↔ ∃ R room, _rooms Scenario.both_in_foo !! R = Some room ∧
                                 d = Room.to_dict (objs Scenario.both_in_foo) room.
Proof.
  apply (list_rooms_answers_the_sender "12:00" "a1a1a1a1"
           (Scenario.frame LIST_ROOMS []) Scenario.both_in_foo).
  reflexivity.
Defined.

(** X17.  [handle_message] answers false, and does nothing, exactly
    for the eight types that only the server sends; a [connect] frame of
    a registered user is handled and does nothing. *)
Theorem only_requests_are_handled (now uid : string) (message : Message) (h : t) :
  let r := Handlers.handle_message now uid message h in
  (type message ∈ [CONNECTION_ACK; CONNECTION_ERROR; ROOMS_LIST; ROOM_USERS;
                   SYSTEM_MESSAGE; USER_JOINED; USER_LEFT; ERROR] ↔
   result_of r = Ok false) ∧
  (result_of r = Ok false → r = (Ok false, h, [])) ∧
  (type message = CONNECT → r = (Ok true, h, [])).
Proof.
  intros r. subst r. unfold Handlers.handle_message.
  assert (Hnf : ∀ (m : M unit) h0, result_of (bind m (λ _, ret true) h0) ≠ Ok false).
  { intros m h0. unfold bind, ret, result_of.
    destruct (m h0) as [[[[]|e] h1] es]; simpl; congruence. }
  split_and!.
  - destruct (type message) eqn:Hty; simpl;
      (split; [intros Hin; try done; exfalso; clear -Hin;
               repeat (apply elem_of_cons in Hin as [Hin|Hin]; [discriminate|]);
               by apply elem_of_nil in Hin
              |intros Hr; try (by destruct (Hnf _ _ Hr));
               apply (bool_decide_unpack _); vm_compute; exact I]).
  - destruct (Handlers.get_handler now (type message)); [|done].
    intros Hr. by destruct (Hnf _ _ Hr).
  - intros ->. simpl. unfold Handlers.ConnectHandler. by stepM.
Qed.

(** ** Frames on a connection *)

(** X18.  On a connection without a user, a frame that decodes to
    another type than [connect] is answered with [connection_error] on
    that connection; the state stays and the connection stays without a
    user. *)
Theorem first_frame_must_connect (loads : string → option json) (now : string)
    (websocket : nat) (uid raw : string) (message : Message) (h : t) :
  from_json loads now raw = Ok message →
  type message ≠ CONNECT →
  Connection.on_frame loads now websocket uid None raw h
  = (None, h,
     [SocketSend websocket
        (MessageFactory.create_connection_error now
           "Primer mensaje debe ser de conexión")]).
Proof.
  intros Hm Hty. unfold Connection.on_frame, Connection.body.
  rewrite Hm, bind_lift_Ok. rewrite bool_decide_eq_false_2 by done. simpl.
  by stepM.
Qed.

Lemma first_frame_must_connect_witness :
  Connection.on_frame JsonText.loads "12:00" 7 "c3c3c3c3" None
    (to_json JsonText.dumps (Scenario.frame LIST_ROOMS [])) Scenario.started
  = (None, Scenario.started,
     [SocketSend 7
        (MessageFactory.create_connection_error "12:00"
           "Primer mensaje debe ser de conexión")]).
Proof.
  apply (first_frame_must_connect JsonText.loads "12:00" 7 "c3c3c3c3" _
           (Scenario.frame LIST_ROOMS [])).
  - vm_compute. reflexivity.
  - discriminate.
Defined.

(** X19.  A frame whose handler raises is dropped as a whole: the
    state stays as it was and nothing is sent.  This is so for the frames
    of the four room and chat types whose payload is no dict. *)
Theorem raising_frame_is_dropped (loads : string → option json) (now : string)
    (websocket : nat) (uid id raw : string) (message : Message) (h : t) :
  from_json loads now raw = Ok message →
  ((∀ l, payload message ≠ JObj l) →
   type message ∈ [CREATE_ROOM; JOIN_ROOM; LEAVE_ROOM; CHAT_MESSAGE] →
   result_of (Handlers.handle_message now id message h) = Raise AttributeError) ∧
  (∀ e, result_of (Handlers.handle_message now id message h) = Raise e →
        Connection.on_frame loads now websocket uid (Some id) raw h
        = (Some id, h, [])).
Proof.
  intros Hm. split.
  - intros Hp Hty. unfold Handlers.handle_message.
    assert (Hget : ∀ k d, Json.get (payload message) k d = Raise AttributeError).
    { intros k d. destruct (payload message); try done. by destruct (Hp l). }
    repeat (apply elem_of_cons in Hty as [->|Hty]);
      [| | | |by apply elem_of_nil in Hty]; simpl;
      unfold Handlers.CreateRoomHandler, Handlers.JoinRoomHandler,
        Handlers.LeaveRoomHandler, Handlers.ChatMessageHandler;
      rewrite Hget; by stepM.
  - intros e He.
    destruct (handler_frame now id message h) as (_ & _ & Hdrop).
    destruct (Hdrop e He) as [Hst Hes].
    unfold Connection.on_frame, Connection.body. rewrite Hm, bind_lift_Ok.
    destruct (Handlers.handle_message now id message h) as [[o h'] es] eqn:Hrun.
    unfold result_of, state_of, effects_of in *. simpl in *. subst.
    by rewrite (bind_raise _ _ _ _ _ _ Hrun).
Qed.

Lemma raising_frame_is_dropped_witness :
  Connection.on_frame JsonText.loads "12:00" 1 "c3c3c3c3" (Some "a1a1a1a1")
    (to_json JsonText.dumps (mkMessage JOIN_ROOM (JNum 5) (JStr "11:59")))
    Scenario.both_in_foo
  = (Some "a1a1a1a1", Scenario.both_in_foo, []).
Proof.
  destruct (raising_frame_is_dropped JsonText.loads "12:00" 1 "c3c3c3c3" "a1a1a1a1"
              (to_json JsonText.dumps (mkMessage JOIN_ROOM (JNum 5) (JStr "11:59")))
              (mkMessage JOIN_ROOM (JNum 5) (JStr "11:59")) Scenario.both_in_foo)
    as [Hraise Hdrop].
  - vm_compute. reflexivity.
  - apply (Hdrop AttributeError). apply Hraise.
    + intros l. discriminate.
    + apply (bool_decide_unpack _). vm_compute. exact I.
Defined.

Lemma wire_ok_decodes (now : string) (e : effect) :
  wire_ok e →
  from_json JsonText.loads now (to_json JsonText.dumps (msg_of e)) = Ok (msg_of e).
Proof.
  intros [Hu [ts Hts]].
  apply (from_json_to_json _ _ now (msg_of e) ts Hts). cbn zeta.
  apply JsonTextFacts.loads_dumps. rewrite Hts. cbn.
  split; [|done]. apply (bool_decide_unpack _). by vm_compute.
Qed.

Lemma on_frame_wire loads now websocket uid user raw h :
  Forall wire_ok (Connection.on_frame loads now websocket uid user raw h).2.
Proof.
  assert (Hes : (Connection.on_frame loads now websocket uid user raw h).2
                = effects_of (Connection.body loads now websocket uid user raw h)).
  { unfold Connection.on_frame, effects_of.
    by destruct (Connection.body _ _ _ _ _ _ _) as [[[] ?] ?]. }
  rewrite Hes. unfold Connection.body.
  destruct (from_json loads now raw) as [message|e]; [|by rewrite bind_lift_Raise].
  rewrite bind_lift_Ok. destruct user as [id|].
  - destruct (handler_frame now id message h) as (_ & Hw & _).
    destruct (Handlers.handle_message now id message h) as [[[b|e] h1] es1] eqn:Hm.
    + rewrite (bind_run _ _ _ _ _ _ Hm). stepM. unfold ret, emit, effects_of. simpl.
      by rewrite app_nil_r.
    + by rewrite (bind_raise _ _ _ _ _ _ Hm).
  - destruct (negb _); [stepM; unfold ret, emit, effects_of; simpl; wire|].
    destruct (Json.get _ _ _) as [v|e]; [|by stepM]. stepM.
    destruct v; try by stepM. stepM.
    destruct (register_user_cases now uid websocket s h)
      as [Hrun|(_ & _ & _ & Hrun)]; rewrite (bind_run _ _ _ _ _ _ Hrun);
      stepM; unfold ret, emit, effects_of; simpl; wire.
Qed.

(** X20.  Every message that the server sends while it handles a
    frame is read back by [Message.from_json] from its encoding as it was
    sent. *)
Theorem sent_frames_decode (loads : string → option json) (now now' : string)
    (websocket : nat) (uid : string) (user : option string) (raw : string)
    (h : t) (e : effect) :
  e ∈ (Connection.on_frame loads now websocket uid user raw h).2 →
  from_json JsonText.loads now' (to_json JsonText.dumps (msg_of e)) = Ok (msg_of e).
Proof.
  intros Hin. apply wire_ok_decodes.
  by apply (proj1 (Forall_forall _ _) (on_frame_wire loads now websocket uid user raw h)).
Qed.

Lemma sent_frames_decode_witness :
  from_json JsonText.loads "12:05"
    (to_json JsonText.dumps
       (MessageFactory.create_user_joined "12:00" "bob" "foo"))
  = Ok (MessageFactory.create_user_joined "12:00" "bob" "foo").
Proof.
  apply (sent_frames_decode JsonText.loads "12:00" "12:05" 2 "c3c3c3c3"
           (Some "b2b2b2b2")
           (to_json JsonText.dumps
              (Scenario.frame JOIN_ROOM [("room_name", JStr "foo")]))
           Scenario.bob_registered
           (UserSend "a1a1a1a1" (MessageFactory.create_user_joined "12:00" "bob" "foo"))).
  apply list_elem_of_In. vm_compute. left. reflexivity.
Defined.

(** ** The protocol *)

Lemma MessageType_of_Ok (v : json) (t : MessageType) :
  MessageType_of v = Ok t → v = JStr (value t).
Proof.
  unfold MessageType_of. destruct v as [| | |s| |]; try done.
  destruct (List.find _ all_message_types) as [t0|] eqn:Hfind; [|done].
  apply find_some in Hfind as [_ Heq]. apply String.eqb_eq in Heq.
  intros [= <-]. by rewrite Heq.
Qed.

(** X21.  [MessageType(v)] gives the member [t] exactly when [v] is
    the string [t.value]; no two members share a value; anything else
    raises [ValueError]. *)
Theorem message_type_tags (v : json) (t : MessageType) :
  (MessageType_of v = Ok t ↔ v = JStr (value t)) ∧
  (∀ t', value t = value t' → t = t') ∧
  (∀ e, MessageType_of v = Raise e → e = ValueError).
Proof.
  split_and!.
  - split; [apply MessageType_of_Ok|]. intros ->. apply MessageType_of_value.
  - intros t' Heq. assert (H := MessageType_of_value t). rewrite Heq in H.
    rewrite MessageType_of_value in H. by injection H.
  - intros e. unfold MessageType_of. destruct v as [| | |s| |]; try by intros [= <-].
    destruct (List.find _ all_message_types); [done|]. by intros [= <-].
Qed.

(** X22.  [from_json], case by case: it raises [JSONDecodeError] on a
    text that is no JSON, [TypeError] on a value that is no dict,
    [KeyError] on a dict without [type] or without [payload]; a frame
    without [timestamp], or with a null one, gets the clock's reading, and
    any other timestamp is kept as it is, a string or not.  What it
    returns has its type and payload from the dict and a timestamp that is
    not [None]. *)
Theorem from_json_cases (loads : string → option json) (now raw : string) :
  (loads raw = None → from_json loads now raw = Raise JSONDecodeError) ∧
  (∀ d, loads raw = Some d → (∀ l, d ≠ JObj l) →
        from_json loads now raw = Raise TypeError) ∧
  (∀ l, loads raw = Some (JObj l) →
     (Json.assoc "type" l = None → from_json loads now raw = Raise KeyError) ∧
     (∀ t, Json.assoc "type" l = Some (JStr (value t)) →
        (Json.assoc "payload" l = None →
         from_json loads now raw = Raise KeyError) ∧
        (∀ p, Json.assoc "payload" l = Some p →
           (Json.assoc "timestamp" l = None ∨
            Json.assoc "timestamp" l = Some JNull →
            from_json loads now raw = Ok (mkMessage t p (JStr now))) ∧
           (∀ ts, Json.assoc "timestamp" l = Some ts → ts ≠ JNull →
                  from_json loads now raw = Ok (mkMessage t p ts))))) ∧
  (∀ m, from_json loads now raw = Ok m →
        ∃ l, loads raw = Some (JObj l) ∧
             Json.assoc "type" l = Some (JStr (value (type m))) ∧
             Json.assoc "payload" l = Some (payload m) ∧
             timestamp m ≠ JNull).
Proof.
  unfold from_json. split_and!.
  - by intros ->.
  - intros d -> Hd. destruct d; try done. by destruct (Hd l).
  - intros l ->. cbn -[MessageType_of]. split; [by intros ->|].
    intros t ->. rewrite MessageType_of_value. split; [by intros ->|].
    intros p ->. split.
    + by intros [-> | ->].
    + intros ts -> Hts. unfold Message_init. by destruct ts.
  - intros m. destruct (loads raw) as [d|]; [|done].
    destruct d as [| | | | |l]; try done. cbn -[MessageType_of].
    destruct (Json.assoc "type" l) as [tv|] eqn:Htv; [|done].
    destruct (MessageType_of tv) as [t|] eqn:Ht; [|done].
    apply MessageType_of_Ok in Ht. subst tv.
    destruct (Json.assoc "payload" l) as [p|] eqn:Hp; [|done].
    intros [= <-]. exists l. split_and!; try done.
    unfold Message_init. simpl. by destruct (Json.assoc "timestamp" l) as [[]|].
Qed.

(** ** The room *)

(** X23.  [add_user] of a user that is not in the room succeeds: the
    room has the user and one user more, the user's current room is the
    room's name, and a second [add_user] is refused and changes nothing;
    [remove_user] then gives the room back as it was and clears the
    user's current room; [remove_user] of a user that is not in the room
    is refused. *)
Theorem add_then_remove_user (room : Room.t) (user : User.t) :
  User.user_id user ∉ Room._users room →
  let r := Room.add_user room user in
  let room1 := r.1.2 in
  let user1 := r.2 in
  r.1.1 = true ∧
  Room.has_user room1 (User.user_id user) = true ∧
  Room.user_count room1 = (Room.user_count room + 1)%Z ∧
  User.current_room user1 = Some (Room.name room) ∧
  Room.add_user room1 user1 = (false, room1, user1) ∧
  Room.remove_user room1 user1 = (true, room, User.set_current_room user None) ∧
  Room.remove_user room user = (false, room, user).
Proof.
  intros Hnot r room1 user1. subst r room1 user1. unfold Room.add_user.
  destruct (decide (User.user_id user ∈ Room._users room)) as [|_]; [done|].
  simpl. split_and!; try done.
  - by apply bool_decide_eq_true_2, elem_of_union_r, elem_of_singleton.
  - unfold Room.user_count. simpl. rewrite size_union by set_solver.
    rewrite size_singleton. lia.
  - destruct (decide (User.user_id user ∈ Room._users room ∪ {[User.user_id user]}));
      [done|set_solver].
  - unfold Room.remove_user. simpl.
    destruct (decide (User.user_id user ∉ Room._users room ∪ {[User.user_id user]}));
      [set_solver|].
    f_equal. f_equal. destruct room as [rn cb ca us hist mh]. unfold Room.set_users.
    simpl in *. f_equal. set_solver.
  - unfold Room.remove_user. by destruct (decide (User.user_id user ∉ Room._users room)).
Qed.

Lemma add_then_remove_user_witness :
  let user := User.mk "bob" 2 "b2b2b2b2" "12:00" None in
  let room := Room.init "11:00" "foo" "alice" in
  Room.remove_user (Room.add_user room user).1.2 (Room.add_user room user).2
  = (true, room, User.set_current_room user None).
Proof.
  intros user room.
  destruct (add_then_remove_user room user) as (_ & _ & _ & _ & _ & Hback & _).
  - vm_compute. set_solver.
  - exact Hback.
Defined.

(** X24.  [get_message_history(limit)] returns the last [limit]
    records for a positive [limit], the whole history for [limit = 0],
    and the history without its first [-limit] records for a negative
    one. *)
Theorem get_message_history_limit (room : Room.t) (limit : Z) :
  let history := Room._message_history room in
  let got := Room.get_message_history room limit in
  ((0 < limit)%Z →
   got = drop (length history - Z.to_nat limit) history ∧
   length got = min (Z.to_nat limit) (length history)) ∧
  (limit = 0%Z → got = history) ∧
  ((limit < 0)%Z → got = drop (Z.to_nat (- limit)) history).
Proof.
  intros history got. subst got. unfold Room.get_message_history, slice_from. fold history.
  split_and!.
  - intros Hpos. destruct (Z.ltb_spec (- limit) 0); [|lia].
    replace (Z.to_nat (Z.of_nat (length history) + - limit))
      with (length history - Z.to_nat limit) by lia.
    split; [done|]. rewrite length_drop. lia.
  - intros ->. done.
  - intros Hneg. destruct (Z.ltb_spec (- limit) 0); [lia|done].
Qed.

Lemma last_drop_lt {A} (n : nat) (l : list A) :
  n < length l → last (drop n l) = last l.
Proof.
  revert n. induction l as [|x l IH]; intros n Hn; [simpl in Hn; lia|].
  destruct n as [|n]; [done|]. simpl in Hn. rewrite skipn_cons, IH by lia.
  destruct l as [|y l]; [simpl in Hn; lia|done].
Qed.

(** X25.  Whatever the bound [max_history ≥ 0] and the length of
    the history, [add_message_to_history] leaves the new record last and
    the users as they were; the history is then no longer than a positive
    bound, and with the bound 0 it is never cut. *)
Theorem add_message_to_history_any_bound (now : string) (room : Room.t)
    (username content : string) :
  (0 ≤ Room.max_history room)%Z →
  let room' := Room.add_message_to_history now room username content in
  let entry := mkEntry username content now in
  last (Room._message_history room') = Some entry ∧
  Room._users room' = Room._users room ∧
  ((0 < Room.max_history room)%Z →
   (Z.of_nat (length (Room._message_history room')) ≤ Room.max_history room)%Z) ∧
  (Room.max_history room = 0%Z →
   Room._message_history room' = Room._message_history room ++ [entry]).
Proof.
  intros Hmax room' entry. subst room' entry. unfold Room.add_message_to_history.
  set (h := Room._message_history room ++ [mkEntry username content now]).
  assert (Hlen : length h = S (length (Room._message_history room))).
  { subst h. rewrite length_app. simpl. lia. }
  assert (Hlast : last h = Some (mkEntry username content now)).
  { subst h. apply last_snoc. }
  destruct (Z.gtb_spec (Z.of_nat (length h)) (Room.max_history room)) as [Hgt|Hle];
    simpl; split_and!; try done.
  - unfold slice_from. destruct (Z.ltb_spec (- Room.max_history room) 0).
    + rewrite last_drop_lt; [done|]. lia.
    + rewrite last_drop_lt; [done|]. lia.
  - intros Hpos. rewrite (length_slice_from_neg (Room.max_history room)) by done. lia.
  - intros ->. done.
Qed.

Lemma add_message_to_history_any_bound_witness :
  last (Room._message_history
          (Room.add_message_to_history "12:00" (Room.init "11:00" "foo" "alice")
             "alice" "hola"))
  = Some (mkEntry "alice" "hola" "12:00").
Proof.
  destruct (add_message_to_history_any_bound "12:00" (Room.init "11:00" "foo" "alice")
              "alice" "hola") as (Hlast & _).
  - simpl. lia.
  - exact Hlast.
Defined.

(** X26.  [get_user_by_username] returns a user of the room that
    carries the name, and [None] only when no user of the room carries
    it. *)
Theorem get_user_by_username_finds_a_member (objs : gmap string User.t)
    (room : Room.t) (username : string) :
  (∀ id, Room.get_user_by_username objs room username = Some id →
         id ∈ Room._users room ∧
         ∃ u, objs !! id = Some u ∧ User.username u = username) ∧
  (Room.get_user_by_username objs room username = None →
   ∀ id u, id ∈ Room._users room → objs !! id = Some u →
           User.username u ≠ username).
Proof.
  unfold Room.get_user_by_username. split.
  - intros id Hfind. apply find_some in Hfind as [Hin Hok].
    apply list_elem_of_In, elem_of_elements in Hin. split; [done|].
    destruct (objs !! id) as [u|]; [|done]. simpl in Hok.
    apply String.eqb_eq in Hok. eauto.
  - intros Hnone id u Hin Hu Heq.
    assert (H := find_none _ _ Hnone id). simpl in H.
    rewrite Hu in H. simpl in H. rewrite (proj2 (String.eqb_eq _ _) Heq) in H.
    assert (In id (elements (Room._users room))).
    { by apply list_elem_of_In, elem_of_elements. }
    by specialize (H ltac:(done)).
Qed.

(** ** The client *)

Module ChatClientFacts.
Import ChatClient.

Ltac run_client :=
  unfold _handle_message, _handle_connection_ack, _handle_connection_error,
    _handle_rooms_list, _handle_room_users, _handle_chat_message,
    _handle_system_message, _handle_user_joined, _handle_user_left,
    _handle_error, ChatClient.bind, ChatClient.lift, ChatClient.modify, act,
    ChatClient.get, ChatClient.ret.

(** What handling a message makes of the client. *)
Lemma handle_message_room (m : Message) (c : ChatClient.t) :
  let r := _handle_message m c in
  (∀ a, a ∈ r.2 → ∃ g, a = Gui g) ∧
  (current_room r.1.2 = current_room c ∨
   type m = ROOM_USERS ∧
   Json.get (payload m) "room_name" JNull = Ok (current_room r.1.2) ∧
   Json.truthy (current_room r.1.2) = true ∧
   Gui clear_messages ∈ r.2) ∧
  (type m ≠ ROOM_USERS → current_room r.1.2 = current_room c) ∧
  websocket r.1.2 = websocket c ∧
  _loop r.1.2 = _loop c ∧
  (type m ≠ CONNECTION_ERROR → _running r.1.2 = _running c) ∧
  (type m ≠ CONNECTION_ACK → username r.1.2 = username c).
Proof.
  intros r. subst r.
  assert (Hgui : ∀ l : list gui_call, ∀ a, a ∈ Gui <$> l → ∃ g, a = Gui g).
  { intros l a (g & -> & _)%list_elem_of_fmap. eauto. }
  destruct (type m) eqn:Hty; run_client; rewrite Hty;
    destruct (payload m) as [| | | | |l]; simpl;
    repeat match goal with
           | |- context [if ?b then _ else _] => destruct b eqn:?
           end; simpl;
    (split_and!;
     [ first [ apply (Hgui []) | apply (Hgui [_]) | apply (Hgui [_; _; _]) ]
     | first [ by left | idtac ]
     | first [ done | idtac ] | done | done | done | done ]).
  - right. split_and!; try done. set_solver.
Qed.

Lemma on_frame_decoded loads now raw m c :
  _running c = true →
  from_json loads now raw = Ok m →
  on_frame loads now raw c = ((_handle_message m c).1.2, (_handle_message m c).2).
Proof.
  intros Hrun Hm. unfold on_frame. rewrite Hrun. simpl.
  unfold ChatClient.bind, ChatClient.lift. rewrite Hm.
  by destruct (_handle_message m c) as [[o c'] l].
Qed.


End ChatClientFacts.

Lemma deliver_cons now m ms c :
  deliver now (m :: ms) c
  = deliver now ms
      (ChatClient.on_frame JsonText.loads now (to_json JsonText.dumps m) c).1.
Proof. reflexivity. Qed.


(** Frames that are neither [room_users] nor [connection_error] nor
    [connection_ack] leave the client its room, its name and its flags. *)
Lemma deliver_keeps_room now (ms : list Message) (c : ChatClient.t) :
  Forall (λ m, wire_ok (UserSend "" m) ∧ type m ≠ ROOM_USERS ∧
               type m ≠ CONNECTION_ERROR ∧ type m ≠ CONNECTION_ACK) ms →
  ChatClient._running c = true →
  ChatClient.current_room (deliver now ms c) = ChatClient.current_room c ∧
  ChatClient.username (deliver now ms c) = ChatClient.username c ∧
  ChatClient.websocket (deliver now ms c) = ChatClient.websocket c ∧
  ChatClient._loop (deliver now ms c) = ChatClient._loop c ∧
  ChatClient._running (deliver now ms c) = true.
Proof.
  intros Hms. revert c.
  induction Hms as [|m ms (Hw & Hru & Hce & Hca) _ IH]; intros c Hrun; [done|].
  rewrite deliver_cons.
  set (c1 := (ChatClient.on_frame JsonText.loads now (to_json JsonText.dumps m) c).1).
  assert (Hc1 : ChatClient.current_room c1 = ChatClient.current_room c ∧
                ChatClient.username c1 = ChatClient.username c ∧
                ChatClient.websocket c1 = ChatClient.websocket c ∧
                ChatClient._loop c1 = ChatClient._loop c ∧
                ChatClient._running c1 = true).
  { subst c1. assert (Hd := wire_ok_decodes now (UserSend "" m) Hw). simpl in Hd.
    rewrite (ChatClientFacts.on_frame_decoded _ _ _ m c Hrun Hd). simpl.
    destruct (ChatClientFacts.handle_message_room m c)
      as (_ & _ & Hroom & Hws & Hloop & Hrunning & Hname).
    split_and!; [by apply Hroom|by apply Hname|done|done|by rewrite Hrunning]. }
  destruct Hc1 as (H1 & H2 & H3 & H4 & H5).
  destruct (IH c1 H5) as (I1 & I2 & I3 & I4 & I5).
  rewrite I1, I2, I3, I4, I5. done.
Qed.

(** X27.  While the client receives it never sends; its
    [current_room] changes only on a [room_users] frame, which also
    clears the window's messages; a [room_users] frame with a room name
    that is true sets [current_room] to it; the six request types are
    ignored. *)
Theorem client_room_follows_room_users (loads : string → option json)
    (now raw : string) (c : ChatClient.t) :
  let r := ChatClient.on_frame loads now raw c in
  (∀ a, a ∈ r.2 → ∃ g, a = ChatClient.Gui g) ∧
  (ChatClient.current_room r.1 ≠ ChatClient.current_room c →
   ∃ m, from_json loads now raw = Ok m ∧ type m = ROOM_USERS ∧
        ChatClient.Gui ChatClient.clear_messages ∈ r.2) ∧
  (∀ m room users,
     ChatClient._running c = true →
     from_json loads now raw = Ok m →
     type m = ROOM_USERS →
     Json.get (payload m) "room_name" JNull = Ok room →
     Json.get (payload m) "users" (JArr []) = Ok users →
     Json.truthy room = true →
     r = (ChatClient.set_room room c,
          [ChatClient.Gui (ChatClient.set_current_room room);
           ChatClient.Gui (ChatClient.update_users users);
           ChatClient.Gui ChatClient.clear_messages])) ∧
  (∀ m,
     ChatClient._running c = true →
     from_json loads now raw = Ok m →
     type m ∈ [CONNECT; DISCONNECT; CREATE_ROOM; JOIN_ROOM; LEAVE_ROOM;
               LIST_ROOMS] →
     r = (c, [])).
Proof.
  intros r. subst r. split_and!.
  - unfold ChatClient.on_frame. destruct (ChatClient._running c); simpl;
      [|intros a Ha; by apply elem_of_nil in Ha].
    unfold ChatClient.bind, ChatClient.lift.
    destruct (from_json loads now raw) as [m|e];
      [|intros a Ha; by apply elem_of_nil in Ha].
    destruct (ChatClientFacts.handle_message_room m c) as (Hgui & _).
    by destruct (ChatClient._handle_message m c) as [[o c'] l].
  - intros Hne. unfold ChatClient.on_frame in *.
    destruct (ChatClient._running c); simpl in *; [|done].
    unfold ChatClient.bind, ChatClient.lift in *.
    destruct (from_json loads now raw) as [m|e]; [|done].
    destruct (ChatClientFacts.handle_message_room m c) as (_ & Hroom & _).
    destruct (ChatClient._handle_message m c) as [[o c'] l]. simpl in *.
    destruct Hroom as [?|(Hty & _ & _ & Hclear)]; [done|]. eauto.
  - intros m room users Hrun Hm Hty Hroom Husers Ht.
    rewrite (ChatClientFacts.on_frame_decoded _ _ _ m c Hrun Hm).
    unfold ChatClient._handle_message. rewrite Hty.
    unfold ChatClient._handle_room_users, ChatClient.bind, ChatClient.lift.
    rewrite Hroom, Husers, Ht. reflexivity.
  - intros m Hrun Hm Hty.
    rewrite (ChatClientFacts.on_frame_decoded _ _ _ m c Hrun Hm).
    unfold ChatClient._handle_message.
    repeat (apply elem_of_cons in Hty as [->|Hty]; [done|]).
    by apply elem_of_nil in Hty.
Qed.

(** ** Server and client, end to end *)

Lemma Forall_broadcast_in (P : effect → Prop) room message exclude :
  (∀ id, id ∈ Room._users room → P (UserSend id message)) →
  Forall P (Room.broadcast room message exclude).
Proof.
  intros HP. unfold Room.broadcast. apply Forall_fmap, Forall_forall.
  intros id Hin. apply HP. apply list_elem_of_filter in Hin as [_ Hin].
  by apply elem_of_elements.
Qed.

(** What [leave_room] sends to the user that leaves: the list of the
    rooms, at most. *)
Lemma leave_room_inbox now uid R h u :
  WF h →
  objs h !! uid = Some u →
  Forall (λ e, ∀ m, e = UserSend uid m → type m = ROOMS_LIST)
         (effects_of (leave_room now uid R h)).
Proof.
  intros Hwf Hu.
  assert (Hid : User.user_id u = uid) by (eapply wf_user_id; eauto).
  unfold leave_room. stepM.
  destruct (_rooms h !! R) as [room0|] eqn:HR; [|by apply Forall_nil].
  destruct (Room.truthy room0) eqn:Ht; simpl; [|by apply Forall_nil].
  rewrite (bind_run _ _ _ _ _ _ (on_room_run _ _ _ _ _ _ HR Hu)).
  unfold Room.remove_user. rewrite Hid.
  destruct (decide (uid ∉ Room._users room0)) as [Hin|Hin]; simpl.
  { stepM. by apply Forall_nil. }
  stepM. simpl. rewrite lookup_insert_eq. simpl.
  assert (Hothers : ∀ message,
    Forall (λ e, ∀ m, e = UserSend uid m → type m = ROOMS_LIST)
      (Room.broadcast (Room.set_users room0 (Room._users room0 ∖ {[uid]}))
         message None)).
  { intros message. apply Forall_broadcast_in. intros id Hid' m [= -> _].
    simpl in Hid'. set_solver. }
  repeat (match goal with |- context [if ?b then _ else _] => destruct b end; stepM);
    unfold ret, emit, effects_of; simpl; rewrite ?app_nil_r;
    repeat (apply Forall_app; split); try apply Hothers; try by apply Forall_nil.
  all: apply Forall_to_all; by intros id m [= _ <-].
Qed.

(** A join of a room that is not there, by a user that is in a room:
    the user leaves its room and is sent the error. *)
Lemma join_room_refused_after_leave now uid R R0 h u :
  WF h →
  objs h !! uid = Some u →
  User.current_room u = Some R0 →
  R ≠ R0 →
  _rooms h !! R = None →
  ∃ b h1 es1,
    leave_room now uid R0 h = (Ok b, h1, es1) ∧
    join_room now uid R h
    = (Ok false, h1,
       es1 ++ [UserSend uid
                 (MessageFactory.create_error now
                    ("La sala '" +:+ R +:+ "' no existe"))]) ∧
    WF h1 ∧
    objs h1 !! uid ≫= User.current_room = None ∧
    Forall wire_ok es1.
Proof.
  intros Hwf Hu Hcr Hne HR.
  destruct (leave_room_WF now uid R0 h u Hwf Hu)
    as (b & es1 & h1 & u1 & Hrun & Hwf1 & Hu1 & Hleft & _).
  destruct (leave_room_frame (λ _, False) now uid R0 h)
    as (b' & h1' & es1' & Hrun' & Hfr & Hes & _).
  rewrite Hrun in Hrun'. injection Hrun' as <- <- <-.
  exists b, h1, es1. split_and!; try done.
  - unfold join_room. rewrite bind_current_room_of, Hu. simpl. rewrite Hcr. simpl.
    assert (HR0 : R0 ≠ "") by (intros ->; by destruct (WF_no_empty_room h uid u)).
    rewrite (proj2 (truthy_iff R0) HR0). simpl.
    rewrite bool_decide_eq_false_2 by congruence. simpl.
    rewrite bind_assoc, (bind_run _ _ _ _ _ _ Hrun). stepM.
    assert (HR1 : _rooms h1 !! R = None).
    { destruct (_rooms h1 !! R) eqn:E; [|done].
      destruct (fr_new _ _ _ Hfr R HR). by rewrite E. }
    rewrite HR1. stepM. unfold ret, emit. simpl. by rewrite app_nil_r.
  - rewrite Hu1. simpl. by apply Hleft.
Qed.


Lemma inbox_Forall (P : Message → Prop) uid es :
  Forall (λ e, ∀ m, e = UserSend uid m → P m) es → Forall P (inbox uid es).
Proof.
  induction 1 as [|e es He _ IH]; [by apply Forall_nil|].
  unfold inbox. simpl. fold (inbox uid es).
  destruct e as [id m|ws m]; [|done].
  destruct (String.eqb_spec id uid) as [->|]; [|done].
  apply Forall_cons. split; [by apply He|done].
Qed.

(** A chat for a room that the user is no member of changes nothing and
    relays nothing. *)
Lemma chat_of_outsider now uid R (name : json) content ts h :
  ¬ member_of h uid R →
  R ≠ "" →
  let r := Handlers.handle_message now uid
             (mkMessage CHAT_MESSAGE
                (JObj [("username", name); ("room_name", JStr R);
                       ("content", JStr content)]) ts) h in
  state_of r = h ∧ Forall (λ e, type (msg_of e) = ERROR) (effects_of r).
Proof.
  intros Hnot HR0 r. subst r. unfold Handlers.handle_message. simpl.
  unfold Handlers.ChatMessageHandler. simpl. stepM. simpl. stepM.
  assert (Hquiet : ∀ b : bool,
    state_of (Ok b, h, @nil effect) = h ∧
    Forall (λ e, type (msg_of e) = ERROR) (effects_of (Ok b, h, @nil effect))).
  { intros b. split; [done|]. apply List.Forall_nil. }
  destruct (Str.truthy (Str.strip content)); simpl; [|stepM; apply Hquiet].
  rewrite (proj2 (truthy_iff R) HR0). simpl.
  rewrite (proj2 (truthy_iff R) HR0). simpl.
  unfold broadcast_message. stepM.
  destruct (_rooms h !! R) as [room0|] eqn:HR; [|stepM; apply Hquiet].
  destruct (Room.truthy room0); simpl; [|stepM; apply Hquiet].
  assert (Hno : Room.has_user room0 uid = false).
  { apply bool_decide_eq_false_2. intros Hin. apply Hnot. by exists room0. }
  rewrite Hno. simpl. stepM. unfold ret, emit, state_of, effects_of. simpl.
  split; [done|]. apply List.Forall_cons; [done|apply List.Forall_nil].
Qed.

(** X28.  A user in room [R0] asks to join a room that is not there.
    The server takes the user out of [R0] and answers with the error; the
    client, which is sent no [room_users], stays in [R0], so the chat it
    sends next names [R0], and the server relays it to nobody. *)
Theorem refused_join_desynchronises (now now1 now2 now3 : string) (h : t)
    (uid : string) (u : User.t) (R0 R content : string) (c : ChatClient.t) :
  reachable h →
  objs h !! uid = Some u →
  User.current_room u = Some R0 →
  R ≠ R0 →
  _rooms h !! R = None →
  ChatClient.current_room c = JStr R0 →
  ChatClient._running c = true →
  ChatClient.websocket c = true →
  ChatClient._loop c = true →
  let r := join_room now uid R h in
  let c' := deliver now1 (inbox uid (effects_of r)) c in
  let chat := MessageFactory.msg now2 CHAT_MESSAGE
                [("username", ChatClient.username c); ("room_name", JStr R0);
                 ("content", JStr content)] in
  let r' := Handlers.handle_message now3 uid chat (state_of r) in
  (result_of r = Ok false) ∧
  objs (state_of r) !! uid ≫= User.current_room = None ∧
  ChatClient.current_room c' = JStr R0 ∧
  ChatClient._on_gui_send_message now2 content c' = (Ok tt, c', [ChatClient.WsSend chat]) ∧
  state_of r' = state_of r ∧
  Forall (λ e, type (msg_of e) = ERROR) (effects_of r').
Proof.
  intros Hwf%reachable_WF Hu Hcr Hne HR Hroom Hrunning Hws Hloop r c' chat r'.
  destruct (join_room_refused_after_leave now uid R R0 h u Hwf Hu Hcr Hne HR)
    as (b & h1 & es1 & Hleave & Hjoin & Hwf1 & Hcr1 & Hwire).
  assert (Hinbox := leave_room_inbox now uid R0 h u Hwf Hu).
  rewrite Hleave in Hinbox. unfold effects_of in Hinbox. simpl in Hinbox.
  assert (HR0 : R0 ≠ "") by (intros ->; by destruct (WF_no_empty_room h uid u)).
  assert (Hkeep : ChatClient.current_room c' = JStr R0 ∧
                  ChatClient.username c' = ChatClient.username c ∧
                  ChatClient.websocket c' = true ∧
                  ChatClient._loop c' = true ∧
                  ChatClient._running c' = true).
  { subst c' r. rewrite Hjoin. unfold effects_of. simpl.
    destruct (deliver_keeps_room now1
                (inbox uid (es1 ++ [UserSend uid
                   (MessageFactory.create_error now
                      ("La sala '" +:+ R +:+ "' no existe"))])) c)
      as (K1 & K2 & K3 & K4 & K5); [|done|by rewrite K1, K2, K3, K4, K5].
    apply inbox_Forall, Forall_app. split.
    - apply Forall_forall. intros e He m ->. split.
      + by apply (proj1 (Forall_forall _ _) Hwire (UserSend uid m)).
      + by rewrite (proj1 (Forall_forall _ _) Hinbox (UserSend uid m) He m eq_refl).
    - apply Forall_cons. split; [|by apply Forall_nil]. intros m [= <-].
      split; [wire_one|done]. }
  destruct Hkeep as (K1 & K2 & K3 & K4 & K5).
  subst r r'. rewrite Hjoin. unfold result_of, state_of. simpl.
  split_and!; try done.
  - unfold ChatClient._on_gui_send_message, ChatClient._schedule_coroutine,
      ChatClient._send, ChatClient.bind, ChatClient.get, ChatClient.act,
      ChatClient.ret.
    subst chat. rewrite <- K2. clear K2. clearbody c'.
    destruct c' as [un ui cr ws rn lp]. simpl in *. subst.
    by destruct R0.
  - apply (chat_of_outsider now3 uid R0); [|done].
    intros Hm. destruct (wf_member h1 Hwf1 uid R0 Hm) as (u' & Hu' & Hc').
    rewrite Hu' in Hcr1. simpl in Hcr1. congruence.
  - apply (chat_of_outsider now3 uid R0); [|done].
    intros Hm. destruct (wf_member h1 Hwf1 uid R0 Hm) as (u' & Hu' & Hc').
    rewrite Hu' in Hcr1. simpl in Hcr1. congruence.
Qed.

Lemma refused_join_desynchronises_witness :
  let h := Scenario.both_in_foo in
  let c := ChatClient.mk (JStr "alice") (JStr "a1a1a1a1") (JStr "foo")
             true true true in
  let r := join_room "12:00" "a1a1a1a1" "bar" h in
  let c' := deliver "12:00" (inbox "a1a1a1a1" (effects_of r)) c in
  let chat := MessageFactory.msg "12:01" CHAT_MESSAGE
                [("username", JStr "alice"); ("room_name", JStr "foo");
                 ("content", JStr "hola")] in
  let r' := Handlers.handle_message "12:01" "a1a1a1a1" chat (state_of r) in
  (result_of r = Ok false) ∧
  objs (state_of r) !! "a1a1a1a1" ≫= User.current_room = None ∧
  ChatClient.current_room c' = JStr "foo" ∧
  ChatClient._on_gui_send_message "12:01" "hola" c'
  = (Ok tt, c', [ChatClient.WsSend chat]) ∧
  state_of r' = state_of r ∧
  Forall (λ e, type (msg_of e) = ERROR) (effects_of r').
Proof.
  apply (refused_join_desynchronises "12:00" "12:00" "12:01" "12:01"
           Scenario.both_in_foo "a1a1a1a1"
           (User.mk "alice" 1 "a1a1a1a1" "2026-01-01T09:01:00" (Some "foo"))
           "foo" "bar" "hola"
           (ChatClient.mk (JStr "alice") (JStr "a1a1a1a1") (JStr "foo")
              true true true)).
  - apply both_in_foo_reachable.
  - vm_compute. reflexivity.
  - reflexivity.
  - discriminate.
  - vm_compute. reflexivity.
  - reflexivity.
  - reflexivity.
  - reflexivity.
  - reflexivity.
Defined.





